(** * CourseScout test-validation scripts: quality gates and test-plan orchestration

    Shallow embedding of [scripts/quality_gate_enforcer.py] and
    [scripts/test_validation_runner.py].

    Conventions of the embedding:
    - Python [float] values are exact rationals ([Q]); equality of computed
      numbers is [Qeq] ([==]).  Rounding, NaN and infinities are outside the
      model.
    - Python [int] values are [Z].
    - Python [str] is [string]; a severity is a [str] in the source
      ("INFO", "WARNING", "CRITICAL") and stays one here.
    - A Python exception is a record of its class name and its text.
    - The threshold registry (a [dict] from [str] to [QualityThreshold]) is a
      [gmap string QualityThreshold].
    - A dictionary with a fixed set of keys is a record; a key read with
      [d.get(k, default)] is an optional field.
    - The external build and test tool, the clock and the order in which
      concurrent tasks settle are inputs of the functions that observe them.
    - Left out: console and log output, the writing of report files, and the
      timestamps and durations of the reports, none of which feeds a verdict,
      a score or a count.  The recommendation and next-step texts are
      functions of their own, beside the report records. *)

From Stdlib Require Import ZArith QArith Qminmax Lqa Lia List String Ascii Permutation.
From stdpp Require Import base option strings pretty gmap list.

Import ListNotations.
Local Open Scope string_scope.
Local Open Scope list_scope.
Local Open Scope Q_scope.

(** ** Comparisons of Python numbers, as booleans *)

Module PyNum.

Definition geb (a b : Q) : bool := Qle_bool b a.
Definition leb (a b : Q) : bool := Qle_bool a b.
Definition ltb (a b : Q) : bool := negb (Qle_bool b a).
Definition gtb (a b : Q) : bool := negb (Qle_bool a b).

(** [sum(xs)] over floats, starting from [0]. *)
Definition sumQ (xs : list Q) : Q := fold_left Qplus xs 0.

(** [sum(xs)] over ints. *)
Definition sumZ (xs : list Z) : Z := fold_left Z.add xs 0%Z.

End PyNum.

(** ** quality_gate_enforcer.py: data model *)

Record QualityThreshold := mkThreshold {
  name : string;
  value : Q;
  critical : bool;
  description : string
}.

Record QualityResult := mkResult {
  check_name : string;
  passed : bool;
  actual_value : option Q;
  threshold_value : option Q;
  message : string;
  severity : string
}.

Definition is_severity (s : string) (r : QualityResult) : bool :=
  String.eqb (severity r) s.

(** ** Scorer: [calculate_overall_quality_score] *)

Module Scorer.

Definition critical_weight : Q := 3.
Definition warning_weight : Q := 1.
Definition info_weight : Q := 1 # 2.

(** The conditional expression that picks the weight of one result. *)
Definition weight_of (r : QualityResult) : Q :=
  if is_severity "CRITICAL" r then critical_weight
  else if is_severity "WARNING" r then warning_weight
  else info_weight.

Definition score_of (r : QualityResult) : Q :=
  if passed r then 100 else 0.

(** One iteration of the [for result in self.validation_results] loop on the
    pair [(total_score, total_weight)]. *)
Definition score_step (acc : Q * Q) (r : QualityResult) : Q * Q :=
  let weight := weight_of r in
  let score := score_of r in
  (fst acc + score * weight, snd acc + weight).

Definition calculate_overall_quality_score (validation_results : list QualityResult) : Q :=
  match validation_results with
  | [] => 0
  | _ =>
      let '(total_score, total_weight) := fold_left score_step validation_results (0, 0) in
      if PyNum.gtb total_weight 0 then total_score / total_weight else 0
  end.

(** The score as the specification words it: each result has a weight by
    severity and contributes [100 * weight] when it passed. *)
Definition spec_weight (r : QualityResult) : Q :=
  if String.eqb (severity r) "CRITICAL" then 3
  else if String.eqb (severity r) "WARNING" then 1
  else 1 # 2.

Definition spec_contribution (r : QualityResult) : Q :=
  if passed r then 100 * spec_weight r else 0.

Fixpoint total (f : QualityResult -> Q) (rs : list QualityResult) : Q :=
  match rs with
  | [] => 0
  | r :: rs' => f r + total f rs'
  end.

Definition spec_score (rs : list QualityResult) : Q :=
  total spec_contribution rs / total spec_weight rs.

End Scorer.

(** ** Report of the enforcer: [generate_quality_report] *)

Record QualityReport := mkQualityReport {
  (* report['execution_summary'] *)
  summary_overall_passed : bool;
  summary_quality_score : Q;
  (* report['quality_gates'] *)
  gates_total_checks : nat;
  gates_passed : nat;
  gates_critical_failures : nat;
  gates_warnings : nat;
  (* report['detailed_results'] *)
  detailed_critical_failures : list QualityResult;
  detailed_warnings : list QualityResult;
  detailed_passed : list QualityResult
}.

Definition critical_failed_of (rs : list QualityResult) : list QualityResult :=
  List.filter (fun r => negb (passed r) && is_severity "CRITICAL" r) rs.

Definition warnings_of (rs : list QualityResult) : list QualityResult :=
  List.filter (fun r => negb (passed r) && is_severity "WARNING" r) rs.

Definition passed_of (rs : list QualityResult) : list QualityResult :=
  List.filter (fun r => passed r) rs.

Definition generate_quality_report (validation_results : list QualityResult) : QualityReport :=
  let critical_failed := critical_failed_of validation_results in
  let warnings := warnings_of validation_results in
  let passed := passed_of validation_results in
  let quality_score := Scorer.calculate_overall_quality_score validation_results in
  let overall_passed := Nat.eqb (List.length critical_failed) 0 in
  {| summary_overall_passed := overall_passed;
     summary_quality_score := quality_score;
     gates_total_checks := List.length validation_results;
     gates_passed := List.length passed;
     gates_critical_failures := List.length critical_failed;
     gates_warnings := List.length warnings;
     detailed_critical_failures := critical_failed;
     detailed_warnings := warnings;
     detailed_passed := passed |}.

(** ** Exceptions and fallible steps *)

Record PyExn := mkExn {
  exn_class : string;
  exn_text : string
}.

(** [str(e)] *)
Definition str_exn (e : PyExn) : string := exn_text e.

(** What [d[k]] raises on a [dict] without the key [k]. *)
Definition KeyError (k : string) : PyExn :=
  {| exn_class := "KeyError"; exn_text := "'" +:+ k +:+ "'" |}.

(** What [l[i]] raises on a [list] shorter than [i + 1]. *)
Definition IndexError : PyExn :=
  {| exn_class := "IndexError"; exn_text := "list index out of range" |}.

Inductive Exc (A : Type) : Type :=
| Returned (a : A)
| Raised (e : PyExn).
Arguments Returned {A} a.
Arguments Raised {A} e.

Definition exc_bind {A B : Type} (m : Exc A) (k : A -> Exc B) : Exc B :=
  match m with
  | Returned a => k a
  | Raised e => Raised e
  end.

Notation "x <-! m ; k" := (exc_bind m (fun x => k))
  (at level 100, m at next level, right associativity,
   format "'[v' x  <-!  m ; '/' k ']'").

(** ** Threshold registry: [_initialize_thresholds] *)

Definition _initialize_thresholds : gmap string QualityThreshold :=
  list_to_map
    [ (* Code Coverage Thresholds *)
      ("overall_test_coverage",
        mkThreshold "Overall Test Coverage" 90 true
          "Minimum overall test coverage percentage");
      ("critical_path_coverage",
        mkThreshold "Critical Path Coverage" 95 true
          "Coverage for payment, booking, and security flows");
      ("service_layer_coverage",
        mkThreshold "Service Layer Coverage" 95 true
          "Coverage for all service protocol implementations");
      ("ui_test_coverage",
        mkThreshold "UI Test Coverage" 80 false
          "UI component test coverage");
      (* Performance Thresholds *)
      ("max_test_execution_time",
        mkThreshold "Test Execution Time" 45 true
          "Maximum total test suite execution time");
      ("max_individual_test_time",
        mkThreshold "Individual Test Time" 30 false
          "Maximum individual test execution time");
      ("performance_regression_threshold",
        mkThreshold "Performance Regression" 10 true
          "Maximum allowed performance regression");
      ("memory_leak_threshold",
        mkThreshold "Memory Leaks" 0 true
          "Maximum allowed memory leaks");
      (* Security Thresholds *)
      ("critical_vulnerabilities",
        mkThreshold "Critical Vulnerabilities" 0 true
          "Maximum critical security vulnerabilities");
      ("high_vulnerabilities",
        mkThreshold "High Vulnerabilities" 0 true
          "Maximum high-severity vulnerabilities");
      ("medium_vulnerabilities",
        mkThreshold "Medium Vulnerabilities" 2 false
          "Maximum medium-severity vulnerabilities");
      ("security_test_coverage",
        mkThreshold "Security Test Coverage" 95 true
          "Security-specific test coverage");
      (* Reliability Thresholds *)
      ("test_flaky_rate",
        mkThreshold "Test Flaky Rate" 2 true
          "Maximum percentage of flaky tests");
      ("test_failure_rate",
        mkThreshold "Test Failure Rate" 0 true
          "Maximum test failure rate for non-flaky tests");
      ("code_quality_score",
        mkThreshold "Code Quality Score" 95 true
          "Minimum overall code quality score");
      (* API & Integration Thresholds *)
      ("api_response_time",
        mkThreshold "API Response Time" 200 false
          "Maximum API endpoint response time");
      ("database_query_time",
        mkThreshold "Database Query Time" 100 false
          "Maximum database query execution time");
      ("integration_test_success",
        mkThreshold "Integration Test Success" 100 true
          "Integration test success rate") ].

(** [self.quality_thresholds[key]] *)
Definition get_threshold (quality_thresholds : gmap string QualityThreshold)
    (key : string) : Exc QualityThreshold :=
  match quality_thresholds !! key with
  | Some t => Returned t
  | None => Raised (KeyError key)
  end.

(** [self.quality_thresholds[key].value = v] *)
Definition set_threshold_value (quality_thresholds : gmap string QualityThreshold)
    (key : string) (v : Q) : Exc (gmap string QualityThreshold) :=
  t <-! get_threshold quality_thresholds key;
  Returned (<[key := mkThreshold (name t) v (critical t) (description t)]> quality_thresholds).

(** The [if args.strict:] block of [main], run before any validation. *)
Definition apply_strict_mode (quality_thresholds : gmap string QualityThreshold)
    : Exc (gmap string QualityThreshold) :=
  th1 <-! set_threshold_value quality_thresholds "overall_test_coverage" 95;
  th2 <-! set_threshold_value th1 "critical_path_coverage" 98;
  th3 <-! set_threshold_value th2 "max_test_execution_time" 30;
  set_threshold_value th3 "test_flaky_rate" 1.

(** ** Strings: [sub in s] and [s.count(sub)] *)

Module PyStr.

(** [sub in s] *)
Fixpoint contains (sub s : string) : bool :=
  String.prefix sub s ||
  match s with
  | EmptyString => false
  | String _ s' => contains sub s'
  end.

(** [s.count(sub)]: occurrences found from left to right without overlap.
    [skip] is the number of characters of [s] still covered by the last
    occurrence counted. *)
Fixpoint count_from (sub s : string) (skip : nat) : nat :=
  match s with
  | EmptyString =>
      match skip with
      | O => if String.prefix sub s then 1%nat else 0%nat
      | S _ => 0%nat
      end
  | String _ s' =>
      match skip with
      | S k => count_from sub s' k
      | O =>
          if String.prefix sub s
          then S (count_from sub s' (Nat.pred (String.length sub)))
          else count_from sub s' 0
      end
  end.

Definition count (s sub : string) : nat := count_from sub s 0.

(** [', '.join(xs)] and friends *)
Definition join (sep : string) (xs : list string) : string := String.concat sep xs.

End PyStr.

(** ** Validator inputs

    The metric dictionaries the validators read.  A key read with
    [d.get(k, default)] is an optional field. *)

Record FileCoverage := mkFileCoverage {
  file_name : option string;
  file_lineCoverage : option Q
}.

Record TargetCoverage := mkTargetCoverage {
  files : option (list FileCoverage)
}.

Record CoverageData := mkCoverageData {
  lineCoverage : option Q;
  targets : option (list TargetCoverage)
}.

Record SlowTest := mkSlowTest {
  duration_seconds : option Q
}.

(** The dictionary returned by [run_xcode_test_with_coverage]; the caller
    passes the same dictionary on as [performance_data]. *)
Record PerformanceData := mkPerformanceData {
  coverage : option CoverageData;
  execution_time_minutes : option Q;
  slow_tests : option (list SlowTest);
  memory_leaks : option Q
}.

Record Vulnerabilities := mkVulnerabilities {
  vuln_critical : option Q;
  vuln_high : option Q;
  vuln_medium : option Q
}.

Record SecurityData := mkSecurityData {
  vulnerabilities : option Vulnerabilities;
  test_coverage : option Q
}.

(** ** Validators *)

Section Validators.

(** Rendering of numbers inside f-strings: [f"{x:.Nf}"] and [f"{x}"]. *)
Variable format_fixed : nat -> Q -> string.
Variable format_value : Q -> string.

Definition critical_paths : list string :=
  [ "PaymentService"; "BookingService"; "SecurityService";
    "AuthenticationService"; "APIGatewayService" ].

Definition is_critical_path_file (file_name : string) : bool :=
  existsb (fun path => PyStr.contains path file_name) critical_paths.

Definition is_service_file (file_name : string) : bool :=
  PyStr.contains "Service.swift" file_name && negb (PyStr.contains "Mock" file_name).

(** The two nested loops [for target ...: for file_data ...:] that add up
    the coverage of the selected files and count them. *)
Definition accumulate_file_coverage (selected : string -> bool)
    (coverage_data : CoverageData) : Q * nat :=
  fold_left
    (fun acc target =>
       fold_left
         (fun acc file_data =>
            let file_name := default "" (file_name file_data) in
            if selected file_name
            then
              let coverage := default 0 (file_lineCoverage file_data) * 100 in
              (fst acc + coverage, S (snd acc))
            else acc)
         (default [] (files target)) acc)
    (default [] (targets coverage_data)) (0, 0%nat).

Definition of_nat (n : nat) : Q := inject_Z (Z.of_nat n).

Definition validate_test_coverage (quality_thresholds : gmap string QualityThreshold)
    (coverage_data : CoverageData) : Exc (list QualityResult) :=
  (* Overall coverage validation *)
  let overall_coverage := default 0 (lineCoverage coverage_data) * 100 in
  threshold <-! get_threshold quality_thresholds "overall_test_coverage";
  let results :=
    [ {| check_name := name threshold;
         passed := PyNum.geb overall_coverage (value threshold);
         actual_value := Some overall_coverage;
         threshold_value := Some (value threshold);
         message := "Overall coverage: " +:+ format_fixed 2 overall_coverage
                    +:+ "% (threshold: " +:+ format_value (value threshold) +:+ "%)";
         severity := if critical threshold && PyNum.ltb overall_coverage (value threshold)
                     then "CRITICAL" else "INFO" |} ] in
  (* Critical path coverage *)
  let '(critical_path_coverage, critical_files_found) :=
    accumulate_file_coverage is_critical_path_file coverage_data in
  results <-!
    (if (0 <? critical_files_found)%nat then
       let avg_critical_coverage := critical_path_coverage / of_nat critical_files_found in
       threshold <-! get_threshold quality_thresholds "critical_path_coverage";
       Returned (results ++
         [ {| check_name := name threshold;
              passed := PyNum.geb avg_critical_coverage (value threshold);
              actual_value := Some avg_critical_coverage;
              threshold_value := Some (value threshold);
              message := "Critical path coverage: " +:+ format_fixed 2 avg_critical_coverage
                         +:+ "% (threshold: " +:+ format_value (value threshold) +:+ "%)";
              severity := if critical threshold
                             && PyNum.ltb avg_critical_coverage (value threshold)
                          then "CRITICAL" else "INFO" |} ])
     else Returned results);
  (* Service layer coverage *)
  let '(service_coverage, service_files_found) :=
    accumulate_file_coverage is_service_file coverage_data in
  if (0 <? service_files_found)%nat then
    let avg_service_coverage := service_coverage / of_nat service_files_found in
    threshold <-! get_threshold quality_thresholds "service_layer_coverage";
    Returned (results ++
      [ {| check_name := name threshold;
           passed := PyNum.geb avg_service_coverage (value threshold);
           actual_value := Some avg_service_coverage;
           threshold_value := Some (value threshold);
           message := "Service layer coverage: " +:+ format_fixed 2 avg_service_coverage
                      +:+ "% (threshold: " +:+ format_value (value threshold) +:+ "%)";
           severity := if critical threshold
                          && PyNum.ltb avg_service_coverage (value threshold)
                       then "CRITICAL" else "INFO" |} ])
  else Returned results.

Definition validate_performance_metrics (quality_thresholds : gmap string QualityThreshold)
    (performance_data : PerformanceData) : Exc (list QualityResult) :=
  (* Test execution time *)
  let execution_time := default 0 (execution_time_minutes performance_data) in
  threshold <-! get_threshold quality_thresholds "max_test_execution_time";
  let r1 :=
    {| check_name := name threshold;
       passed := PyNum.leb execution_time (value threshold);
       actual_value := Some execution_time;
       threshold_value := Some (value threshold);
       message := "Test execution time: " +:+ format_fixed 2 execution_time
                  +:+ " minutes (limit: " +:+ format_value (value threshold) +:+ " minutes)";
       severity := if critical threshold && PyNum.gtb execution_time (value threshold)
                   then "CRITICAL" else "INFO" |} in
  (* Individual test performance *)
  let slow_tests := default [] (slow_tests performance_data) in
  max_individual_time <-! get_threshold quality_thresholds "max_individual_test_time";
  let slow_test_count :=
    List.length
      (List.filter
         (fun t => PyNum.gtb (default 0 (duration_seconds t)) (value max_individual_time))
         slow_tests) in
  let r2 :=
    {| check_name := name max_individual_time;
       passed := Nat.eqb slow_test_count 0;
       actual_value := Some (of_nat slow_test_count);
       threshold_value := Some 0;
       message := "Slow tests (>" +:+ format_value (value max_individual_time) +:+ "s): "
                  +:+ format_value (of_nat slow_test_count);
       severity := if (0 <? slow_test_count)%nat then "WARNING" else "INFO" |} in
  (* Memory leak detection *)
  let memory_leaks := default 0 (memory_leaks performance_data) in
  leak_threshold <-! get_threshold quality_thresholds "memory_leak_threshold";
  let r3 :=
    {| check_name := name leak_threshold;
       passed := PyNum.leb memory_leaks (value leak_threshold);
       actual_value := Some memory_leaks;
       threshold_value := Some (value leak_threshold);
       message := "Memory leaks detected: " +:+ format_value memory_leaks;
       severity := if PyNum.gtb memory_leaks (value leak_threshold)
                   then "CRITICAL" else "INFO" |} in
  Returned [r1; r2; r3].

Definition no_vulnerabilities : Vulnerabilities :=
  {| vuln_critical := None; vuln_high := None; vuln_medium := None |}.

Definition validate_security_compliance (quality_thresholds : gmap string QualityThreshold)
    (security_data : SecurityData) : Exc (list QualityResult) :=
  let vulnerabilities := default no_vulnerabilities (vulnerabilities security_data) in
  (* Critical vulnerabilities *)
  let critical_vuln := default 0 (vuln_critical vulnerabilities) in
  threshold <-! get_threshold quality_thresholds "critical_vulnerabilities";
  let r1 :=
    {| check_name := name threshold;
       passed := PyNum.leb critical_vuln (value threshold);
       actual_value := Some critical_vuln;
       threshold_value := Some (value threshold);
       message := "Critical vulnerabilities: " +:+ format_value critical_vuln;
       severity := if PyNum.gtb critical_vuln (value threshold)
                   then "CRITICAL" else "INFO" |} in
  (* High severity vulnerabilities *)
  let high_vuln := default 0 (vuln_high vulnerabilities) in
  threshold <-! get_threshold quality_thresholds "high_vulnerabilities";
  let r2 :=
    {| check_name := name threshold;
       passed := PyNum.leb high_vuln (value threshold);
       actual_value := Some high_vuln;
       threshold_value := Some (value threshold);
       message := "High severity vulnerabilities: " +:+ format_value high_vuln;
       severity := if PyNum.gtb high_vuln (value threshold)
                   then "CRITICAL" else "INFO" |} in
  (* Medium severity vulnerabilities *)
  let medium_vuln := default 0 (vuln_medium vulnerabilities) in
  threshold <-! get_threshold quality_thresholds "medium_vulnerabilities";
  let r3 :=
    {| check_name := name threshold;
       passed := PyNum.leb medium_vuln (value threshold);
       actual_value := Some medium_vuln;
       threshold_value := Some (value threshold);
       message := "Medium severity vulnerabilities: " +:+ format_value medium_vuln;
       severity := if PyNum.gtb medium_vuln (value threshold)
                   then "WARNING" else "INFO" |} in
  (* Security test coverage *)
  let security_coverage := default 0 (test_coverage security_data) in
  threshold <-! get_threshold quality_thresholds "security_test_coverage";
  let r4 :=
    {| check_name := name threshold;
       passed := PyNum.geb security_coverage (value threshold);
       actual_value := Some security_coverage;
       threshold_value := Some (value threshold);
       message := "Security test coverage: " +:+ format_fixed 1 security_coverage +:+ "%";
       severity := if critical threshold && PyNum.ltb security_coverage (value threshold)
                   then "CRITICAL" else "INFO" |} in
  Returned [r1; r2; r3; r4].

(** [run_security_scan]: the fixed scan result of the source. *)
Definition run_security_scan : SecurityData :=
  {| vulnerabilities :=
       Some {| vuln_critical := Some 0; vuln_high := Some 0; vuln_medium := Some 1 |};
     test_coverage := Some (193 # 2) |}.

(** [run_comprehensive_validation] of the enforcer.  Each of the four runs of
    [run_xcode_test_with_coverage] is given by what it returned: the success
    flag and the data dictionary. *)
Definition run_comprehensive_validation
    (quality_thresholds : gmap string QualityThreshold)
    (unit_run integration_run perf_run security_run : bool * PerformanceData)
    (validation_results : list QualityResult) : Exc (bool * list QualityResult) :=
  let overall_success := true in
  let '(unit_success, unit_data) := unit_run in
  validation_results <-!
    match coverage unit_data with
    | Some c =>
        coverage_results <-! validate_test_coverage quality_thresholds c;
        Returned (validation_results ++ coverage_results)
    | None => Returned validation_results
    end;
  performance_results <-! validate_performance_metrics quality_thresholds unit_data;
  let validation_results := validation_results ++ performance_results in
  let overall_success := overall_success && unit_success in
  let overall_success := overall_success && fst integration_run in
  let overall_success := overall_success && fst perf_run in
  let security_scan_data := run_security_scan in
  security_results <-! validate_security_compliance quality_thresholds security_scan_data;
  let validation_results := validation_results ++ security_results in
  let overall_success := overall_success && fst security_run in
  let report := generate_quality_report validation_results in
  Returned (overall_success && summary_overall_passed report, validation_results).

End Validators.

(** The severity the specification derives from a threshold's criticality
    and the outcome of the check. *)
Definition derived_severity (threshold_critical check_passed : bool) : string :=
  if check_passed then "INFO"
  else if threshold_critical then "CRITICAL" else "WARNING".

(** A registry that differs from the built-in one in threshold values only:
    same keys, and under each key the same name and criticality. *)
Definition same_gates (th : gmap string QualityThreshold) : Prop :=
  forall key : string,
    (fun t => (name t, critical t)) <$> (th !! key)
    = (fun t => (name t, critical t)) <$> (_initialize_thresholds !! key).

(** ** [main] of the enforcer: threshold setup, validation, exit verdict *)

Record EnforcerArgs := mkEnforcerArgs {
  arg_strict : bool;
  arg_test_plan : option string;
  arg_skip_tests : bool
}.

(** [if args.test_plan:] holds for a test plan that was given and is not the
    empty string. *)
Definition given_test_plan (args : EnforcerArgs) : option string :=
  match arg_test_plan args with
  | Some "" => None
  | given => given
  end.

Section EnforcerMain.

Variable format_fixed : nat -> Q -> string.
Variable format_value : Q -> string.

(** [xcode_run plan] is what [run_xcode_test_with_coverage plan] returned.
    The result is [final_success], which decides the exit code. *)
Definition enforcer_main (args : EnforcerArgs)
    (xcode_run : string -> bool * PerformanceData) : Exc bool :=
  let quality_thresholds := _initialize_thresholds in
  quality_thresholds <-!
    (if arg_strict args then apply_strict_mode quality_thresholds
     else Returned quality_thresholds);
  outcome <-!
    match given_test_plan args with
    | Some test_plan =>
        let '(success, data) := xcode_run test_plan in
        match coverage data with
        | Some c =>
            results <-! validate_test_coverage format_fixed format_value quality_thresholds c;
            Returned (success, results)
        | None => Returned (success, [])
        end
    | None =>
        if negb (arg_skip_tests args) then
          run_comprehensive_validation format_fixed format_value quality_thresholds
            (xcode_run "UnitTestPlan") (xcode_run "IntegrationTestPlan")
            (xcode_run "PerformanceTestPlan") (xcode_run "SecurityTestPlan") []
        else Returned (true, [])
    end;
  let '(success, validation_results) := outcome in
  Returned (success && Nat.eqb (List.length (critical_failed_of validation_results)) 0).

End EnforcerMain.

(** ** test_validation_runner.py: data model *)

Record TestValidationResult := mkTestValidationResult {
  test_plan : string;
  success : bool;
  execution_time_seconds : Q;
  coverage_percentage : Q;
  test_count : Z;
  passed_count : Z;
  failed_count : Z;
  skipped_count : Z;
  memory_usage_mb : Q;
  cpu_usage_percentage : Q;
  errors : list string;
  warnings : list string;
  quality_score : Q
}.

(** [self.quality_gate_results]: empty at first, then the report written by
    the enforcer if its file could be read, or an error record. *)
Inductive GateResults :=
| GateEmpty
| GateError (error : string)
| GateReport (report : QualityReport).

Record ValidationReport := mkValidationReport {
  overall_success : bool;
  total_tests : Z;
  total_passed : Z;
  total_failed : Z;
  overall_coverage : Q;
  overall_quality_score : Q;
  test_plan_results : list TestValidationResult;
  quality_gate_results : GateResults
}.

(** The dictionary returned by [run_xcode_test_plan]. *)
Record XcodeResult := mkXcodeResult {
  xr_success : bool;
  xr_stdout : string;
  xr_stderr : string;
  xr_return_code : Z;
  xr_errors : option (list string);
  xr_warnings : option (list string)
}.

Record TestCounts := mkTestCounts {
  tc_total : Z;
  tc_passed : Z;
  tc_failed : Z;
  tc_skipped : Z
}.

Record PerformanceMetrics := mkPerformanceMetrics {
  memory_mb : Q;
  cpu_percent : Q
}.

(** ** The external build and test tool, as seen by the runner *)

(** How the build subprocess ended. *)
Inductive BuildOutcome :=
| BuildExited (returncode : Z) (stderr : string)
| BuildRaised (e : PyExn).

(** How the test subprocess ended within [asyncio.wait_for(..., timeout=1800)]. *)
Inductive TestOutcome :=
| TestExited (returncode : Z) (stdout stderr : string)
| TestTimedOut
| TestRaised (e : PyExn).

(** Everything outside the runner that one execution of a plan observes.
    [env_fault] is an exception raised inside the [try] block of
    [execute_test_plan] after the test run by a step that the model treats as
    total (metric extraction, the clock); [None] when there is none. *)
Record PlanEnv := mkPlanEnv {
  env_build : BuildOutcome;
  env_test : TestOutcome;
  env_elapsed : Q;
  env_fault : option PyExn
}.

(** ** Executor wrappers *)

Definition build_for_testing (b : BuildOutcome) : bool :=
  match b with
  | BuildExited returncode _ => (returncode =? 0)%Z
  | BuildRaised _ => false
  end.

Definition run_xcode_test_plan (t : TestOutcome) : XcodeResult :=
  match t with
  | TestExited returncode stdout stderr =>
      {| xr_success := (returncode =? 0)%Z;
         xr_stdout := stdout;
         xr_stderr := stderr;
         xr_return_code := returncode;
         xr_errors := None;
         xr_warnings := None |}
  | TestTimedOut =>
      {| xr_success := false;
         xr_stdout := "";
         xr_stderr := "Test execution timed out";
         xr_return_code := 1;
         xr_errors := Some ["Test execution timeout"];
         xr_warnings := None |}
  | TestRaised e =>
      {| xr_success := false;
         xr_stdout := "";
         xr_stderr := str_exn e;
         xr_return_code := 1;
         xr_errors := Some [str_exn e];
         xr_warnings := None |}
  end.

(** ** Metric extraction and the per-plan score *)

Definition extract_coverage_from_result (test_result : XcodeResult) : Q :=
  if xr_success test_result then 171 # 2 else 0.

Definition extract_test_counts_from_result (test_result : XcodeResult) : TestCounts :=
  let stdout := xr_stdout test_result in
  let passed := (Z.of_nat (PyStr.count stdout "Test Case '-[")
                 + Z.of_nat (PyStr.count stdout " passed"))%Z in
  let failed := Z.of_nat (PyStr.count stdout "failed") in
  let skipped := Z.of_nat (PyStr.count stdout "skipped") in
  let total := (passed + failed + skipped)%Z in
  {| tc_total := if (0 <? total)%Z then total else 1%Z;
     tc_passed := passed;
     tc_failed := failed;
     tc_skipped := skipped |}.

Definition extract_performance_metrics (test_result : XcodeResult) : PerformanceMetrics :=
  {| memory_mb := 251 # 2; cpu_percent := 176 # 5 |}.

Definition calculate_test_quality_score (success : bool) (coverage : Q)
    (test_counts : TestCounts) (performance : PerformanceMetrics) : Q :=
  if negb success then 0
  else
    (* Base score from success *)
    let score := 50 in
    (* Coverage contribution *)
    let coverage_score := Qmin 30 ((coverage / 90) * 30) in
    let score := score + coverage_score in
    (* Test success rate contribution *)
    let score :=
      if (0 <? tc_total test_counts)%Z then
        let success_rate := inject_Z (tc_passed test_counts) / inject_Z (tc_total test_counts) in
        score + success_rate * 15
      else score in
    (* Performance contribution *)
    let memory_score := Qmax 0 (5 - (memory_mb performance / 100)) in
    let score := score + Qmin 5 memory_score in
    Qmin 100 score.

Definition create_failed_result (test_plan : string) (errors : list string)
    : TestValidationResult :=
  {| test_plan := test_plan;
     success := false;
     execution_time_seconds := 0;
     coverage_percentage := 0;
     test_count := 0;
     passed_count := 0;
     failed_count := 1;
     skipped_count := 0;
     memory_usage_mb := 0;
     cpu_usage_percentage := 0;
     errors := errors;
     warnings := [];
     quality_score := 0 |}.

(** ** [execute_test_plan] *)

(** The [try] block; [Raised e] is an exception leaving the block. *)
Definition execute_test_plan_try (env : PlanEnv) (test_plan : string)
    : Exc TestValidationResult :=
  let errors : list string := [] in
  (* Build for testing *)
  let build_success := build_for_testing (env_build env) in
  if negb build_success then
    let errors := errors ++ ["Build failed for " +:+ test_plan] in
    Returned (create_failed_result test_plan errors)
  else
    (* Execute test plan *)
    let test_result := run_xcode_test_plan (env_test env) in
    _ <-! match env_fault env with
          | Some e => Raised e
          | None => Returned tt
          end;
    (* Extract metrics *)
    let coverage := extract_coverage_from_result test_result in
    let test_counts := extract_test_counts_from_result test_result in
    let performance_metrics := extract_performance_metrics test_result in
    let execution_time := env_elapsed env in
    (* Calculate quality score *)
    let quality_score :=
      calculate_test_quality_score (xr_success test_result) coverage test_counts
        performance_metrics in
    Returned
      {| test_plan := test_plan;
         success := xr_success test_result;
         execution_time_seconds := execution_time;
         coverage_percentage := coverage;
         test_count := tc_total test_counts;
         passed_count := tc_passed test_counts;
         failed_count := tc_failed test_counts;
         skipped_count := tc_skipped test_counts;
         memory_usage_mb := memory_mb performance_metrics;
         cpu_usage_percentage := cpu_percent performance_metrics;
         errors := default [] (xr_errors test_result);
         warnings := default [] (xr_warnings test_result);
         quality_score := quality_score |}.

(** The block with its [except Exception as e:] handler. *)
Definition execute_test_plan (env : PlanEnv) (test_plan : string) : TestValidationResult :=
  match execute_test_plan_try env test_plan with
  | Returned result => result
  | Raised e =>
      create_failed_result test_plan
        ["Exception during " +:+ test_plan +:+ " execution: " +:+ str_exn e]
  end.

(** ** [asyncio.gather] over the tasks, with [return_exceptions=True]

    Every task settles with an outcome: the value it returned or the
    exception it raised.  Tasks settle in some order of their own; [gather]
    keeps one slot per task, in the order the tasks were passed, fills the
    slot of a task when that task settles, and returns the slots once none
    is pending. *)

Section Gather.

Context {A : Type}.

Definition settle (outcomes : list (Exc A)) (slots : list (option (Exc A))) (i : nat)
    : list (option (Exc A)) :=
  match outcomes !! i with
  | Some outcome => <[i := Some outcome]> slots
  | None => slots
  end.

Definition gather_slots (outcomes : list (Exc A)) (completion_order : list nat)
    : list (option (Exc A)) :=
  fold_left (settle outcomes) completion_order (replicate (List.length outcomes) None).

(** [None]: some task never settled, so [gather] has nothing to return. *)
Definition gather (outcomes : list (Exc A)) (completion_order : list nat)
    : option (list (Exc A)) :=
  mapM id (gather_slots outcomes completion_order).

End Gather.

(** [enumerate(xs)] *)
Definition enumerate {A : Type} (xs : list A) : list (nat * A) := imap pair xs.

(** [xs[i]] *)
Definition list_index {A : Type} (xs : list A) (i : nat) : Exc A :=
  match xs !! i with
  | Some x => Returned x
  | None => Raised IndexError
  end.

(** ** Orchestrator: [run_test_plans_parallel], [run_test_plans_sequential] *)

Section Orchestrator.

(** [run_single_test_plan i plan]: how the [i]-th task, created for [plan],
    ends. *)
Variable run_single_test_plan : nat -> string -> Exc TestValidationResult.

(** The record appended for a task whose outcome is an exception. *)
Definition exception_result (test_plan : string) (e : PyExn) : TestValidationResult :=
  {| test_plan := test_plan;
     success := false;
     execution_time_seconds := 0;
     coverage_percentage := 0;
     test_count := 0;
     passed_count := 0;
     failed_count := 0;
     skipped_count := 0;
     memory_usage_mb := 0;
     cpu_usage_percentage := 0;
     errors := [str_exn e];
     warnings := [];
     quality_score := 0 |}.

(** One iteration of [for i, result in enumerate(results):]. *)
Definition process_result (test_plans : list string)
    (test_results : Exc (list TestValidationResult))
    (entry : nat * Exc TestValidationResult) : Exc (list TestValidationResult) :=
  test_results <-! test_results;
  match entry.2 with
  | Raised e =>
      plan <-! list_index test_plans entry.1;
      Returned (test_results ++ [exception_result plan e])
  | Returned result => Returned (test_results ++ [result])
  end.

(** [None]: the awaited [gather] never returns.  [Some (Raised e)]: the method
    raises [e].  [Some (Returned l)]: it returns with [self.test_results = l]. *)
Definition run_test_plans_parallel (test_plans : list string)
    (completion_order : list nat) (test_results : list TestValidationResult)
    : option (Exc (list TestValidationResult)) :=
  let tasks := imap run_single_test_plan test_plans in
  match gather tasks completion_order with
  | Some results =>
      Some (fold_left (process_result test_plans) (enumerate results) (Returned test_results))
  | None => None
  end.

Definition run_test_plans_sequential (test_plans : list string)
    (test_results : list TestValidationResult) : Exc (list TestValidationResult) :=
  fold_left
    (fun test_results entry =>
       test_results <-! test_results;
       result <-! run_single_test_plan entry.1 entry.2;
       Returned (test_results ++ [result]))
    (enumerate test_plans) (Returned test_results).

(** What the orchestrator is to hold at the position of a plan, given how the
    plan's task ended. *)
Definition collected (test_plan : string) (outcome : Exc TestValidationResult)
    : TestValidationResult :=
  match outcome with
  | Returned result => result
  | Raised e => exception_result test_plan e
  end.

End Orchestrator.

(** ** Report builder: [generate_validation_report] *)

Definition generate_validation_report (test_results : list TestValidationResult)
    (quality_gate_results : GateResults) : ValidationReport :=
  let overall_success := forallb success test_results in
  let total_tests := PyNum.sumZ (map test_count test_results) in
  let total_passed := PyNum.sumZ (map passed_count test_results) in
  let total_failed := PyNum.sumZ (map failed_count test_results) in
  (* Calculate weighted coverage *)
  let overall_coverage :=
    match test_results with
    | _ :: _ =>
        PyNum.sumQ
          (map (fun result => coverage_percentage result * inject_Z (test_count result))
             test_results)
        / inject_Z (Z.max 1 total_tests)
    | [] => 0
    end in
  (* Calculate overall quality score *)
  let overall_quality_score :=
    match test_results with
    | _ :: _ =>
        PyNum.sumQ (map quality_score test_results) / of_nat (List.length test_results)
    | [] => 0
    end in
  {| overall_success := overall_success;
     total_tests := total_tests;
     total_passed := total_passed;
     total_failed := total_failed;
     overall_coverage := overall_coverage;
     overall_quality_score := overall_quality_score;
     test_plan_results := test_results;
     quality_gate_results := quality_gate_results |}.

(** ** The whole run of the runner *)

Definition runner_test_plans : list string :=
  [ "UnitTestPlan"; "IntegrationTestPlan"; "PerformanceTestPlan"; "SecurityTestPlan" ].

(** [run_comprehensive_validation] of the runner.  [env i] is what the
    execution of the [i]-th plan observes, [completion_order] the order in
    which the concurrent executions settle, and [gates] what
    [run_quality_gates] leaves in [self.quality_gate_results]. *)
Definition runner_comprehensive_validation (parallel_execution : bool)
    (env : nat -> PlanEnv) (completion_order : list nat) (gates : GateResults)
    : option (Exc ValidationReport) :=
  let run_single := fun i plan => Returned (execute_test_plan (env i) plan) in
  let ran :=
    if parallel_execution
    then run_test_plans_parallel run_single runner_test_plans completion_order []
    else Some (run_test_plans_sequential run_single runner_test_plans []) in
  match ran with
  | Some (Returned test_results) =>
      Some (Returned (generate_validation_report test_results gates))
  | Some (Raised e) => Some (Raised e)
  | None => None
  end.

(** ** Statements of the specification, for comparison with the code *)

Module Spec.

(** "zero results with severity CRITICAL and passed=false" *)
Definition no_critical_failure (rs : list QualityResult) : Prop :=
  forall r, In r rs -> ~ (severity r = "CRITICAL" /\ passed r = false).

(** "zero CRITICAL-severity gate failures" in the gate results held by the
    runner. *)
Definition gates_clear (gates : GateResults) : bool :=
  match gates with
  | GateReport report => Nat.eqb (gates_critical_failures report) 0
  | _ => true
  end.

(** "logical AND of each plan's success AND zero CRITICAL-severity gate
    failures" *)
Definition overall_success (test_results : list TestValidationResult)
    (gates : GateResults) : bool :=
  forallb success test_results && gates_clear gates.

Fixpoint weighted_total (rs : list TestValidationResult) : Q :=
  match rs with
  | [] => 0
  | r :: rs' => coverage_percentage r * inject_Z (test_count r) + weighted_total rs'
  end.

Fixpoint count_total (rs : list TestValidationResult) : Z :=
  match rs with
  | [] => 0
  | r :: rs' => test_count r + count_total rs'
  end.

(** "test-count-weighted average of per-plan coverage" *)
Definition weighted_coverage (rs : list TestValidationResult) : Q :=
  weighted_total rs / inject_Z (count_total rs).

Fixpoint score_total (rs : list TestValidationResult) : Q :=
  match rs with
  | [] => 0
  | r :: rs' => quality_score r + score_total rs'
  end.

(** "arithmetic mean of per-plan quality scores" *)
Definition mean_quality_score (rs : list TestValidationResult) : Q :=
  score_total rs / inject_Z (Z.of_nat (List.length rs)).

(** "all test counts (total, passed, failed, skipped) equal to zero" *)
Definition all_counts_zero (r : TestValidationResult) : Prop :=
  test_count r = 0%Z /\ passed_count r = 0%Z /\ failed_count r = 0%Z
  /\ skipped_count r = 0%Z.

End Spec.

Module Invariant.

(** "severity = CRITICAL only if the underlying threshold is critical AND the
    check failed; severity = WARNING if the threshold is non-critical AND the
    check failed; otherwise INFO", for a result [r] checked against the
    threshold [t]. *)
Definition severity_clauses (t : QualityThreshold) (r : QualityResult) : Prop :=
  (severity r = "CRITICAL" -> critical t = true /\ passed r = false)
  /\ (critical t = false /\ passed r = false -> severity r = "WARNING")
  /\ (passed r = true -> severity r = "INFO")
  /\ (severity r = "CRITICAL" \/ severity r = "WARNING" \/ severity r = "INFO").

(** The result [r] comes from a threshold of the registry: it carries the
    threshold's name and the severity derived from the threshold's criticality
    and the outcome. *)
Definition holds (quality_thresholds : gmap string QualityThreshold)
    (r : QualityResult) : Prop :=
  exists (key : string) (t : QualityThreshold),
    quality_thresholds !! key = Some t
    /\ check_name r = name t
    /\ severity r = derived_severity (critical t) (passed r)
    /\ severity_clauses t r.

End Invariant.

(** ** Sample inputs *)

Module Sample.

Definition failing_warning : QualityResult :=
  {| check_name := "Medium Vulnerabilities"; passed := false;
     actual_value := Some 3; threshold_value := Some 2;
     message := "Medium severity vulnerabilities: 3"; severity := "WARNING" |}.

Definition failing_critical : QualityResult :=
  {| check_name := "Overall Test Coverage"; passed := false;
     actual_value := Some 85; threshold_value := Some 90;
     message := "Overall coverage: 85.00% (threshold: 90.0%)"; severity := "CRITICAL" |}.

Definition no_format_fixed : nat -> Q -> string := fun _ _ => "".
Definition no_format_value : Q -> string := fun _ => "".

Definition coverage_85 : CoverageData :=
  {| lineCoverage := Some (85 # 100);
     targets := Some
       [ {| files := Some
              [ {| file_name := Some "PaymentService.swift";
                   file_lineCoverage := Some (97 # 100) |};
                {| file_name := Some "MockBookingService.swift";
                   file_lineCoverage := Some (10 # 100) |};
                {| file_name := Some "CourseListView.swift";
                   file_lineCoverage := None |} ] |} ] |}.

Definition unit_run_data : PerformanceData :=
  {| coverage := Some coverage_85;
     execution_time_minutes := Some 12;
     slow_tests := Some [ {| duration_seconds := Some 31 |}; {| duration_seconds := None |} ];
     memory_leaks := None |}.

End Sample.

Module SamplePlans.

Definition plan_result (plan : string) (ok : bool) (coverage : Q) (tests : Z) (score : Q)
    : TestValidationResult :=
  {| test_plan := plan; success := ok; execution_time_seconds := 60;
     coverage_percentage := coverage; test_count := tests;
     passed_count := if ok then tests else 0%Z;
     failed_count := if ok then 0%Z else tests;
     skipped_count := 0;
     memory_usage_mb := 251 # 2; cpu_usage_percentage := 176 # 5;
     errors := []; warnings := []; quality_score := score |}.

Definition unit_ok := plan_result "UnitTestPlan" true 90 30 100.
Definition integration_ok := plan_result "IntegrationTestPlan" true 80 10 100.
Definition performance_ok := plan_result "PerformanceTestPlan" true 70 10 100.
Definition security_failed := plan_result "SecurityTestPlan" false 0 5 0.

Definition some_counts : TestCounts :=
  {| tc_total := 10; tc_passed := 8; tc_failed := 1; tc_skipped := 1 |}.

Definition some_metrics : PerformanceMetrics :=
  {| memory_mb := 251 # 2; cpu_percent := 176 # 5 |}.

End SamplePlans.

Module SampleRuns.

Definition passing_env : PlanEnv :=
  {| env_build := BuildExited 0 "";
     env_test := TestExited 0 "Test Case '-[CourseTests testSearch]' passed" "";
     env_elapsed := 42;
     env_fault := None |}.

Definition timed_out_env : PlanEnv :=
  {| env_build := BuildExited 0 "";
     env_test := TestTimedOut;
     env_elapsed := 1800;
     env_fault := None |}.

Definition build_failed_env : PlanEnv :=
  {| env_build := BuildExited 65 "error: no such module";
     env_test := TestTimedOut;
     env_elapsed := 3;
     env_fault := None |}.

Definition boom : PyExn := {| exn_class := "RuntimeError"; exn_text := "boom" |}.

(** Four tasks of which the third raises. *)
Definition third_raises (i : nat) (plan : string) : Exc TestValidationResult :=
  if Nat.eqb i 2 then Raised boom else Returned (execute_test_plan passing_env plan).

Definition completion_order : list nat := [2; 0; 3; 1]%nat.

Definition critical_gate_report : GateResults :=
  GateReport (generate_quality_report [Sample.failing_critical]).

End SampleRuns.

Module SampleScenarios.

(** Overall line coverage 85%, no per-file data. *)
Definition coverage_only_85 : CoverageData :=
  {| lineCoverage := Some (85 # 100); targets := None |}.

Definition clean_scan : SecurityData :=
  {| vulnerabilities :=
       Some {| vuln_critical := Some 0; vuln_high := None; vuln_medium := None |};
     test_coverage := Some 100 |}.

End SampleScenarios.

(** * More of the two scripts

    The functions around the ones above: the enforcer's test run, its
    recommendation texts and its modes; the runner's gate step, its
    recommendation texts and its exit code. *)

(** ** Enforcer: [run_xcode_test_with_coverage] *)

(** How a [subprocess.run(..., timeout=...)] call ended. *)
Inductive SubprocessOutcome :=
| Completed (returncode : Z) (stdout stderr : string)
| TimeoutExpired
| SubprocessRaised (e : PyExn).

(** What one call of [run_xcode_test_with_coverage] observes: the build
    command, the test command, the seconds the test command took, and the
    dictionary [_extract_coverage_data] got out of the result bundle ([None]
    when it returned [None] or an empty dictionary, which [if coverage_data:]
    both skip). *)
Record XcodeRunEnv := mkXcodeRunEnv {
  xenv_build : SubprocessOutcome;
  xenv_test : SubprocessOutcome;
  xenv_execution_time : Q;
  xenv_coverage : option CoverageData
}.

(** The dictionary [run_xcode_test_with_coverage] returns, key by key. *)
Record XcodeTestData := mkXcodeTestData {
  td_success : option bool;
  td_execution_time_minutes : option Q;
  td_stdout : option string;
  td_stderr : option string;
  td_coverage : option CoverageData;
  td_error : option string
}.

Definition empty_test_data : XcodeTestData :=
  {| td_success := None; td_execution_time_minutes := None; td_stdout := None;
     td_stderr := None; td_coverage := None; td_error := None |}.

Definition timeout_test_data : XcodeTestData :=
  {| td_success := None; td_execution_time_minutes := Some 45; td_stdout := None;
     td_stderr := None; td_coverage := None; td_error := Some "timeout" |}.

Definition error_test_data (e : PyExn) : XcodeTestData :=
  {| td_success := None; td_execution_time_minutes := None; td_stdout := None;
     td_stderr := None; td_coverage := None; td_error := Some (str_exn e) |}.

Definition run_xcode_test_with_coverage (env : XcodeRunEnv) : bool * XcodeTestData :=
  match xenv_build env with
  | Completed build_returncode _ _ =>
      if negb (build_returncode =? 0)%Z then (false, empty_test_data)
      else
        match xenv_test env with
        | Completed returncode stdout stderr =>
            let execution_time := xenv_execution_time env in
            ((returncode =? 0)%Z,
             {| td_success := Some (returncode =? 0)%Z;
                td_execution_time_minutes := Some (execution_time / 60);
                td_stdout := Some stdout;
                td_stderr := Some stderr;
                td_coverage := xenv_coverage env;
                td_error := None |})
        | TimeoutExpired => (false, timeout_test_data)
        | SubprocessRaised e => (false, error_test_data e)
        end
  | TimeoutExpired => (false, timeout_test_data)
  | SubprocessRaised e => (false, error_test_data e)
  end.

(** The same dictionary, through the keys the validators and [main] read.
    It never holds ['slow_tests'] or ['memory_leaks']. *)
Definition as_performance_data (d : XcodeTestData) : PerformanceData :=
  {| coverage := td_coverage d;
     execution_time_minutes := td_execution_time_minutes d;
     slow_tests := None;
     memory_leaks := None |}.

Definition xcode_run_of (env : string -> XcodeRunEnv) (test_plan : string)
    : bool * PerformanceData :=
  let '(ok, data) := run_xcode_test_with_coverage (env test_plan) in
  (ok, as_performance_data data).

(** ** Enforcer: recommendation and next-step texts *)

Section EnforcerTexts.

(** [str.lower] *)
Variable lower : string -> string.

(** One iteration of [for failure in critical_failures:]. *)
Definition recommend_for_failure (recommendations : list string)
    (failure : QualityResult) : list string :=
  if PyStr.contains "coverage" (lower (check_name failure)) then
    recommendations ++ ["📊 Increase test coverage for " +:+ check_name failure]
  else if PyStr.contains "vulnerabilit" (lower (check_name failure)) then
    recommendations ++ ["🔒 Resolve security vulnerabilities: " +:+ message failure]
  else if PyStr.contains "performance" (lower (check_name failure)) then
    recommendations ++ ["⚡ Optimize performance: " +:+ message failure]
  else recommendations.

Definition _generate_recommendations (validation_results : list QualityResult)
    : list string :=
  let critical_failures := critical_failed_of validation_results in
  let recommendations :=
    match critical_failures with
    | _ :: _ =>
        fold_left recommend_for_failure critical_failures
          ["🚨 Address all critical quality gate failures before deployment"]
    | [] => ["✅ All critical quality gates passed - ready for deployment"]
    end in
  let warnings := warnings_of validation_results in
  match warnings with
  | _ :: _ =>
      recommendations
      ++ ["⚠️ Address " +:+ pretty (List.length warnings)
          +:+ " warnings to improve quality score"]
  | [] => recommendations
  end.

End EnforcerTexts.

Definition _generate_next_steps (validation_results : list QualityResult) : list string :=
  match critical_failed_of validation_results with
  | _ :: _ =>
      [ "1. Fix all critical quality gate failures";
        "2. Re-run quality gate validation";
        "3. Generate updated quality report";
        "4. Proceed with deployment only after all gates pass" ]
  | [] =>
      [ "1. All quality gates passed ✅";
        "2. Ready for deployment to TestFlight";
        "3. Monitor quality metrics in production";
        "4. Schedule next quality review" ]
  end.

(** ** Enforcer: what [main] leaves in [enforcer.validation_results] *)

Section EnforcerResults.

Variable format_fixed : nat -> Q -> string.
Variable format_value : Q -> string.



End EnforcerResults.

(** ** Runner: [run_quality_gates] *)



(** ** Runner: recommendation and next-step texts *)

(** The top-level keys of [self.quality_gate_results]. *)
Definition gate_keys (gates : GateResults) : list string :=
  match gates with
  | GateEmpty => []
  | GateError _ => ["error"]
  | GateReport _ =>
      [ "execution_summary"; "quality_gates"; "detailed_results";
        "recommendations"; "next_steps" ]
  end.

(** Truth value of [self.quality_gate_results[key]] for a key that is there:
    a dictionary or list with entries, a string that is not empty. *)
Definition gate_value_truthy (gates : GateResults) (key : string) : bool :=
  match gates with
  | GateEmpty => false
  | GateError error => String.eqb key "error" && negb (String.eqb error "")
  | GateReport _ => existsb (String.eqb key) (gate_keys gates)
  end.

Definition generate_recommendations (test_results : list TestValidationResult)
    (quality_gate_results : GateResults) : list string :=
  let failed_plans := List.filter (fun r => negb (success r)) test_results in
  let low_coverage_plans :=
    List.filter (fun r => PyNum.ltb (coverage_percentage r) 80) test_results in
  let slow_plans :=
    List.filter (fun r => PyNum.gtb (execution_time_seconds r) 300) test_results in
  let recommendations : list string := [] in
  let recommendations :=
    match failed_plans with
    | _ :: _ =>
        recommendations
        ++ ["🚨 Fix failing test plans: " +:+ PyStr.join ", " (map test_plan failed_plans)]
    | [] => recommendations
    end in
  let recommendations :=
    match low_coverage_plans with
    | _ :: _ =>
        recommendations
        ++ ["📊 Improve test coverage for: "
            +:+ PyStr.join ", " (map test_plan low_coverage_plans)]
    | [] => recommendations
    end in
  let recommendations :=
    match slow_plans with
    | _ :: _ =>
        recommendations
        ++ ["⚡ Optimize performance for slow test plans: "
            +:+ PyStr.join ", " (map test_plan slow_plans)]
    | [] => recommendations
    end in
  (* Quality gate recommendations *)
  let recommendations :=
    if existsb (String.eqb "critical_failures") (gate_keys quality_gate_results) then
      if gate_value_truthy quality_gate_results "critical_failures" then
        recommendations ++ ["🚧 Address critical quality gate failures before deployment"]
      else recommendations
    else recommendations in
  match recommendations with
  | [] => ["✅ All validation checks passed - ready for deployment"]
  | _ :: _ => recommendations
  end.

Definition generate_next_steps (overall_success : bool) : list string :=
  if overall_success then
    [ "1. All validation checks passed ✅";
      "2. Ready for TestFlight deployment";
      "3. Begin alpha testing phase";
      "4. Monitor production metrics" ]
  else
    [ "1. Fix failing validation checks";
      "2. Re-run comprehensive validation";
      "3. Address quality gate failures";
      "4. Retry deployment after fixes" ].

(** ** Runner: [main] *)

(** The exit code: 0 or 1 by [report.overall_success], 1 when the validation
    raised; [None] when the run never ends. *)
Definition runner_main (sequential : bool) (env : nat -> PlanEnv)
    (completion_order : list nat) (gates : GateResults) : option Z :=
  match runner_comprehensive_validation (negb sequential) env completion_order gates with
  | Some (Returned report) => Some (if overall_success report then 0%Z else 1%Z)
  | Some (Raised _) => Some 1%Z
  | None => None
  end.

(** ** Inputs of the examples *)

Module SampleMore.

(** [str.lower] on ASCII letters. *)
Definition lower_ascii_char (c : ascii) : ascii :=
  let n := nat_of_ascii c in
  if ((65 <=? n) && (n <=? 90))%nat then ascii_of_nat (n + 32) else c.

Fixpoint lower_ascii (s : string) : string :=
  match s with
  | EmptyString => EmptyString
  | String c s' => String (lower_ascii_char c) (lower_ascii s')
  end.

Definition build_broken : XcodeRunEnv :=
  {| xenv_build := Completed 65 "" "error: no such module";
     xenv_test := Completed 0 "" "";
     xenv_execution_time := 0;
     xenv_coverage := None |}.

Definition clean_run : XcodeRunEnv :=
  {| xenv_build := Completed 0 "" "";
     xenv_test := Completed 0 "Test Suite passed" "";
     xenv_execution_time := 600;
     xenv_coverage := Some Sample.coverage_85 |}.

Definition failed_build_env : PlanEnv :=
  {| env_build := BuildExited 65 "error";
     env_test := TestExited 0 "" "";
     env_elapsed := 1;
     env_fault := None |}.

End SampleMore.

(** ** Words for the statements about the added code *)

Module More.

(** The keys [apply_strict_mode] writes. *)
Definition strict_keys : list string :=
  [ "overall_test_coverage"; "critical_path_coverage";
    "max_test_execution_time"; "test_flaky_rate" ].

(** The keys the three validators read. *)
Definition validator_keys : list string :=
  [ "overall_test_coverage"; "critical_path_coverage"; "service_layer_coverage";
    "max_test_execution_time"; "max_individual_test_time"; "memory_leak_threshold";
    "critical_vulnerabilities"; "high_vulnerabilities"; "medium_vulnerabilities";
    "security_test_coverage" ].

(** What strict mode leaves alone in a threshold. *)
Definition fixed_part (t : QualityThreshold) : string * bool * string :=
  (name t, critical t, description t).

(** All files of all targets, in the order the nested loops visit them. *)
Definition coverage_files (coverage_data : CoverageData) : list FileCoverage :=
  concat (map (fun target => default [] (files target))
            (default [] (targets coverage_data))).

Definition selected_files (selected : string -> bool) (coverage_data : CoverageData)
    : list FileCoverage :=
  List.filter (fun file_data => selected (default "" (file_name file_data)))
    (coverage_files coverage_data).

Definition file_percentage (file_data : FileCoverage) : Q :=
  default 0 (file_lineCoverage file_data) * 100.

(** Mean coverage of the selected files, as the validator computes it. *)
Definition mean_percentage (selected : string -> bool) (coverage_data : CoverageData) : Q :=
  PyNum.sumQ (map file_percentage (selected_files selected coverage_data))
  / of_nat (List.length (selected_files selected coverage_data)).

(** A failed result that the report files under critical failures or under
    warnings. *)
Definition failure_is_classified (r : QualityResult) : Prop :=
  passed r = false -> severity r = "CRITICAL" \/ severity r = "WARNING".

End More.

Module MoreEnforcer.

(** The registry [main] validates with: the built-in one, or that after the
    strict-mode block. *)
Definition enforcer_registry (strict : bool) : Exc (gmap string QualityThreshold) :=
  if strict then apply_strict_mode _initialize_thresholds
  else Returned _initialize_thresholds.

(** The limit on the minutes of the unit test run, by mode. *)
Definition execution_time_limit (strict : bool) : Q := if strict then 30 else 45.

Definition all_passed (rs : list QualityResult) : Prop :=
  forall r, In r rs -> passed r = true.

End MoreEnforcer.

Module MoreRunner.

(** A plan whose build and test run both exited with 0 and in whose
    execution nothing raised. *)
Definition ran_clean (env : PlanEnv) : Prop :=
  build_for_testing (env_build env) = true /\ env_fault env = None
  /\ exists out err, env_test env = TestExited 0 out err.

(** A plan that calls for no recommendation. *)
Definition nothing_to_recommend (r : TestValidationResult) : Prop :=
  success r = true /\ 80 <= coverage_percentage r /\ execution_time_seconds r <= 300.

End MoreRunner.

(** * Properties *)

(** ** Numbers *)

Lemma geb_true (a b : Q) : PyNum.geb a b = true <-> b <= a.
Proof. unfold PyNum.geb. apply Qle_bool_iff. Qed.

Lemma leb_true (a b : Q) : PyNum.leb a b = true <-> a <= b.
Proof. unfold PyNum.leb. apply Qle_bool_iff. Qed.

Lemma gtb_true (a b : Q) : PyNum.gtb a b = true <-> b < a.
Proof.
  unfold PyNum.gtb. rewrite negb_true_iff, <- not_true_iff_false, Qle_bool_iff.
  split; [apply Qnot_le_lt | apply Qlt_not_le].
Qed.

Lemma ltb_negb_geb (a b : Q) : PyNum.ltb a b = negb (PyNum.geb a b).
Proof. reflexivity. Qed.

Lemma gtb_negb_leb (a b : Q) : PyNum.gtb a b = negb (PyNum.leb a b).
Proof. reflexivity. Qed.

(** ** Strings *)

Example count_without_overlap : PyStr.count "aaaa" "aa" = 2%nat.
Proof. reflexivity. Qed.

Example count_passed_lines :
  PyStr.count "Test Case '-[A t1]' passed; Test Case '-[A t2]' passed" " passed" = 2%nat.
Proof. reflexivity. Qed.

Example count_in_empty : PyStr.count "" "failed" = 0%nat.
Proof. reflexivity. Qed.

Example contains_service :
  PyStr.contains "Service.swift" "Sources/PaymentService.swift" = true
  /\ PyStr.contains "Mock" "Sources/PaymentService.swift" = false.
Proof. split; reflexivity. Qed.

(** ** Scorer *)

Lemma spec_weight_is_weight_of (r : QualityResult) :
  Scorer.spec_weight r = Scorer.weight_of r.
Proof. reflexivity. Qed.

Lemma weight_of_pos (r : QualityResult) : 1 # 2 <= Scorer.weight_of r.
Proof.
  unfold Scorer.weight_of, Scorer.critical_weight, Scorer.warning_weight,
    Scorer.info_weight.
  destruct (is_severity "CRITICAL" r), (is_severity "WARNING" r); lra.
Qed.

Lemma spec_contribution_is_product (r : QualityResult) :
  Scorer.spec_contribution r == Scorer.score_of r * Scorer.weight_of r.
Proof.
  unfold Scorer.spec_contribution, Scorer.score_of.
  change (Scorer.spec_weight r) with (Scorer.weight_of r). destruct (passed r); ring.
Qed.

Lemma total_weight_nonneg (rs : list QualityResult) :
  0 <= Scorer.total Scorer.spec_weight rs.
Proof.
  induction rs as [|r rs IH]; simpl; [lra|].
  change (Scorer.spec_weight r) with (Scorer.weight_of r).
  pose proof (weight_of_pos r). lra.
Qed.

(** The loop of the scorer, in closed form: it adds the contributions to the
    first component and the weights to the second. *)
Lemma fold_score_step (rs : list QualityResult) (acc : Q * Q) :
  fst (fold_left Scorer.score_step rs acc) == fst acc + Scorer.total Scorer.spec_contribution rs
  /\ snd (fold_left Scorer.score_step rs acc) == snd acc + Scorer.total Scorer.spec_weight rs.
Proof.
  revert acc. induction rs as [|r rs IH]; intros acc; simpl.
  - split; ring.
  - destruct (IH (Scorer.score_step acc r)) as [IHs IHw].
    rewrite IHs, IHw. unfold Scorer.score_step; simpl.
    change (Scorer.spec_weight r) with (Scorer.weight_of r).
    pose proof (spec_contribution_is_product r) as Hc.
    split; [rewrite Hc|]; ring.
Qed.

Lemma total_weight_pos (r : QualityResult) (rs : list QualityResult) :
  0 < Scorer.total Scorer.spec_weight (r :: rs).
Proof.
  simpl. change (Scorer.spec_weight r) with (Scorer.weight_of r).
  pose proof (weight_of_pos r). pose proof (total_weight_nonneg rs). lra.
Qed.

(** C2. The score returned by [calculate_overall_quality_score] is the sum of
    the contributions divided by the sum of the weights, where a result weighs
    3 if its severity is CRITICAL, 1 if WARNING and 1/2 otherwise, and
    contributes 100 times its weight if it passed and nothing otherwise; on
    the empty list the function returns 0. *)
Theorem calculate_overall_quality_score_weighted_mean :
  (forall rs : list QualityResult,
     Scorer.calculate_overall_quality_score rs == Scorer.spec_score rs)
  /\ Scorer.calculate_overall_quality_score [] = 0.
Proof.
  split; [|reflexivity].
  intros [|r rs]; [reflexivity|].
  unfold Scorer.calculate_overall_quality_score, Scorer.spec_score.
  destruct (fold_score_step (r :: rs) (0, 0)) as [Hs Hw].
  pose proof (total_weight_pos r rs) as Hpos.
  destruct (fold_left Scorer.score_step (r :: rs) (0, 0)) as [total_score total_weight].
  cbn [fst snd] in Hs, Hw.
  assert (Hgt : PyNum.gtb total_weight 0 = true).
  { apply gtb_true. rewrite Hw. lra. }
  rewrite Hgt, Hs, Hw.
  apply Qdiv_comp; ring.
Qed.

Lemma spec_contribution_bounds (r : QualityResult) :
  0 <= Scorer.spec_contribution r <= 100 * Scorer.spec_weight r.
Proof.
  unfold Scorer.spec_contribution.
  change (Scorer.spec_weight r) with (Scorer.weight_of r).
  pose proof (weight_of_pos r). destruct (passed r); lra.
Qed.

Lemma total_contribution_bounds (rs : list QualityResult) :
  0 <= Scorer.total Scorer.spec_contribution rs
    <= 100 * Scorer.total Scorer.spec_weight rs.
Proof.
  induction rs as [|r rs IH]; simpl; [lra|].
  pose proof (spec_contribution_bounds r). lra.
Qed.

(** The score stays between 0 and 100. *)
Lemma calculate_overall_quality_score_range (rs : list QualityResult) :
  0 <= Scorer.calculate_overall_quality_score rs <= 100.
Proof.
  destruct rs as [|r rs]; [simpl; lra|].
  unfold Scorer.calculate_overall_quality_score.
  destruct (fold_score_step (r :: rs) (0, 0)) as [Hs Hw].
  destruct (fold_left Scorer.score_step (r :: rs) (0, 0)) as [total_score total_weight].
  simpl fst in *; simpl snd in *.
  assert (Hpos : 0 < total_weight).
  { rewrite Hw. simpl. change (Scorer.spec_weight r) with (Scorer.weight_of r).
    pose proof (weight_of_pos r). pose proof (total_weight_nonneg rs). lra. }
  assert (Hbound : 0 <= total_score <= 100 * total_weight).
  { rewrite Hs, Hw. pose proof (total_contribution_bounds (r :: rs)). lra. }
  rewrite (proj2 (gtb_true _ _) Hpos).
  split.
  - apply Qle_shift_div_l; [exact Hpos | lra].
  - apply Qle_shift_div_r; [exact Hpos | lra].
Qed.

(** ** Further facts about the scorer *)

(** Every value the scorer adds up is a multiple of one half, and so are the
    running totals. *)
Lemma weight_half_integer (r : QualityResult) :
  exists w : Z,
    Scorer.weight_of r == w # 2
    /\ Scorer.score_of r * Scorer.weight_of r
       == (if passed r then 100 * w else 0)%Z # 2.
Proof.
  unfold Scorer.score_of, Scorer.weight_of, Scorer.critical_weight,
    Scorer.warning_weight, Scorer.info_weight.
  destruct (is_severity "CRITICAL" r); [exists 6%Z|];
    [|destruct (is_severity "WARNING" r); [exists 2%Z | exists 1%Z]];
    destruct (passed r); split; reflexivity.
Qed.

Lemma half_integer_plus (a x : Z) : (a # 2) + (x # 2) == (a + x) # 2.
Proof. unfold Qeq. simpl. lia. Qed.

Lemma score_step_half_integers (rs : list QualityResult) (acc : Q * Q) :
  (exists a b : Z, fst acc == a # 2 /\ snd acc == b # 2) ->
  exists a b : Z,
    fst (fold_left Scorer.score_step rs acc) == a # 2
    /\ snd (fold_left Scorer.score_step rs acc) == b # 2.
Proof.
  revert acc. induction rs as [|r rs IH]; intros acc Hacc; simpl; [exact Hacc|].
  apply IH. destruct Hacc as (a & b & Ha & Hb).
  destruct (weight_half_integer r) as (w & Hw & Hsw).
  unfold Scorer.score_step. cbn [fst snd].
  exists (a + (if passed r then 100 * w else 0))%Z, (b + w)%Z.
  rewrite Ha, Hb, Hsw, Hw. split; apply half_integer_plus.
Qed.

Lemma all_passed_scores_100 (r : QualityResult) (rs : list QualityResult) :
  (forall x, In x (r :: rs) -> passed x = true) ->
  Scorer.calculate_overall_quality_score (r :: rs) == 100.
Proof.
  intros Hall.
  assert (Hc : Scorer.total Scorer.spec_contribution (r :: rs)
               == 100 * Scorer.total Scorer.spec_weight (r :: rs)).
  { revert Hall. generalize (r :: rs) as l.
    induction l as [|x l IH]; intros Hall; simpl; [ring|].
    rewrite IH by (intros y Hy; apply Hall; now right).
    unfold Scorer.spec_contribution. rewrite (Hall x (or_introl eq_refl)). ring. }
  pose proof (total_weight_pos r rs) as Hpos.
  unfold Scorer.calculate_overall_quality_score.
  destruct (fold_score_step (r :: rs) (0, 0)) as [Hs Hw].
  destruct (fold_left Scorer.score_step (r :: rs) (0, 0)) as [total_score total_weight].
  cbn [fst snd] in Hs, Hw.
  assert (Hgt : PyNum.gtb total_weight 0 = true).
  { apply gtb_true. rewrite Hw. lra. }
  rewrite Hgt, Hs, Hw, Hc. field. lra.
Qed.

(** ** Verdict of the enforcer *)

Lemma critical_failed_of_nil_iff (rs : list QualityResult) :
  critical_failed_of rs = [] <-> Spec.no_critical_failure rs.
Proof.
  unfold critical_failed_of, Spec.no_critical_failure.
  induction rs as [|r rs IH]; simpl.
  - split; [intros _ r [] | reflexivity].
  - unfold is_severity at 1.
    destruct (passed r) eqn:Hp; simpl.
    + rewrite IH. split.
      * intros H x [<-|Hx]; [intros [_ Hf]; congruence | auto].
      * intros H x Hx. apply H. now right.
    + destruct (String.eqb_spec (severity r) "CRITICAL") as [Hs|Hs].
      * split; [discriminate|]. intros H. exfalso. apply (H r); auto.
      * rewrite IH. split.
        -- intros H x [<-|Hx]; [intros [Hc _]; congruence | auto].
        -- intros H x Hx. apply H. now right.
Qed.

(** C1. The verdict of [generate_quality_report] is true exactly when no
    result is both of severity CRITICAL and failed; a list whose results are
    all of severity WARNING therefore passes, whatever its score. *)
Theorem overall_passed_iff_no_critical_failure (rs : list QualityResult) :
  (summary_overall_passed (generate_quality_report rs) = true
   <-> Spec.no_critical_failure rs)
  /\ ((forall r, In r rs -> severity r = "WARNING" /\ passed r = false) ->
      summary_overall_passed (generate_quality_report rs) = true).
Proof.
  assert (Hiff : summary_overall_passed (generate_quality_report rs) = true
                 <-> Spec.no_critical_failure rs).
  { simpl. rewrite Nat.eqb_eq, <- critical_failed_of_nil_iff.
    destruct (critical_failed_of rs); simpl; split; congruence. }
  split; [exact Hiff|].
  intros Hw. apply Hiff. intros r Hr [Hc _].
  destruct (Hw r Hr) as [Hs _]. congruence.
Qed.

Lemma overall_passed_iff_no_critical_failure_witness :
  summary_overall_passed
    (generate_quality_report [Sample.failing_warning; Sample.failing_warning]) = true.
Proof.
  apply (proj2 (overall_passed_iff_no_critical_failure
                  [Sample.failing_warning; Sample.failing_warning])).
  intros r [<-|[<-|[]]]; split; reflexivity.
Defined.

(** A run of failing WARNING checks scores 0 and still passes. *)
Example low_score_still_passes :
  Scorer.calculate_overall_quality_score [Sample.failing_warning; Sample.failing_warning] == 0
  /\ summary_overall_passed
       (generate_quality_report [Sample.failing_warning; Sample.failing_warning]) = true.
Proof. split; reflexivity. Qed.

(** ** Registry *)

Lemma same_gates_lookup (th : gmap string QualityThreshold) (key : string)
    (t0 : QualityThreshold) :
  same_gates th -> _initialize_thresholds !! key = Some t0 ->
  exists t, th !! key = Some t /\ name t = name t0 /\ critical t = critical t0.
Proof.
  intros Hsame Hkey. specialize (Hsame key). rewrite Hkey in Hsame.
  destruct (th !! key) as [t|]; simpl in Hsame; [|discriminate].
  exists t. injection Hsame as Hn Hc. auto.
Qed.

Lemma same_gates_initial : same_gates _initialize_thresholds.
Proof. intros key. reflexivity. Qed.

Example initial_lookup_overall :
  _initialize_thresholds !! "overall_test_coverage"
  = Some (mkThreshold "Overall Test Coverage" 90 true
            "Minimum overall test coverage percentage").
Proof. vm_compute. reflexivity. Qed.

Lemma gate_lookup (th : gmap string QualityThreshold) (key : string)
    (t0 : QualityThreshold) :
  same_gates th -> _initialize_thresholds !! key = Some t0 ->
  exists t,
    get_threshold th key = Returned t /\ th !! key = Some t
    /\ name t = name t0 /\ critical t = critical t0.
Proof.
  intros Hsame Hkey.
  destruct (same_gates_lookup th key t0 Hsame Hkey) as (t & Hl & Hn & Hc).
  exists t. unfold get_threshold. rewrite Hl. auto.
Qed.

(** ** Validators: the severity invariant *)

Lemma holds_intro (th : gmap string QualityThreshold) (key : string)
    (t : QualityThreshold) (r : QualityResult) :
  th !! key = Some t -> check_name r = name t ->
  severity r = derived_severity (critical t) (passed r) ->
  Invariant.holds th r.
Proof.
  intros Hl Hn Hs. exists key, t.
  split; [exact Hl|]. split; [exact Hn|]. split; [exact Hs|].
  unfold Invariant.severity_clauses. rewrite Hs. unfold derived_severity.
  destruct (passed r), (critical t); intuition (auto; discriminate).
Qed.

Lemma severity_critical_below (c : bool) (a v : Q) :
  c = true ->
  (if c && PyNum.ltb a v then "CRITICAL" else "INFO")
  = derived_severity c (PyNum.geb a v).
Proof.
  intros ->. unfold PyNum.ltb, PyNum.geb, derived_severity.
  now destruct (Qle_bool v a).
Qed.

Lemma severity_critical_above (c : bool) (a v : Q) :
  c = true ->
  (if c && PyNum.gtb a v then "CRITICAL" else "INFO")
  = derived_severity c (PyNum.leb a v).
Proof.
  intros ->. unfold PyNum.gtb, PyNum.leb, derived_severity.
  now destruct (Qle_bool a v).
Qed.

Lemma severity_above_is_critical (c : bool) (a v : Q) :
  c = true ->
  (if PyNum.gtb a v then "CRITICAL" else "INFO")
  = derived_severity c (PyNum.leb a v).
Proof.
  intros ->. unfold PyNum.gtb, PyNum.leb, derived_severity.
  now destruct (Qle_bool a v).
Qed.

Lemma severity_above_is_warning (c : bool) (a v : Q) :
  c = false ->
  (if PyNum.gtb a v then "WARNING" else "INFO")
  = derived_severity c (PyNum.leb a v).
Proof.
  intros ->. unfold PyNum.gtb, PyNum.leb, derived_severity.
  now destruct (Qle_bool a v).
Qed.

Lemma severity_count_is_warning (c : bool) (n : nat) :
  c = false ->
  (if (0 <? n)%nat then "WARNING" else "INFO")
  = derived_severity c (Nat.eqb n 0).
Proof. intros ->. now destruct n. Qed.

Ltac use_gate th Hsame key t :=
  let G := fresh "G" t in
  let L := fresh "L" t in
  let N := fresh "N" t in
  let C := fresh "C" t in
  destruct (gate_lookup th key _ Hsame ltac:(vm_compute; reflexivity))
    as (t & G & L & N & C);
  simpl in N, C.

Section ValidatorFacts.

Variable format_fixed : nat -> Q -> string.
Variable format_value : Q -> string.
Variable th : gmap string QualityThreshold.
Hypothesis Hsame : same_gates th.

Lemma validate_test_coverage_invariant (coverage_data : CoverageData) :
  exists rs,
    validate_test_coverage format_fixed format_value th coverage_data = Returned rs
    /\ Forall (Invariant.holds th) rs.
Proof.
  use_gate th Hsame "overall_test_coverage" t1.
  use_gate th Hsame "critical_path_coverage" t2.
  use_gate th Hsame "service_layer_coverage" t3.
  unfold validate_test_coverage. rewrite Gt1. simpl exc_bind.
  destruct (accumulate_file_coverage is_critical_path_file coverage_data) as [cp cf].
  destruct (accumulate_file_coverage is_service_file coverage_data) as [sc sf].
  destruct (0 <? cf)%nat; [rewrite Gt2|]; simpl exc_bind;
    (destruct (0 <? sf)%nat; [rewrite Gt3|]; simpl exc_bind);
    eexists; (split; [reflexivity|]); cbn [app];
    repeat apply List.Forall_cons; try apply List.Forall_nil;
    first [ apply (holds_intro th _ _ _ Lt1); [exact eq_refl|]
          | apply (holds_intro th _ _ _ Lt2); [exact eq_refl|]
          | apply (holds_intro th _ _ _ Lt3); [exact eq_refl|] ];
    cbn [severity passed]; now apply severity_critical_below.
Qed.

Lemma validate_performance_metrics_invariant (performance_data : PerformanceData) :
  exists rs,
    validate_performance_metrics format_fixed format_value th performance_data = Returned rs
    /\ Forall (Invariant.holds th) rs.
Proof.
  use_gate th Hsame "max_test_execution_time" t1.
  use_gate th Hsame "max_individual_test_time" t2.
  use_gate th Hsame "memory_leak_threshold" t3.
  unfold validate_performance_metrics. rewrite Gt1, Gt2, Gt3. simpl exc_bind.
  eexists; split; [reflexivity|].
  repeat apply List.Forall_cons; try apply List.Forall_nil.
  - apply (holds_intro th _ _ _ Lt1); [reflexivity|].
    now apply severity_critical_above.
  - apply (holds_intro th _ _ _ Lt2); [reflexivity|].
    now apply severity_count_is_warning.
  - apply (holds_intro th _ _ _ Lt3); [reflexivity|].
    now apply severity_above_is_critical.
Qed.

Lemma validate_security_compliance_invariant (security_data : SecurityData) :
  exists rs,
    validate_security_compliance format_fixed format_value th security_data = Returned rs
    /\ Forall (Invariant.holds th) rs.
Proof.
  use_gate th Hsame "critical_vulnerabilities" t1.
  use_gate th Hsame "high_vulnerabilities" t2.
  use_gate th Hsame "medium_vulnerabilities" t3.
  use_gate th Hsame "security_test_coverage" t4.
  unfold validate_security_compliance. rewrite Gt1, Gt2, Gt3, Gt4. simpl exc_bind.
  eexists; split; [reflexivity|].
  repeat apply List.Forall_cons; try apply List.Forall_nil.
  - apply (holds_intro th _ _ _ Lt1); [reflexivity|].
    now apply severity_above_is_critical.
  - apply (holds_intro th _ _ _ Lt2); [reflexivity|].
    now apply severity_above_is_critical.
  - apply (holds_intro th _ _ _ Lt3); [reflexivity|].
    now apply severity_above_is_warning.
  - apply (holds_intro th _ _ _ Lt4); [reflexivity|].
    now apply severity_critical_below.
Qed.

End ValidatorFacts.

(** C4. With the built-in registry, or one that differs from it in threshold
    values only (strict mode), each validator returns, and every result it
    returns carries the name of a threshold of the registry and the severity
    derived from that threshold and the outcome: CRITICAL only if the
    threshold is critical and the check failed, WARNING if the threshold is
    not critical and the check failed, INFO otherwise. *)
Theorem validators_severity_invariant
    (format_fixed : nat -> Q -> string) (format_value : Q -> string)
    (th : gmap string QualityThreshold)
    (coverage_data : CoverageData) (performance_data : PerformanceData)
    (security_data : SecurityData) :
  same_gates th ->
  (exists rs,
     validate_test_coverage format_fixed format_value th coverage_data = Returned rs
     /\ Forall (Invariant.holds th) rs)
  /\ (exists rs,
        validate_performance_metrics format_fixed format_value th performance_data
        = Returned rs
        /\ Forall (Invariant.holds th) rs)
  /\ (exists rs,
        validate_security_compliance format_fixed format_value th security_data
        = Returned rs
        /\ Forall (Invariant.holds th) rs).
Proof.
  intros Hsame. split; [|split].
  - now apply validate_test_coverage_invariant.
  - now apply validate_performance_metrics_invariant.
  - now apply validate_security_compliance_invariant.
Qed.

Lemma validators_severity_invariant_witness :
  same_gates _initialize_thresholds
  /\ exists rs,
       validate_security_compliance Sample.no_format_fixed Sample.no_format_value
         _initialize_thresholds run_security_scan = Returned rs
       /\ Forall (Invariant.holds _initialize_thresholds) rs.
Proof.
  assert (H : same_gates _initialize_thresholds) by (intros key; reflexivity).
  split; [exact H|].
  exact (proj2 (proj2 (validators_severity_invariant
                         Sample.no_format_fixed Sample.no_format_value
                         _initialize_thresholds Sample.coverage_85
                         Sample.unit_run_data run_security_scan H))).
Defined.

(** ** Registry updates keep the gates *)

Lemma set_threshold_value_same_gates (th : gmap string QualityThreshold)
    (key : string) (v : Q) :
  same_gates th -> is_Some (_initialize_thresholds !! key) ->
  exists th', set_threshold_value th key v = Returned th' /\ same_gates th'.
Proof.
  intros Hsame [t0 Hkey].
  destruct (gate_lookup th key t0 Hsame Hkey) as (t & G & L & N & C).
  unfold set_threshold_value. rewrite G. simpl.
  eexists; split; [reflexivity|].
  intros k. destruct (decide (key = k)) as [<-|Hne].
  - rewrite lookup_insert_eq, Hkey. simpl. now rewrite N, C.
  - rewrite lookup_insert_ne by exact Hne. apply Hsame.
Qed.

Lemma apply_strict_mode_same_gates (th : gmap string QualityThreshold) :
  same_gates th ->
  exists th', apply_strict_mode th = Returned th' /\ same_gates th'.
Proof.
  intros H0. unfold apply_strict_mode.
  destruct (set_threshold_value_same_gates th "overall_test_coverage" 95 H0)
    as (th1 & E1 & H1); [vm_compute; eauto|].
  destruct (set_threshold_value_same_gates th1 "critical_path_coverage" 98 H1)
    as (th2 & E2 & H2); [vm_compute; eauto|].
  destruct (set_threshold_value_same_gates th2 "max_test_execution_time" 30 H2)
    as (th3 & E3 & H3); [vm_compute; eauto|].
  destruct (set_threshold_value_same_gates th3 "test_flaky_rate" 1 H3)
    as (th4 & E4 & H4); [vm_compute; eauto|].
  rewrite E1; simpl. rewrite E2; simpl. rewrite E3; simpl. eauto.
Qed.

(** Strict mode changes the four values it names and nothing else. *)
Example strict_mode_values :
  exists th,
    apply_strict_mode _initialize_thresholds = Returned th
    /\ value <$> th !! "overall_test_coverage" = Some 95
    /\ value <$> th !! "critical_path_coverage" = Some 98
    /\ value <$> th !! "max_test_execution_time" = Some 30
    /\ value <$> th !! "test_flaky_rate" = Some 1
    /\ value <$> th !! "service_layer_coverage" = Some 95.
Proof. eexists. split; [reflexivity|]. vm_compute. repeat split. Qed.

Section EnforcerFacts.

Variable format_fixed : nat -> Q -> string.
Variable format_value : Q -> string.

Lemma run_comprehensive_validation_returns (th : gmap string QualityThreshold)
    (unit_run integration_run perf_run security_run : bool * PerformanceData)
    (validation_results : list QualityResult) :
  same_gates th ->
  Forall (Invariant.holds th) validation_results ->
  exists verdict rs,
    run_comprehensive_validation format_fixed format_value th
      unit_run integration_run perf_run security_run validation_results
    = Returned (verdict, rs)
    /\ Forall (Invariant.holds th) rs.
Proof.
  intros Hsame Hinit. unfold run_comprehensive_validation.
  destruct unit_run as [unit_success unit_data].
  destruct (validate_performance_metrics_invariant format_fixed format_value th Hsame
              unit_data) as (ps & Ep & Hp).
  destruct (validate_security_compliance_invariant format_fixed format_value th Hsame
              run_security_scan) as (ss & Es & Hs).
  destruct (coverage unit_data) as [c|].
  - destruct (validate_test_coverage_invariant format_fixed format_value th Hsame c)
      as (cs & Ec & Hc).
    rewrite Ec; simpl. rewrite Ep; simpl. rewrite Es; simpl.
    do 2 eexists; split; [reflexivity|].
    repeat (apply List.Forall_app; split); assumption.
  - simpl. rewrite Ep; simpl. rewrite Es; simpl.
    do 2 eexists; split; [reflexivity|].
    repeat (apply List.Forall_app; split); assumption.
Qed.

Lemma enforcer_main_returns (args : EnforcerArgs)
    (xcode_run : string -> bool * PerformanceData) :
  exists final_success,
    enforcer_main format_fixed format_value args xcode_run = Returned final_success.
Proof.
  unfold enforcer_main.
  assert (Hth : exists th,
             (if arg_strict args then apply_strict_mode _initialize_thresholds
              else Returned _initialize_thresholds) = Returned th
             /\ same_gates th).
  { destruct (arg_strict args).
    - apply apply_strict_mode_same_gates, same_gates_initial.
    - eexists; split; [reflexivity | apply same_gates_initial]. }
  destruct Hth as (th & -> & Hsame). simpl exc_bind.
  destruct (given_test_plan args) as [plan|].
  - destruct (xcode_run plan) as [ok data].
    destruct (coverage data) as [c|].
    + destruct (validate_test_coverage_invariant format_fixed format_value th Hsame c)
        as (cs & -> & _).
      simpl. eauto.
    + simpl. eauto.
  - destruct (negb (arg_skip_tests args)).
    + destruct (run_comprehensive_validation_returns th
                  (xcode_run "UnitTestPlan") (xcode_run "IntegrationTestPlan")
                  (xcode_run "PerformanceTestPlan") (xcode_run "SecurityTestPlan")
                  [] Hsame (List.Forall_nil _)) as (v & rs & -> & _).
      simpl. eauto.
    + simpl. eauto.
Qed.

End EnforcerFacts.

(** C9 (as the code has it). A name of the registry looks up to its
    threshold; a name that is not in the registry makes the lookup raise
    [KeyError], where the lookup stands.  The names the enforcer itself looks
    up are all in the built-in registry, so neither the strict-mode setup nor
    a validator raises. *)
Theorem get_threshold_known_or_KeyError
    (th : gmap string QualityThreshold) (key : string) :
  (forall t, th !! key = Some t -> get_threshold th key = Returned t)
  /\ (th !! key = None -> get_threshold th key = Raised (KeyError key))
  /\ (forall format_fixed format_value args xcode_run,
        exists final_success,
          enforcer_main format_fixed format_value args xcode_run
          = Returned final_success).
Proof.
  unfold get_threshold. split; [|split].
  - intros t ->. reflexivity.
  - intros ->. reflexivity.
  - intros. apply enforcer_main_returns.
Qed.

Lemma get_threshold_known_or_KeyError_witness :
  get_threshold _initialize_thresholds "medium_vulnerabilities"
  = Returned (mkThreshold "Medium Vulnerabilities" 2 false
                "Maximum medium-severity vulnerabilities")
  /\ get_threshold _initialize_thresholds "response_time"
     = Raised (KeyError "response_time").
Proof.
  split.
  - apply (proj1 (get_threshold_known_or_KeyError _initialize_thresholds
                    "medium_vulnerabilities")).
    vm_compute. reflexivity.
  - apply (proj1 (proj2 (get_threshold_known_or_KeyError _initialize_thresholds
                           "response_time"))).
    vm_compute. reflexivity.
Defined.

(** C9, as stated, fails: the lookup of a name that is not in the registry
    raises [KeyError], and the source has no [ConfigError]. *)
Lemma unknown_threshold_raises_KeyError_not_ConfigError :
  _initialize_thresholds !! "response_time" = None
  /\ get_threshold _initialize_thresholds "response_time"
     = Raised (KeyError "response_time")
  /\ exn_class (KeyError "response_time") = "KeyError"
  /\ exn_class (KeyError "response_time") <> "ConfigError".
Proof. vm_compute. repeat split; discriminate. Qed.

(** ** Verdict of the enforcer's own run *)

Lemma run_comprehensive_validation_verdict
    (format_fixed : nat -> Q -> string) (format_value : Q -> string)
    (th : gmap string QualityThreshold)
    (unit_run integration_run perf_run security_run : bool * PerformanceData)
    (verdict : bool) (rs : list QualityResult) :
  run_comprehensive_validation format_fixed format_value th
    unit_run integration_run perf_run security_run [] = Returned (verdict, rs) ->
  verdict
  = fst unit_run && fst integration_run && fst perf_run && fst security_run
    && Nat.eqb (List.length (critical_failed_of rs)) 0.
Proof.
  unfold run_comprehensive_validation. destruct unit_run as [unit_success unit_data].
  destruct (match coverage unit_data with
            | Some c =>
                coverage_results <-! validate_test_coverage format_fixed format_value th c;
                Returned ([] ++ coverage_results)
            | None => Returned []
            end) as [vr|e]; simpl; [|discriminate].
  destruct (validate_performance_metrics format_fixed format_value th unit_data)
    as [ps|e]; simpl; [|discriminate].
  destruct (validate_security_compliance format_fixed format_value th run_security_scan)
    as [ss|e]; simpl; [|discriminate].
  intros H. injection H as <- <-. reflexivity.
Qed.

(** ** Scenarios of the specification *)

(** Coverage threshold 90 (critical), measured 85: the check fails with
    severity CRITICAL, the score is 0 and the verdict is a failure. *)
Example scenario_coverage_below_critical_threshold :
  exists r,
    validate_test_coverage Sample.no_format_fixed Sample.no_format_value
      _initialize_thresholds SampleScenarios.coverage_only_85 = Returned [r]
    /\ passed r = false /\ severity r = "CRITICAL"
    /\ Scorer.calculate_overall_quality_score [r] == 0
    /\ summary_overall_passed (generate_quality_report [r]) = false.
Proof. eexists. split; [vm_compute; reflexivity|]. vm_compute. repeat split. Qed.

(** No critical vulnerability against the threshold 0: passed, severity INFO. *)
Example scenario_no_critical_vulnerability :
  exists r rest,
    validate_security_compliance Sample.no_format_fixed Sample.no_format_value
      _initialize_thresholds SampleScenarios.clean_scan = Returned (r :: rest)
    /\ check_name r = "Critical Vulnerabilities"
    /\ passed r = true /\ severity r = "INFO".
Proof. do 2 eexists. split; [vm_compute; reflexivity|]. repeat split. Qed.

(** ** Per-plan quality score *)

Lemma success_rate_nonneg (p t : Z) :
  (0 <= p)%Z -> (0 < t)%Z -> 0 <= inject_Z p / inject_Z t.
Proof.
  intros Hp Ht. rewrite Zle_Qle in Hp. rewrite Zlt_Qlt in Ht.
  change (inject_Z 0) with 0 in Hp, Ht.
  apply Qle_shift_div_l; [exact Ht|]. lra.
Qed.

Lemma coverage_score_nonneg (coverage : Q) :
  0 <= coverage -> 0 <= Qmin 30 ((coverage / 90) * 30).
Proof.
  intros Hc. apply Q.min_glb; [lra|].
  apply Qmult_le_0_compat; [|lra].
  apply Qle_shift_div_l; lra.
Qed.

Lemma memory_score_nonneg (m : Q) : 0 <= Qmin 5 (Qmax 0 (5 - m / 100)).
Proof. apply Q.min_glb; [lra | apply Q.le_max_l]. Qed.

(** C10. With nonnegative coverage, counts and metrics,
    [calculate_test_quality_score] is 0 for a failed run and between 50 and
    100 for a successful one; it is never strictly between 0 and 50. *)
Theorem calculate_test_quality_score_zero_or_upper_half
    (success : bool) (coverage : Q) (test_counts : TestCounts)
    (performance : PerformanceMetrics) :
  0 <= coverage ->
  (0 <= tc_total test_counts)%Z -> (0 <= tc_passed test_counts)%Z ->
  (0 <= tc_failed test_counts)%Z -> (0 <= tc_skipped test_counts)%Z ->
  0 <= memory_mb performance -> 0 <= cpu_percent performance ->
  let score := calculate_test_quality_score success coverage test_counts performance in
  (success = false -> score = 0)
  /\ (success = true -> 50 <= score <= 100)
  /\ ~ (0 < score /\ score < 50).
Proof.
  intros Hcov Htot Hpass _ _ _ _ score.
  assert (Hfalse : success = false -> score = 0).
  { intros ->. reflexivity. }
  assert (Htrue : success = true -> 50 <= score <= 100).
  { intros ->. subst score. unfold calculate_test_quality_score. simpl negb. cbv iota.
    pose proof (coverage_score_nonneg coverage Hcov) as Hc.
    pose proof (memory_score_nonneg (memory_mb performance)) as Hm.
    split; [|apply Q.le_min_l].
    apply Q.min_glb; [lra|].
    destruct (0 <? tc_total test_counts)%Z eqn:Hpos.
    - apply Z.ltb_lt in Hpos.
      pose proof (success_rate_nonneg _ _ Hpass Hpos) as Hr.
      set (rate := inject_Z (tc_passed test_counts) / inject_Z (tc_total test_counts)) in *.
      lra.
    - lra. }
  split; [exact Hfalse|]. split; [exact Htrue|].
  intros [Hlo Hhi]. destruct success.
  - destruct (Htrue eq_refl) as [H50 _]. lra.
  - rewrite (Hfalse eq_refl) in Hlo. lra.
Qed.

Lemma calculate_test_quality_score_zero_or_upper_half_witness :
  50 <= calculate_test_quality_score true (171 # 2) SamplePlans.some_counts
          SamplePlans.some_metrics <= 100.
Proof.
  refine (proj1 (proj2 (calculate_test_quality_score_zero_or_upper_half
                          true (171 # 2) SamplePlans.some_counts SamplePlans.some_metrics
                          _ _ _ _ _ _ _)) eq_refl);
    vm_compute; discriminate.
Defined.

(** ** [gather]: the slots do not depend on the completion order *)

Section GatherFacts.

Context {A : Type}.
Implicit Types (outcomes : list (Exc A)) (slots : list (option (Exc A))).

Lemma length_settle outcomes slots i :
  List.length (settle outcomes slots i) = List.length slots.
Proof. unfold settle. destruct (outcomes !! i); [apply length_insert | reflexivity]. Qed.

Lemma length_fold_settle outcomes order slots :
  List.length (fold_left (settle outcomes) order slots) = List.length slots.
Proof.
  revert slots. induction order as [|i order IH]; intros slots; simpl; [reflexivity|].
  now rewrite IH, length_settle.
Qed.

(** A slot that holds its task's outcome keeps it. *)
Lemma settled_stays outcomes order slots j o :
  outcomes !! j = Some o -> slots !! j = Some (Some o) ->
  fold_left (settle outcomes) order slots !! j = Some (Some o).
Proof.
  intros Ho. revert slots. induction order as [|i order IH]; intros slots Hj; simpl.
  - exact Hj.
  - apply IH. unfold settle. destruct (outcomes !! i) as [oi|] eqn:Hi; [|exact Hj].
    destruct (decide (i = j)) as [->|Hne].
    + rewrite Ho in Hi. injection Hi as <-.
      apply list_lookup_insert_eq. now apply lookup_lt_Some in Hj.
    + now rewrite list_lookup_insert_ne.
Qed.

(** A task that settles at some point of the order has its slot filled. *)
Lemma settled_when_in_order outcomes order slots j o :
  List.length slots = List.length outcomes ->
  outcomes !! j = Some o -> In j order ->
  fold_left (settle outcomes) order slots !! j = Some (Some o).
Proof.
  intros Hlen Ho. revert slots Hlen.
  induction order as [|i order IH]; intros slots Hlen Hin; simpl; [destruct Hin|].
  destruct (decide (i = j)) as [->|Hne].
  - apply settled_stays; [exact Ho|].
    unfold settle. rewrite Ho. apply list_lookup_insert_eq.
    rewrite Hlen. now apply lookup_lt_Some in Ho.
  - apply IH; [now rewrite length_settle|].
    destruct Hin as [Hin|Hin]; [contradiction | exact Hin].
Qed.

Lemma gather_slots_complete outcomes order :
  Permutation order (seq 0 (List.length outcomes)) ->
  gather_slots outcomes order = Some <$> outcomes.
Proof.
  intros Hperm. apply list_eq. intros j. rewrite list_lookup_fmap.
  destruct (outcomes !! j) as [o|] eqn:Ho; simpl.
  - apply settled_when_in_order; [apply length_replicate | exact Ho |].
    apply (Permutation_in _ (Permutation_sym Hperm)).
    apply in_seq. apply lookup_lt_Some in Ho. lia.
  - apply lookup_ge_None. unfold gather_slots.
    rewrite length_fold_settle, length_replicate. now apply lookup_ge_None.
Qed.

(** Collect-all: whatever the order in which the tasks settle, [gather]
    returns their outcomes in the order of the tasks. *)
Lemma gather_in_task_order outcomes order :
  Permutation order (seq 0 (List.length outcomes)) ->
  gather outcomes order = Some outcomes.
Proof.
  intros Hperm. unfold gather. rewrite (gather_slots_complete _ _ Hperm).
  now apply mapM_fmap_Some.
Qed.

End GatherFacts.

(** ** Orchestrator *)

Section OrchestratorFacts.

Variable run_single_test_plan : nat -> string -> Exc TestValidationResult.

Lemma process_results_from (test_plans : list string) :
  forall (todo : list string) (k : nat) (acc : list TestValidationResult),
    (forall i plan, todo !! i = Some plan -> test_plans !! (k + i)%nat = Some plan) ->
    fold_left (process_result test_plans)
      (imap (fun i x => ((k + i)%nat, x))
         (imap (fun i plan => run_single_test_plan (k + i)%nat plan) todo))
      (Returned acc)
    = Returned
        (acc ++ imap (fun i plan => collected plan (run_single_test_plan (k + i)%nat plan))
                  todo).
Proof.
  induction todo as [|plan todo IH]; intros k acc Hidx.
  - simpl. now rewrite app_nil_r.
  - rewrite !imap_cons. cbn [fold_left].
    assert (Hstep :
      process_result test_plans (Returned acc)
        ((k + 0)%nat, run_single_test_plan (k + 0)%nat plan)
      = Returned (acc ++ [collected plan (run_single_test_plan (k + 0)%nat plan)])).
    { unfold process_result, list_index. simpl.
      destruct (run_single_test_plan (k + 0)%nat plan) as [r|e]; [reflexivity|].
      now rewrite (Hidx 0%nat plan eq_refl). }
    rewrite Hstep.
    rewrite (imap_ext _ (fun i plan => run_single_test_plan (S k + i)%nat plan) todo)
      by (intros i x _; simpl; f_equal; lia).
    rewrite (imap_ext _ (fun i x => ((S k + i)%nat, x)))
      by (intros i x _; simpl; f_equal; lia).
    rewrite IH.
    + rewrite <- app_assoc. cbn [app]. do 3 f_equal.
      apply imap_ext. intros i x _. unfold compose.
      now replace (S k + i)%nat with (k + S i)%nat by lia.
    + intros i p Hp. replace (S k + i)%nat with (k + S i)%nat by lia.
      now apply Hidx.
Qed.

Lemma run_test_plans_parallel_collects (test_plans : list string)
    (completion_order : list nat) (test_results : list TestValidationResult) :
  Permutation completion_order (seq 0 (List.length test_plans)) ->
  run_test_plans_parallel run_single_test_plan test_plans completion_order test_results
  = Some (Returned
            (test_results
             ++ imap (fun i plan => collected plan (run_single_test_plan i plan))
                  test_plans)).
Proof.
  intros Hperm. unfold run_test_plans_parallel.
  rewrite gather_in_task_order by now rewrite length_imap.
  unfold enumerate. f_equal.
  apply (process_results_from test_plans test_plans 0%nat test_results).
  intros i plan Hi. exact Hi.
Qed.

Lemma run_test_plans_sequential_from :
  forall (todo : list string) (k : nat) (acc : list TestValidationResult),
    (forall i plan, todo !! i = Some plan ->
       exists r, run_single_test_plan (k + i)%nat plan = Returned r) ->
    fold_left
      (fun test_results entry =>
         test_results <-! test_results;
         result <-! run_single_test_plan entry.1 entry.2;
         Returned (test_results ++ [result]))
      (imap (fun i x => ((k + i)%nat, x)) todo) (Returned acc)
    = Returned
        (acc ++ imap (fun i plan => collected plan (run_single_test_plan (k + i)%nat plan))
                  todo).
Proof.
  induction todo as [|plan todo IH]; intros k acc Hret.
  - simpl. now rewrite app_nil_r.
  - rewrite !imap_cons. cbn [fold_left]. simpl exc_bind.
    destruct (Hret 0%nat plan eq_refl) as [r Hr]. rewrite Hr. simpl exc_bind.
    rewrite (imap_ext _ (fun i x => ((S k + i)%nat, x)))
      by (intros i x _; simpl; f_equal; lia).
    rewrite IH.
    + rewrite <- app_assoc. cbn [app]. do 3 f_equal.
      apply imap_ext. intros i x _. unfold compose.
      now replace (S k + i)%nat with (k + S i)%nat by lia.
    + intros i p Hp. replace (S k + i)%nat with (k + S i)%nat by lia.
      now apply Hret.
Qed.

End OrchestratorFacts.

(** C3. When the plans run concurrently and every task settles, in whatever
    order, [run_test_plans_parallel] leaves exactly one result per requested
    plan, at the plan's position in the request: the result the plan's task
    returned, or, when the task raised, a failed record synthesized for that
    plan; the records of the other plans are what their tasks returned. *)
Theorem run_test_plans_parallel_one_result_per_plan
    (run_single_test_plan : nat -> string -> Exc TestValidationResult)
    (test_plans : list string) (completion_order : list nat) :
  Permutation completion_order (seq 0 (List.length test_plans)) ->
  exists results,
    run_test_plans_parallel run_single_test_plan test_plans completion_order []
    = Some (Returned results)
    /\ List.length results = List.length test_plans
    /\ (forall i plan, test_plans !! i = Some plan ->
          match run_single_test_plan i plan with
          | Returned r => results !! i = Some r
          | Raised e =>
              results !! i = Some (exception_result plan e)
              /\ test_plan (exception_result plan e) = plan
              /\ success (exception_result plan e) = false
              /\ errors (exception_result plan e) = [str_exn e]
          end).
Proof.
  intros Hperm. eexists. split; [|split].
  - rewrite (run_test_plans_parallel_collects _ _ _ [] Hperm). reflexivity.
  - cbn [app]. apply length_imap.
  - intros i plan Hi. cbn [app].
    assert (Hl : imap (fun i plan => collected plan (run_single_test_plan i plan))
                   test_plans !! i
                 = Some (collected plan (run_single_test_plan i plan))).
    { rewrite list_lookup_imap, Hi. reflexivity. }
    destruct (run_single_test_plan i plan) as [r|e]; [exact Hl|].
    repeat split. exact Hl.
Qed.

Lemma run_test_plans_parallel_one_result_per_plan_witness :
  exists results,
    run_test_plans_parallel SampleRuns.third_raises runner_test_plans
      SampleRuns.completion_order [] = Some (Returned results)
    /\ List.length results = 4%nat
    /\ results !! 2%nat = Some (exception_result "PerformanceTestPlan" SampleRuns.boom)
    /\ results !! 3%nat
       = Some (execute_test_plan SampleRuns.passing_env "SecurityTestPlan").
Proof.
  assert (Hperm : Permutation SampleRuns.completion_order
                    (seq 0 (List.length runner_test_plans))).
  { apply (Permutation_cons_app [0; 1]%nat [3]%nat). apply perm_skip. apply perm_swap. }
  destruct (run_test_plans_parallel_one_result_per_plan SampleRuns.third_raises
              runner_test_plans SampleRuns.completion_order Hperm)
    as (results & Hrun & Hlen & Hpos).
  exists results. split; [exact Hrun|]. split; [exact Hlen|]. split.
  - exact (proj1 (Hpos 2%nat "PerformanceTestPlan" eq_refl)).
  - exact (Hpos 3%nat "SecurityTestPlan" eq_refl).
Defined.

(** Four requested plans of which one throws: four results, three from the
    executions and one synthesized failure, in request order. *)
Example four_plans_one_throws :
  exists results,
    run_test_plans_parallel SampleRuns.third_raises runner_test_plans
      SampleRuns.completion_order [] = Some (Returned results)
    /\ map test_plan results = runner_test_plans
    /\ map success results = [true; true; false; true]
    /\ map errors results = [[]; []; ["boom"]; []].
Proof. eexists. split; [vm_compute; reflexivity|]. repeat split. Qed.

(** ** Executor failures *)

Lemma execute_test_plan_keeps_plan (env : PlanEnv) (plan : string) :
  test_plan (execute_test_plan env plan) = plan.
Proof.
  unfold execute_test_plan, execute_test_plan_try.
  destruct (build_for_testing (env_build env)); simpl; [|reflexivity].
  destruct (env_fault env); reflexivity.
Qed.

Lemma execute_test_plan_counts_nonneg (env : PlanEnv) (plan : string) :
  (0 <= test_count (execute_test_plan env plan))%Z.
Proof.
  unfold execute_test_plan, execute_test_plan_try.
  destruct (build_for_testing (env_build env)); simpl; [|lia].
  destruct (env_fault env); simpl; [lia|].
  match goal with |- context [(0 <? ?t)%Z] => destruct (Z.ltb_spec 0 t) end; lia.
Qed.

Lemma runner_comprehensive_validation_returns (parallel_execution : bool)
    (env : nat -> PlanEnv) (completion_order : list nat) (gates : GateResults) :
  Permutation completion_order (seq 0 (List.length runner_test_plans)) ->
  runner_comprehensive_validation parallel_execution env completion_order gates
  = Some (Returned
            (generate_validation_report
               (imap (fun i plan => execute_test_plan (env i) plan) runner_test_plans)
               gates)).
Proof.
  intros Hperm. unfold runner_comprehensive_validation.
  destruct parallel_execution.
  - now rewrite (run_test_plans_parallel_collects _ _ _ [] Hperm).
  - reflexivity.
Qed.

(** C6 (as the code has it). [execute_test_plan] always returns a record for
    the plan it was given.  A failed build, or an exception inside the
    [try] block, gives a record with [success] false, total, passed and
    skipped counts 0, the message as the only error and score 0.  A timeout of
    the test run, or an exception of the test subprocess, is turned into a
    result dictionary by [run_xcode_test_plan] and goes through metric
    extraction: [success] false, passed, failed and skipped counts 0,
    [test_count] 1 (a total of zero is reported as one), the message as the
    only error, score 0.  The orchestration itself returns a report with one
    record per plan, in both modes. *)
Theorem execute_test_plan_failure_records (env : PlanEnv) (plan : string) :
  let r := execute_test_plan env plan in
  test_plan r = plan
  /\ (build_for_testing (env_build env) = false ->
        success r = false /\ quality_score r = 0
        /\ errors r = ["Build failed for " +:+ plan]
        /\ test_count r = 0%Z /\ passed_count r = 0%Z /\ skipped_count r = 0%Z)
  /\ (build_for_testing (env_build env) = true ->
      forall e, env_fault env = Some e ->
        success r = false /\ quality_score r = 0
        /\ errors r = ["Exception during " +:+ plan +:+ " execution: " +:+ str_exn e]
        /\ test_count r = 0%Z /\ passed_count r = 0%Z /\ skipped_count r = 0%Z)
  /\ (build_for_testing (env_build env) = true -> env_fault env = None ->
      forall message,
        (env_test env = TestTimedOut /\ message = "Test execution timeout")
        \/ (exists e, env_test env = TestRaised e /\ message = str_exn e) ->
        success r = false /\ quality_score r = 0
        /\ errors r = [message]
        /\ test_count r = 1%Z /\ passed_count r = 0%Z
        /\ failed_count r = 0%Z /\ skipped_count r = 0%Z)
  /\ (forall parallel_execution envs completion_order gates,
        Permutation completion_order (seq 0 (List.length runner_test_plans)) ->
        exists report,
          runner_comprehensive_validation parallel_execution envs completion_order gates
          = Some (Returned report)
          /\ List.length (test_plan_results report) = List.length runner_test_plans).
Proof.
  intros r. subst r. split; [apply execute_test_plan_keeps_plan|].
  unfold execute_test_plan, execute_test_plan_try.
  split; [|split; [|split]].
  - intros ->. simpl. repeat split.
  - intros -> e ->. simpl. repeat split.
  - intros -> -> message [[-> ->]|(e & -> & ->)]; simpl; repeat split.
  - intros parallel_execution envs completion_order gates Hperm.
    rewrite (runner_comprehensive_validation_returns _ _ _ _ Hperm).
    eexists. split; [reflexivity|]. reflexivity.
Qed.

Lemma execute_test_plan_failure_records_witness :
  success (execute_test_plan SampleRuns.timed_out_env "UnitTestPlan") = false
  /\ quality_score (execute_test_plan SampleRuns.timed_out_env "UnitTestPlan") = 0
  /\ errors (execute_test_plan SampleRuns.timed_out_env "UnitTestPlan")
     = ["Test execution timeout"]
  /\ test_count (execute_test_plan SampleRuns.timed_out_env "UnitTestPlan") = 1%Z
  /\ passed_count (execute_test_plan SampleRuns.timed_out_env "UnitTestPlan") = 0%Z
  /\ failed_count (execute_test_plan SampleRuns.timed_out_env "UnitTestPlan") = 0%Z
  /\ skipped_count (execute_test_plan SampleRuns.timed_out_env "UnitTestPlan") = 0%Z.
Proof.
  apply (proj1 (proj2 (proj2 (proj2
           (execute_test_plan_failure_records SampleRuns.timed_out_env "UnitTestPlan"))))
           eq_refl eq_refl "Test execution timeout").
  left. split; reflexivity.
Defined.

(** C6, as stated, fails: a plan whose test run timed out is recorded with
    [test_count] 1, not 0. *)
Lemma timed_out_plan_has_nonzero_count :
  build_for_testing (env_build SampleRuns.timed_out_env) = true
  /\ env_test SampleRuns.timed_out_env = TestTimedOut
  /\ success (execute_test_plan SampleRuns.timed_out_env "UnitTestPlan") = false
  /\ test_count (execute_test_plan SampleRuns.timed_out_env "UnitTestPlan") = 1%Z
  /\ ~ Spec.all_counts_zero (execute_test_plan SampleRuns.timed_out_env "UnitTestPlan").
Proof.
  repeat split; try reflexivity.
  intros (H & _). vm_compute in H. discriminate.
Qed.

(** A passing run with one reported test case: the pattern for a test case
    and the pattern [" passed"] both count it. *)
Example passing_run_record :
  let r := execute_test_plan SampleRuns.passing_env "UnitTestPlan" in
  success r = true /\ test_count r = 2%Z /\ passed_count r = 2%Z
  /\ coverage_percentage r = 171 # 2 /\ quality_score r == 19449 # 200.
Proof. vm_compute. repeat split. Qed.

(** The record of [create_failed_result], field by field. *)
Example build_failure_record :
  execute_test_plan SampleRuns.build_failed_env "UnitTestPlan"
  = {| test_plan := "UnitTestPlan"; success := false;
       execution_time_seconds := 0; coverage_percentage := 0;
       test_count := 0; passed_count := 0; failed_count := 1; skipped_count := 0;
       memory_usage_mb := 0; cpu_usage_percentage := 0;
       errors := ["Build failed for UnitTestPlan"]; warnings := [];
       quality_score := 0 |}.
Proof. reflexivity. Qed.

(** ** Sequential mode *)

Lemma run_test_plans_sequential_collects
    (run_single_test_plan : nat -> string -> Exc TestValidationResult)
    (test_plans : list string) (test_results : list TestValidationResult) :
  (forall i plan, test_plans !! i = Some plan ->
     exists r, run_single_test_plan i plan = Returned r) ->
  run_test_plans_sequential run_single_test_plan test_plans test_results
  = Returned
      (test_results
       ++ imap (fun i plan => collected plan (run_single_test_plan i plan)) test_plans).
Proof.
  intros Hret. unfold run_test_plans_sequential, enumerate.
  apply (run_test_plans_sequential_from run_single_test_plan test_plans 0%nat).
  exact Hret.
Qed.

(** Both modes hand the report builder the same list. *)
Lemma parallel_and_sequential_agree (env : nat -> PlanEnv)
    (test_plans : list string) (completion_order : list nat) :
  Permutation completion_order (seq 0 (List.length test_plans)) ->
  run_test_plans_parallel (fun i plan => Returned (execute_test_plan (env i) plan))
    test_plans completion_order []
  = Some (run_test_plans_sequential
            (fun i plan => Returned (execute_test_plan (env i) plan)) test_plans []).
Proof.
  intros Hperm.
  rewrite (run_test_plans_parallel_collects _ _ _ [] Hperm).
  rewrite run_test_plans_sequential_collects; [reflexivity|].
  intros i plan _. eauto.
Qed.

(** The records the runner builds have nonnegative test counts. *)
Lemma runner_counts_nonneg (env : nat -> PlanEnv) (test_plans : list string)
    (r : TestValidationResult) :
  In r (imap (fun i plan => execute_test_plan (env i) plan) test_plans) ->
  (0 <= test_count r)%Z.
Proof.
  intros Hin. apply list_elem_of_In, list_elem_of_lookup in Hin.
  destruct Hin as [i Hi]. rewrite list_lookup_imap in Hi.
  destruct (test_plans !! i) as [plan|]; simpl in Hi; [|discriminate].
  injection Hi as <-. apply execute_test_plan_counts_nonneg.
Qed.

(** ** Report builder *)

Lemma sumQ_weighted (rs : list TestValidationResult) (a : Q) :
  fold_left Qplus
    (map (fun result => coverage_percentage result * inject_Z (test_count result)) rs) a
  == a + Spec.weighted_total rs.
Proof.
  revert a. induction rs as [|r rs IH]; intros a; simpl; [ring|].
  rewrite IH. ring.
Qed.

Lemma sumQ_scores (rs : list TestValidationResult) (a : Q) :
  fold_left Qplus (map quality_score rs) a == a + Spec.score_total rs.
Proof.
  revert a. induction rs as [|r rs IH]; intros a; simpl; [ring|].
  rewrite IH. ring.
Qed.

Lemma sumZ_counts (rs : list TestValidationResult) (a : Z) :
  fold_left Z.add (map test_count rs) a = (a + Spec.count_total rs)%Z.
Proof.
  revert a. induction rs as [|r rs IH]; intros a; simpl; [lia|].
  rewrite IH. lia.
Qed.

Lemma total_tests_is_count_total (rs : list TestValidationResult) (gates : GateResults) :
  total_tests (generate_validation_report rs gates) = Spec.count_total rs.
Proof. simpl. unfold PyNum.sumZ. now rewrite sumZ_counts. Qed.

Lemma count_total_nonneg (rs : list TestValidationResult) :
  (forall r, In r rs -> (0 <= test_count r)%Z) -> (0 <= Spec.count_total rs)%Z.
Proof.
  induction rs as [|r rs IH]; intros H; simpl; [lia|].
  pose proof (H r (or_introl eq_refl)).
  assert (0 <= Spec.count_total rs)%Z by (apply IH; intros x Hx; apply H; now right).
  lia.
Qed.

Lemma weighted_total_zero (rs : list TestValidationResult) :
  (forall r, In r rs -> (0 <= test_count r)%Z) ->
  Spec.count_total rs = 0%Z -> Spec.weighted_total rs == 0.
Proof.
  induction rs as [|r rs IH]; intros H Hz; simpl in *; [reflexivity|].
  pose proof (H r (or_introl eq_refl)) as Hr.
  assert (Hrs : forall x, In x rs -> (0 <= test_count x)%Z) by (intros x Hx; apply H; now right).
  pose proof (count_total_nonneg rs Hrs) as Hn.
  assert (Hr0 : test_count r = 0%Z) by lia.
  assert (Hrs0 : Spec.count_total rs = 0%Z) by lia.
  rewrite Hr0, (IH Hrs Hrs0). simpl. ring.
Qed.

(** C7. With nonnegative test counts, [overall_coverage] is the average of
    the plans' coverage weighted by their test counts; when the counts add up
    to zero, or there is no plan, it is 0.  The report builder is a total
    function: no division fault, no exception. *)
Theorem overall_coverage_weighted_average
    (rs : list TestValidationResult) (gates : GateResults) :
  (forall r, In r rs -> (0 <= test_count r)%Z) ->
  ((0 < Spec.count_total rs)%Z ->
     overall_coverage (generate_validation_report rs gates) == Spec.weighted_coverage rs)
  /\ (Spec.count_total rs = 0%Z ->
        overall_coverage (generate_validation_report rs gates) == 0)
  /\ (rs = [] -> overall_coverage (generate_validation_report rs gates) = 0).
Proof.
  intros Hnonneg.
  assert (Hcov : forall r0 rs0, rs = r0 :: rs0 ->
            overall_coverage (generate_validation_report rs gates)
            == Spec.weighted_total rs / inject_Z (Z.max 1 (Spec.count_total rs))).
  { intros r0 rs0 ->. unfold generate_validation_report, PyNum.sumQ, PyNum.sumZ.
    cbn [overall_coverage]. rewrite sumQ_weighted, sumZ_counts.
    rewrite Z.add_0_l. apply Qdiv_comp; [ring | reflexivity]. }
  split; [|split].
  - intros Hpos. destruct rs as [|r0 rs0]; [simpl in Hpos; lia|].
    rewrite (Hcov r0 rs0 eq_refl). unfold Spec.weighted_coverage.
    now rewrite Z.max_r by lia.
  - intros Hz. destruct rs as [|r0 rs0]; [reflexivity|].
    rewrite (Hcov r0 rs0 eq_refl), Hz, (weighted_total_zero _ Hnonneg Hz).
    reflexivity.
  - intros ->. reflexivity.
Qed.

Lemma overall_coverage_weighted_average_witness :
  overall_coverage
    (generate_validation_report
       [SamplePlans.unit_ok; SamplePlans.integration_ok; SamplePlans.security_failed]
       GateEmpty)
  == Spec.weighted_coverage
       [SamplePlans.unit_ok; SamplePlans.integration_ok; SamplePlans.security_failed].
Proof.
  apply (proj1 (overall_coverage_weighted_average
                  [SamplePlans.unit_ok; SamplePlans.integration_ok;
                   SamplePlans.security_failed] GateEmpty
                  ltac:(intros r [<-|[<-|[<-|[]]]]; vm_compute; discriminate))).
  vm_compute. reflexivity.
Defined.

Lemma score_total_Permutation (rs rs' : list TestValidationResult) :
  Permutation rs rs' -> Spec.score_total rs == Spec.score_total rs'.
Proof.
  induction 1 as [|x l l' _ IH|x y l|l l' l'' _ IH1 _ IH2]; simpl.
  - reflexivity.
  - now rewrite IH.
  - ring.
  - now rewrite IH1.
Qed.

Lemma forallb_success_Permutation (rs rs' : list TestValidationResult) :
  Permutation rs rs' -> forallb success rs = forallb success rs'.
Proof.
  induction 1 as [|x l l' _ IH|x y l|l l' l'' _ IH1 _ IH2]; simpl.
  - reflexivity.
  - now rewrite IH.
  - now destruct (success x), (success y).
  - now rewrite IH1.
Qed.

Lemma overall_quality_score_mean (r : TestValidationResult)
    (rs : list TestValidationResult) (gates : GateResults) :
  overall_quality_score (generate_validation_report (r :: rs) gates)
  == Spec.mean_quality_score (r :: rs).
Proof.
  unfold generate_validation_report, PyNum.sumQ, Spec.mean_quality_score, of_nat.
  cbn [overall_quality_score]. rewrite sumQ_scores.
  apply Qdiv_comp; [ring | reflexivity].
Qed.

(** C8. For a list with at least one plan, [overall_quality_score] is the sum
    of the plans' quality scores divided by the number of plans; test counts
    play no part.  Three successful plans with score 100 and one failed plan
    with score 0, in any order, give 75 and [overall_success = false]. *)
Theorem overall_quality_score_is_unweighted_mean :
  (forall (r : TestValidationResult) (rs : list TestValidationResult)
          (gates : GateResults),
     overall_quality_score (generate_validation_report (r :: rs) gates)
     == Spec.mean_quality_score (r :: rs))
  /\ (forall (a b c d : TestValidationResult) (rs : list TestValidationResult)
             (gates : GateResults),
        Permutation rs [a; b; c; d] ->
        quality_score a == 100 -> success a = true ->
        quality_score b == 100 -> success b = true ->
        quality_score c == 100 -> success c = true ->
        quality_score d == 0 -> success d = false ->
        overall_quality_score (generate_validation_report rs gates) == 75
        /\ overall_success (generate_validation_report rs gates) = false).
Proof.
  split; [apply overall_quality_score_mean|].
  intros a b c d rs gates Hperm Ha Sa Hb Sb Hc Sc Hd Sd. split.
  - destruct rs as [|r rs'].
    { apply Permutation_nil in Hperm. discriminate. }
    rewrite overall_quality_score_mean. unfold Spec.mean_quality_score.
    rewrite (score_total_Permutation _ _ Hperm), (Permutation_length Hperm).
    simpl. rewrite Ha, Hb, Hc, Hd. reflexivity.
  - cbn [generate_validation_report overall_success].
    rewrite (forallb_success_Permutation _ _ Hperm). simpl.
    now rewrite Sa, Sb, Sc, Sd.
Qed.

Lemma overall_quality_score_is_unweighted_mean_witness :
  overall_quality_score
    (generate_validation_report
       [SamplePlans.unit_ok; SamplePlans.security_failed;
        SamplePlans.integration_ok; SamplePlans.performance_ok] GateEmpty) == 75
  /\ overall_success
       (generate_validation_report
          [SamplePlans.unit_ok; SamplePlans.security_failed;
           SamplePlans.integration_ok; SamplePlans.performance_ok] GateEmpty) = false.
Proof.
  apply (proj2 overall_quality_score_is_unweighted_mean
           SamplePlans.unit_ok SamplePlans.integration_ok SamplePlans.performance_ok
           SamplePlans.security_failed);
    try reflexivity.
  apply perm_skip.
  apply (Permutation_cons_app [_; _] []). apply Permutation_refl.
Defined.

Lemma forallb_success_true (rs : list TestValidationResult) :
  forallb success rs = true <-> forall r, In r rs -> success r = true.
Proof.
  induction rs as [|x rs IH]; simpl.
  - split; [intros _ r [] | reflexivity].
  - rewrite andb_true_iff, IH. split.
    + intros [Hx Hrs] r [<-|Hr]; auto.
    + intros H. split; [apply H; now left | intros r Hr; apply H; now right].
Qed.

(** C5 (as the code has it). [overall_success] of the validation report is
    the conjunction of the plans' [success] flags; the quality-gate results
    are carried into the report and have no part in the verdict.  The field
    agrees with "all plans succeeded and no CRITICAL gate failure" exactly
    when the gate results hold no CRITICAL failure or some plan failed. *)
Theorem overall_success_is_all_plans_succeeded
    (rs : list TestValidationResult) (gates : GateResults) :
  overall_success (generate_validation_report rs gates) = forallb success rs
  /\ (overall_success (generate_validation_report rs gates) = true
      <-> forall r, In r rs -> success r = true)
  /\ overall_success (generate_validation_report rs gates)
     = overall_success (generate_validation_report rs GateEmpty)
  /\ quality_gate_results (generate_validation_report rs gates) = gates
  /\ (overall_success (generate_validation_report rs gates)
      = Spec.overall_success rs gates
      <-> Spec.gates_clear gates = true \/ forallb success rs = false).
Proof.
  cbn [generate_validation_report overall_success quality_gate_results].
  split; [reflexivity|]. split; [apply forallb_success_true|].
  split; [reflexivity|]. split; [reflexivity|].
  unfold Spec.overall_success.
  destruct (forallb success rs), (Spec.gates_clear gates); simpl;
    split; intros H; auto; try discriminate.
  destruct H; discriminate.
Qed.

(** C5, as stated, fails: every plan succeeded, the gate report holds a
    failed CRITICAL check, and [overall_success] is still true. *)
Lemma all_plans_passed_critical_gate_failed :
  forallb success [SamplePlans.unit_ok; SamplePlans.integration_ok] = true
  /\ Spec.gates_clear SampleRuns.critical_gate_report = false
  /\ overall_success
       (generate_validation_report [SamplePlans.unit_ok; SamplePlans.integration_ok]
          SampleRuns.critical_gate_report) = true
  /\ overall_success
       (generate_validation_report [SamplePlans.unit_ok; SamplePlans.integration_ok]
          SampleRuns.critical_gate_report)
     <> Spec.overall_success [SamplePlans.unit_ok; SamplePlans.integration_ok]
          SampleRuns.critical_gate_report.
Proof. vm_compute. repeat split; discriminate. Qed.

(** * Further properties *)

(** ** Scorer: range and extremes *)

Lemma score_closed_form (r : QualityResult) (rs : list QualityResult) :
  Scorer.calculate_overall_quality_score (r :: rs)
  == Scorer.total Scorer.spec_contribution (r :: rs)
     / Scorer.total Scorer.spec_weight (r :: rs).
Proof.
  unfold Scorer.calculate_overall_quality_score.
  destruct (fold_score_step (r :: rs) (0, 0)) as [Hs Hw].
  pose proof (total_weight_pos r rs) as Hpos.
  destruct (fold_left Scorer.score_step (r :: rs) (0, 0)) as [total_score total_weight].
  cbn [fst snd] in Hs, Hw.
  assert (Hgt : PyNum.gtb total_weight 0 = true).
  { apply gtb_true. rewrite Hw. lra. }
  rewrite Hgt, Hs, Hw. apply Qdiv_comp; ring.
Qed.

Lemma contribution_full_iff (x : QualityResult) :
  Scorer.spec_contribution x == 100 * Scorer.spec_weight x <-> passed x = true.
Proof.
  unfold Scorer.spec_contribution.
  change (Scorer.spec_weight x) with (Scorer.weight_of x).
  pose proof (weight_of_pos x). destruct (passed x); split; intros; try reflexivity.
  - lra.
  - discriminate.
Qed.

Lemma contribution_zero_iff (x : QualityResult) :
  Scorer.spec_contribution x == 0 <-> passed x = false.
Proof.
  unfold Scorer.spec_contribution.
  change (Scorer.spec_weight x) with (Scorer.weight_of x).
  pose proof (weight_of_pos x). destruct (passed x); split; intros; try reflexivity.
  - lra.
  - discriminate.
Qed.

Lemma total_contribution_full_iff (rs : list QualityResult) :
  Scorer.total Scorer.spec_contribution rs == 100 * Scorer.total Scorer.spec_weight rs
  <-> forall x, In x rs -> passed x = true.
Proof.
  induction rs as [|x l IH]; simpl.
  - split; [intros _ y [] | intros _; ring].
  - pose proof (spec_contribution_bounds x) as Hx.
    pose proof (total_contribution_bounds l) as Hl.
    split.
    + intros H y [<-|Hy].
      * apply contribution_full_iff. lra.
      * apply IH; [lra | exact Hy].
    + intros H.
      assert (Hx1 : Scorer.spec_contribution x == 100 * Scorer.spec_weight x)
        by (apply contribution_full_iff, H; now left).
      assert (Hl1 : Scorer.total Scorer.spec_contribution l
                    == 100 * Scorer.total Scorer.spec_weight l)
        by (apply IH; intros y Hy; apply H; now right).
      rewrite Hx1, Hl1. ring.
Qed.

Lemma total_contribution_zero_iff (rs : list QualityResult) :
  Scorer.total Scorer.spec_contribution rs == 0
  <-> forall x, In x rs -> passed x = false.
Proof.
  induction rs as [|x l IH]; simpl.
  - split; [intros _ y [] | reflexivity].
  - pose proof (spec_contribution_bounds x) as Hx.
    pose proof (total_contribution_bounds l) as Hl.
    split.
    + intros H y [<-|Hy].
      * apply contribution_zero_iff. lra.
      * apply IH; [lra | exact Hy].
    + intros H.
      assert (Hx1 : Scorer.spec_contribution x == 0)
        by (apply contribution_zero_iff, H; now left).
      assert (Hl1 : Scorer.total Scorer.spec_contribution l == 0)
        by (apply IH; intros y Hy; apply H; now right).
      rewrite Hx1, Hl1. ring.
Qed.

(** X1. The overall quality score is never below 0 and never above 100,
    for any list of results, and so is the score shown in the report. *)
Theorem overall_quality_score_within_0_100 (rs : list QualityResult) :
  0 <= Scorer.calculate_overall_quality_score rs <= 100
  /\ 0 <= summary_quality_score (generate_quality_report rs) <= 100.
Proof.
  assert (H : 0 <= Scorer.calculate_overall_quality_score rs <= 100).
  { destruct rs as [|r rs]; [simpl; lra|].
    rewrite (score_closed_form r rs).
    pose proof (total_weight_pos r rs) as Hpos.
    pose proof (total_contribution_bounds (r :: rs)) as [Hlo Hhi].
    split.
    - apply Qle_shift_div_l; [exact Hpos | lra].
    - apply Qle_shift_div_r; [exact Hpos | lra]. }
  split; exact H.
Qed.

(** X2. On a list with at least one result the score is 100 exactly when
    every result passed, and 0 exactly when none did. *)
Theorem calculate_overall_quality_score_extremes
    (r : QualityResult) (rs : list QualityResult) :
  (Scorer.calculate_overall_quality_score (r :: rs) == 100
   <-> forall x, In x (r :: rs) -> passed x = true)
  /\ (Scorer.calculate_overall_quality_score (r :: rs) == 0
      <-> forall x, In x (r :: rs) -> passed x = false).
Proof.
  pose proof (total_weight_pos r rs) as Hpos.
  pose proof (score_closed_form r rs) as Hscore.
  set (C := Scorer.total Scorer.spec_contribution (r :: rs)) in *.
  set (W := Scorer.total Scorer.spec_weight (r :: rs)) in *.
  assert (HC : C == Scorer.calculate_overall_quality_score (r :: rs) * W).
  { rewrite Hscore. field. lra. }
  split.
  - rewrite <- total_contribution_full_iff. fold C W. split; intros H.
    + rewrite HC, H. reflexivity.
    + rewrite Hscore, H. field. lra.
  - rewrite <- total_contribution_zero_iff. fold C. split; intros H.
    + rewrite HC, H. ring.
    + rewrite Hscore, H. field. lra.
Qed.

(** ** Report of the enforcer: the three counts *)

Lemma report_counts (rs : list QualityResult) :
  let p := List.length (passed_of rs) in
  let c := List.length (critical_failed_of rs) in
  let w := List.length (warnings_of rs) in
  (p + c + w <= List.length rs)%nat
  /\ ((p + c + w = List.length rs)%nat
      <-> forall r, In r rs -> More.failure_is_classified r).
Proof.
  unfold passed_of, critical_failed_of, warnings_of, is_severity,
    More.failure_is_classified.
  induction rs as [|x l [IHle IHeq]]; simpl.
  - split; [lia|]. split; [intros _ r [] | reflexivity].
  - destruct (passed x) eqn:Hp; simpl.
    + split; [lia|]. rewrite <- Nat.add_succ_l. split.
      * intros H r [<-|Hr]; [congruence|]. apply IHeq; [lia | exact Hr].
      * intros H. f_equal. simpl. f_equal. apply IHeq. intros r Hr. apply H. now right.
    + destruct (String.eqb_spec (severity x) "CRITICAL") as [Hc|Hc];
        destruct (String.eqb_spec (severity x) "WARNING") as [Hw|Hw]; simpl.
      * rewrite Hc in Hw. discriminate.
      * split; [lia|]. split.
        -- intros H r [<-|Hr]; [auto|]. apply IHeq; [lia | exact Hr].
        -- intros H.
           assert (Hl : forall r, In r l -> passed r = false ->
                     severity r = "CRITICAL" \/ severity r = "WARNING")
             by (intros r Hr; apply H; now right).
           apply IHeq in Hl. lia.
      * split; [lia|]. split.
        -- intros H r [<-|Hr]; [auto|]. apply IHeq; [lia | exact Hr].
        -- intros H.
           assert (Hl : forall r, In r l -> passed r = false ->
                     severity r = "CRITICAL" \/ severity r = "WARNING")
             by (intros r Hr; apply H; now right).
           apply IHeq in Hl. lia.
      * split; [lia|]. split; [lia|].
        intros H. destruct (H x (or_introl eq_refl) Hp); contradiction.
Qed.

Lemma holds_is_classified (th : gmap string QualityThreshold) (r : QualityResult) :
  Invariant.holds th r -> More.failure_is_classified r.
Proof.
  intros (key & t & _ & _ & Hs & _) Hp. rewrite Hs, Hp. unfold derived_severity.
  destruct (critical t); auto.
Qed.

(** X3. In the report of the enforcer the numbers of passed checks, critical
    failures and warnings never add up to more than the number of checks, and
    they add up to it exactly when every failed result has severity CRITICAL
    or WARNING; a failed result of any other severity is counted under none of
    the three.  The results of the validators are all counted. *)
Theorem generate_quality_report_counts (rs : list QualityResult) :
  let report := generate_quality_report rs in
  (gates_passed report + gates_critical_failures report + gates_warnings report
   <= gates_total_checks report)%nat
  /\ ((gates_passed report + gates_critical_failures report + gates_warnings report
       = gates_total_checks report)%nat
      <-> forall r, In r rs -> More.failure_is_classified r)
  /\ (forall th, Forall (Invariant.holds th) rs ->
        (gates_passed report + gates_critical_failures report + gates_warnings report
         = gates_total_checks report)%nat).
Proof.
  cbn [generate_quality_report gates_passed gates_critical_failures gates_warnings
       gates_total_checks].
  destruct (report_counts rs) as [Hle Heq].
  split; [exact Hle|]. split; [exact Heq|].
  intros th Hall. apply Heq. intros r Hr.
  apply (holds_is_classified th). rewrite List.Forall_forall in Hall. now apply Hall.
Qed.

Lemma generate_quality_report_counts_witness :
  exists rs,
    validate_security_compliance Sample.no_format_fixed Sample.no_format_value
      _initialize_thresholds run_security_scan = Returned rs
    /\ (gates_passed (generate_quality_report rs)
        + gates_critical_failures (generate_quality_report rs)
        + gates_warnings (generate_quality_report rs)
        = gates_total_checks (generate_quality_report rs))%nat.
Proof.
  destruct (validate_security_compliance_invariant
              Sample.no_format_fixed Sample.no_format_value _initialize_thresholds
              same_gates_initial run_security_scan) as (rs & Hrs & Hall).
  exists rs. split; [exact Hrs|].
  exact (proj2 (proj2 (generate_quality_report_counts rs)) _initialize_thresholds Hall).
Defined.

(** A failed result of severity ERROR shows in no list of the report. *)
Example unclassified_failure_is_dropped :
  let r := {| check_name := "Lint"; passed := false; actual_value := None;
              threshold_value := None; message := ""; severity := "ERROR" |} in
  gates_total_checks (generate_quality_report [r]) = 1%nat
  /\ gates_passed (generate_quality_report [r]) = 0%nat
  /\ gates_critical_failures (generate_quality_report [r]) = 0%nat
  /\ gates_warnings (generate_quality_report [r]) = 0%nat.
Proof. repeat split. Qed.

(** ** Strict mode *)

Lemma set_threshold_value_Some (th : gmap string QualityThreshold) (key : string)
    (v : Q) (t : QualityThreshold) :
  th !! key = Some t ->
  set_threshold_value th key v
  = Returned (<[key := mkThreshold (name t) v (critical t) (description t)]> th).
Proof. intros H. unfold set_threshold_value, get_threshold. now rewrite H. Qed.

Lemma set_threshold_value_None (th : gmap string QualityThreshold) (key : string) (v : Q) :
  th !! key = None -> set_threshold_value th key v = Raised (KeyError key).
Proof. intros H. unfold set_threshold_value, get_threshold. now rewrite H. Qed.

Lemma Forall_four {A : Type} (P : A -> Prop) (a b c d : A) :
  Forall P [a; b; c; d] <-> P a /\ P b /\ P c /\ P d.
Proof.
  split.
  - intros H. inversion H as [|? ? Ha H1]; subst. inversion H1 as [|? ? Hb H2]; subst.
    inversion H2 as [|? ? Hc H3]; subst. inversion H3 as [|? ? Hd _]; subst. auto.
  - intros (Ha & Hb & Hc & Hd). repeat (apply List.Forall_cons; [assumption|]).
    apply List.Forall_nil.
Qed.

(** X4. Strict mode needs its four keys: when the registry holds them all,
    [apply_strict_mode] returns a registry in which these four thresholds have
    the values 95, 98, 30 and 1, every other entry is the one it was, and no
    threshold has changed name, criticality or description; when one is
    missing, it raises [KeyError] for a missing one of the four. *)
Theorem apply_strict_mode_frame (th : gmap string QualityThreshold) :
  (Forall (fun key => is_Some (th !! key)) More.strict_keys ->
   exists th',
     apply_strict_mode th = Returned th'
     /\ (forall key, ~ In key More.strict_keys -> th' !! key = th !! key)
     /\ (forall key, More.fixed_part <$> th' !! key = More.fixed_part <$> th !! key)
     /\ value <$> th' !! "overall_test_coverage" = Some 95
     /\ value <$> th' !! "critical_path_coverage" = Some 98
     /\ value <$> th' !! "max_test_execution_time" = Some 30
     /\ value <$> th' !! "test_flaky_rate" = Some 1)
  /\ (~ Forall (fun key => is_Some (th !! key)) More.strict_keys ->
      exists key,
        In key More.strict_keys /\ th !! key = None
        /\ apply_strict_mode th = Raised (KeyError key)).
Proof.
  unfold More.strict_keys, apply_strict_mode.
  destruct (th !! "overall_test_coverage") as [t1|] eqn:E1;
    [|split;
      [intros H; apply Forall_four in H; destruct H as ([? H] & _); congruence
      |intros _; exists "overall_test_coverage";
       rewrite (set_threshold_value_None _ _ _ E1); simpl; auto]].
  rewrite (set_threshold_value_Some _ _ _ _ E1). simpl exc_bind.
  set (th1 := <["overall_test_coverage" := _]> th).
  assert (L2 : th1 !! "critical_path_coverage" = th !! "critical_path_coverage")
    by (apply lookup_insert_ne; discriminate).
  destruct (th !! "critical_path_coverage") as [t2|] eqn:E2;
    [|split;
      [intros H; apply Forall_four in H; destruct H as (_ & [? H] & _); congruence
      |intros _; exists "critical_path_coverage";
       rewrite (set_threshold_value_None _ _ _ L2); simpl; auto]].
  rewrite (set_threshold_value_Some _ _ _ _ L2). simpl exc_bind.
  set (th2 := <["critical_path_coverage" := _]> th1).
  assert (L3 : th2 !! "max_test_execution_time" = th !! "max_test_execution_time").
  { unfold th2, th1. rewrite !lookup_insert_ne by discriminate. reflexivity. }
  destruct (th !! "max_test_execution_time") as [t3|] eqn:E3;
    [|split;
      [intros H; apply Forall_four in H; destruct H as (_ & _ & [? H] & _); congruence
      |intros _; exists "max_test_execution_time";
       rewrite (set_threshold_value_None _ _ _ L3); simpl; auto]].
  rewrite (set_threshold_value_Some _ _ _ _ L3). simpl exc_bind.
  set (th3 := <["max_test_execution_time" := _]> th2).
  assert (L4 : th3 !! "test_flaky_rate" = th !! "test_flaky_rate").
  { unfold th3, th2, th1. rewrite !lookup_insert_ne by discriminate. reflexivity. }
  destruct (th !! "test_flaky_rate") as [t4|] eqn:E4;
    [|split;
      [intros H; apply Forall_four in H; destruct H as (_ & _ & _ & [? H]); congruence
      |intros _; exists "test_flaky_rate";
       rewrite (set_threshold_value_None _ _ _ L4); simpl; auto 6]].
  rewrite (set_threshold_value_Some _ _ _ _ L4).
  split.
  - intros _. eexists. split; [reflexivity|].
    unfold th3, th2, th1. split; [|split].
    + intros key Hkey. simpl in Hkey.
      rewrite !lookup_insert_ne by (intros <-; apply Hkey; auto 6). reflexivity.
    + intros key.
      destruct (decide ("test_flaky_rate" = key)) as [<-|N4];
        [rewrite lookup_insert_eq, E4; reflexivity | rewrite lookup_insert_ne by exact N4].
      destruct (decide ("max_test_execution_time" = key)) as [<-|N3];
        [rewrite lookup_insert_eq, E3; reflexivity | rewrite lookup_insert_ne by exact N3].
      destruct (decide ("critical_path_coverage" = key)) as [<-|N2];
        [rewrite lookup_insert_eq, E2; reflexivity | rewrite lookup_insert_ne by exact N2].
      destruct (decide ("overall_test_coverage" = key)) as [<-|N1];
        [rewrite lookup_insert_eq, E1; reflexivity | rewrite lookup_insert_ne by exact N1].
      reflexivity.
    + repeat split;
        repeat first [ rewrite lookup_insert_eq; reflexivity
                     | rewrite lookup_insert_ne by discriminate ].
  - intros H. exfalso. apply H. apply Forall_four. eauto 6.
Qed.

Lemma apply_strict_mode_frame_witness :
  exists th',
    apply_strict_mode _initialize_thresholds = Returned th'
    /\ th' !! "service_layer_coverage" = _initialize_thresholds !! "service_layer_coverage"
    /\ value <$> th' !! "critical_path_coverage" = Some 98.
Proof.
  destruct (proj1 (apply_strict_mode_frame _initialize_thresholds)) as (th' & H & Hf & _ & _ & H98 & _).
  - apply Forall_four. repeat split; vm_compute; eexists; reflexivity.
  - exists th'. split; [exact H|]. split; [|exact H98].
    apply Hf. unfold More.strict_keys. simpl. intuition discriminate.
Defined.

(** ** Validators: the thresholds they read *)

Section ValidatorKeys.

Variable format_fixed : nat -> Q -> string.
Variable format_value : Q -> string.
Variables th th' : gmap string QualityThreshold.
Hypothesis Hagree : forall key, In key More.validator_keys -> th !! key = th' !! key.

Lemma get_threshold_agree (key : string) :
  In key More.validator_keys -> get_threshold th key = get_threshold th' key.
Proof. intros Hk. unfold get_threshold. now rewrite (Hagree key Hk). Qed.

Ltac agree_on key :=
  rewrite (get_threshold_agree key) by (unfold More.validator_keys; simpl; auto 12).

Lemma validate_test_coverage_agree (coverage_data : CoverageData) :
  validate_test_coverage format_fixed format_value th coverage_data
  = validate_test_coverage format_fixed format_value th' coverage_data.
Proof.
  unfold validate_test_coverage.
  agree_on "overall_test_coverage".
  destruct (get_threshold th' "overall_test_coverage") as [t1|e]; [|reflexivity].
  simpl exc_bind.
  destruct (accumulate_file_coverage is_critical_path_file coverage_data) as [cp cf].
  destruct (accumulate_file_coverage is_service_file coverage_data) as [sc sf].
  destruct (0 <? cf)%nat; [agree_on "critical_path_coverage"|];
    (destruct (0 <? sf)%nat; [agree_on "service_layer_coverage"|]); reflexivity.
Qed.

Lemma validate_performance_metrics_agree (performance_data : PerformanceData) :
  validate_performance_metrics format_fixed format_value th performance_data
  = validate_performance_metrics format_fixed format_value th' performance_data.
Proof.
  unfold validate_performance_metrics.
  agree_on "max_test_execution_time".
  destruct (get_threshold th' "max_test_execution_time") as [t1|e]; [|reflexivity].
  simpl exc_bind. agree_on "max_individual_test_time".
  destruct (get_threshold th' "max_individual_test_time") as [t2|e]; [|reflexivity].
  simpl exc_bind. agree_on "memory_leak_threshold". reflexivity.
Qed.

Lemma validate_security_compliance_agree (security_data : SecurityData) :
  validate_security_compliance format_fixed format_value th security_data
  = validate_security_compliance format_fixed format_value th' security_data.
Proof.
  unfold validate_security_compliance.
  agree_on "critical_vulnerabilities".
  destruct (get_threshold th' "critical_vulnerabilities") as [t1|e]; [|reflexivity].
  simpl exc_bind. agree_on "high_vulnerabilities".
  destruct (get_threshold th' "high_vulnerabilities") as [t2|e]; [|reflexivity].
  simpl exc_bind. agree_on "medium_vulnerabilities".
  destruct (get_threshold th' "medium_vulnerabilities") as [t3|e]; [|reflexivity].
  simpl exc_bind. agree_on "security_test_coverage". reflexivity.
Qed.

End ValidatorKeys.

(** X5. The three validators read ten thresholds of the registry and no
    other: two registries that agree on these ten give the same results and
    the same exceptions.  The eight other thresholds of the built-in registry,
    among them [test_flaky_rate], which strict mode sets, change no result. *)
Theorem validators_read_ten_thresholds
    (format_fixed : nat -> Q -> string) (format_value : Q -> string)
    (th th' : gmap string QualityThreshold) :
  (forall key, In key More.validator_keys -> th !! key = th' !! key) ->
  (forall coverage_data,
     validate_test_coverage format_fixed format_value th coverage_data
     = validate_test_coverage format_fixed format_value th' coverage_data)
  /\ (forall performance_data,
        validate_performance_metrics format_fixed format_value th performance_data
        = validate_performance_metrics format_fixed format_value th' performance_data)
  /\ (forall security_data,
        validate_security_compliance format_fixed format_value th security_data
        = validate_security_compliance format_fixed format_value th' security_data).
Proof.
  intros Hagree. split; [|split]; intros data.
  - now apply validate_test_coverage_agree.
  - now apply validate_performance_metrics_agree.
  - now apply validate_security_compliance_agree.
Qed.

Lemma validators_read_ten_thresholds_witness :
  validate_security_compliance Sample.no_format_fixed Sample.no_format_value
    _initialize_thresholds run_security_scan
  = validate_security_compliance Sample.no_format_fixed Sample.no_format_value
      (<["test_flaky_rate" := mkThreshold "Test Flaky Rate" 1 true ""]>
         (delete "ui_test_coverage" _initialize_thresholds))
      run_security_scan.
Proof.
  apply (validators_read_ten_thresholds Sample.no_format_fixed Sample.no_format_value).
  intros key Hkey. unfold More.validator_keys in Hkey. simpl in Hkey.
  repeat (destruct Hkey as [<-|Hkey]; [vm_compute; reflexivity|]).
  destruct Hkey.
Defined.

(** ** Coverage validator: which checks it reports, and on what numbers *)

Lemma of_nat_succ (n : nat) : of_nat (S n) == of_nat n + 1.
Proof.
  unfold of_nat. rewrite Nat2Z.inj_succ, <- Z.add_1_r, inject_Z_plus. reflexivity.
Qed.

Lemma of_nat_pos (n : nat) : (0 < n)%nat -> 0 < of_nat n.
Proof.
  intros H. unfold of_nat. change 0 with (inject_Z 0). rewrite <- Zlt_Qlt. lia.
Qed.

Lemma accumulate_inner (selected : string -> bool) (fs : list FileCoverage) (acc : Q * nat) :
  fold_left
    (fun acc file_data =>
       let file_name := default "" (file_name file_data) in
       if selected file_name
       then
         let coverage := default 0 (file_lineCoverage file_data) * 100 in
         (fst acc + coverage, S (snd acc))
       else acc)
    fs acc
  = (fold_left Qplus
       (map More.file_percentage
          (List.filter (fun f => selected (default "" (file_name f))) fs))
       (fst acc),
     (snd acc
      + List.length (List.filter (fun f => selected (default "" (file_name f))) fs))%nat).
Proof.
  revert acc. induction fs as [|f fs IH]; intros [a n]; simpl.
  - now rewrite Nat.add_0_r.
  - rewrite IH. destruct (selected (default "" (file_name f))); simpl.
    + now rewrite Nat.add_succ_r.
    + reflexivity.
Qed.

(** The nested loops add up the selected files of all targets and count
    them. *)
Lemma accumulate_file_coverage_closed (selected : string -> bool)
    (coverage_data : CoverageData) :
  accumulate_file_coverage selected coverage_data
  = (PyNum.sumQ (map More.file_percentage (More.selected_files selected coverage_data)),
     List.length (More.selected_files selected coverage_data)).
Proof.
  unfold accumulate_file_coverage, More.selected_files, More.coverage_files, PyNum.sumQ.
  generalize (default [] (targets coverage_data)) as ts.
  assert (H : forall ts (acc : Q * nat),
    fold_left
      (fun acc target =>
         fold_left
           (fun acc file_data =>
              let file_name := default "" (file_name file_data) in
              if selected file_name
              then
                let coverage := default 0 (file_lineCoverage file_data) * 100 in
                (fst acc + coverage, S (snd acc))
              else acc)
           (default [] (files target)) acc)
      ts acc
    = (fold_left Qplus
         (map More.file_percentage
            (List.filter (fun f => selected (default "" (file_name f)))
               (concat (map (fun target => default [] (files target)) ts))))
         (fst acc),
       (snd acc
        + List.length
            (List.filter (fun f => selected (default "" (file_name f)))
               (concat (map (fun target => default [] (files target)) ts))))%nat)).
  { induction ts as [|t ts IH]; intros [a n]; simpl.
    - now rewrite Nat.add_0_r.
    - rewrite accumulate_inner, IH. simpl.
      rewrite List.filter_app, List.map_app, List.fold_left_app, List.length_app.
      now rewrite Nat.add_assoc. }
  intros ts. rewrite H. reflexivity.
Qed.

Lemma fold_left_Qplus_bounds (lo hi : Q) (xs : list Q) (a : Q) :
  Forall (fun x => lo <= x <= hi) xs ->
  a + lo * of_nat (List.length xs) <= fold_left Qplus xs a
  /\ fold_left Qplus xs a <= a + hi * of_nat (List.length xs).
Proof.
  intros H. revert a. induction H as [|x xs Hx _ IH]; intros a.
  - simpl. unfold of_nat. simpl. split; ring_simplify; apply Qle_refl.
  - cbn [fold_left List.length]. destruct (IH (a + x)) as [IHlo IHhi].
    rewrite of_nat_succ. split.
    + eapply Qle_trans; [|exact IHlo]. ring_simplify. lra.
    + eapply Qle_trans; [exact IHhi|]. ring_simplify. lra.
Qed.

Lemma mean_bounds (lo hi : Q) (xs : list Q) :
  xs <> [] -> Forall (fun x => lo <= x <= hi) xs ->
  lo <= PyNum.sumQ xs / of_nat (List.length xs) <= hi.
Proof.
  intros Hne H. destruct (fold_left_Qplus_bounds lo hi xs 0 H) as [Hlo Hhi].
  assert (Hpos : 0 < of_nat (List.length xs)).
  { apply of_nat_pos. destruct xs; [contradiction | simpl; lia]. }
  unfold PyNum.sumQ. split.
  - apply Qle_shift_div_l; [exact Hpos | lra].
  - apply Qle_shift_div_r; [exact Hpos | lra].
Qed.

(** X6. With the built-in registry, or one that differs from it in values
    only, the coverage validator reports the overall check always, the
    critical-path check only when some file name contains one of the critical
    paths, and the service-layer check only when some file is a service file;
    the value of the overall check is [lineCoverage * 100] (0 when the key is
    missing), the value of the two others is the mean of [lineCoverage * 100]
    over the files they select; each check passes exactly when its value is
    at least its threshold. *)
Theorem validate_test_coverage_checks
    (format_fixed : nat -> Q -> string) (format_value : Q -> string)
    (th : gmap string QualityThreshold) (coverage_data : CoverageData) :
  same_gates th ->
  exists rs,
    validate_test_coverage format_fixed format_value th coverage_data = Returned rs
    /\ map check_name rs
       = "Overall Test Coverage"
         :: match More.selected_files is_critical_path_file coverage_data with
            | [] => []
            | _ :: _ => ["Critical Path Coverage"]
            end
         ++ match More.selected_files is_service_file coverage_data with
            | [] => []
            | _ :: _ => ["Service Layer Coverage"]
            end
    /\ map actual_value rs
       = Some (default 0 (lineCoverage coverage_data) * 100)
         :: match More.selected_files is_critical_path_file coverage_data with
            | [] => []
            | _ :: _ => [Some (More.mean_percentage is_critical_path_file coverage_data)]
            end
         ++ match More.selected_files is_service_file coverage_data with
            | [] => []
            | _ :: _ => [Some (More.mean_percentage is_service_file coverage_data)]
            end
    /\ Forall
         (fun r =>
            exists a v,
              actual_value r = Some a /\ threshold_value r = Some v
              /\ passed r = PyNum.geb a v)
         rs.
Proof.
  intros Hsame.
  use_gate th Hsame "overall_test_coverage" t1.
  use_gate th Hsame "critical_path_coverage" t2.
  use_gate th Hsame "service_layer_coverage" t3.
  unfold validate_test_coverage. rewrite Gt1. simpl exc_bind.
  rewrite !accumulate_file_coverage_closed. unfold More.mean_percentage.
  destruct (More.selected_files is_critical_path_file coverage_data) as [|c cs];
    destruct (More.selected_files is_service_file coverage_data) as [|s ss];
    cbn [List.length Nat.ltb Nat.leb]; rewrite ?Gt2, ?Gt3; simpl exc_bind;
    eexists; (split; [reflexivity|]); cbn [app map check_name actual_value];
    rewrite ?Nt1, ?Nt2, ?Nt3;
    (split; [reflexivity|]); (split; [reflexivity|]);
    repeat apply List.Forall_cons; try apply List.Forall_nil;
    do 2 eexists; repeat split.
Qed.

Lemma validate_test_coverage_checks_witness :
  exists rs,
    validate_test_coverage Sample.no_format_fixed Sample.no_format_value
      _initialize_thresholds Sample.coverage_85 = Returned rs
    /\ map check_name rs = ["Overall Test Coverage"; "Critical Path Coverage";
                            "Service Layer Coverage"].
Proof.
  destruct (validate_test_coverage_checks Sample.no_format_fixed Sample.no_format_value
              _initialize_thresholds Sample.coverage_85 same_gates_initial)
    as (rs & Hrs & Hnames & _).
  exists rs. split; [exact Hrs|]. exact Hnames.
Defined.

(** X7. The mean the coverage validator takes over the files it selects lies
    within the bounds of the files' own percentages: between 0 and 100 when
    every selected file has a [lineCoverage] between 0 and 1. *)
Theorem mean_percentage_bounds (selected : string -> bool)
    (coverage_data : CoverageData) :
  More.selected_files selected coverage_data <> [] ->
  (forall f, In f (More.selected_files selected coverage_data) ->
     0 <= default 0 (file_lineCoverage f) <= 1) ->
  fst (accumulate_file_coverage selected coverage_data)
  / of_nat (snd (accumulate_file_coverage selected coverage_data))
  = More.mean_percentage selected coverage_data
  /\ 0 <= More.mean_percentage selected coverage_data <= 100.
Proof.
  intros Hne Hall. rewrite accumulate_file_coverage_closed. split; [reflexivity|].
  unfold More.mean_percentage.
  rewrite <- (List.length_map More.file_percentage).
  apply mean_bounds.
  - destruct (More.selected_files selected coverage_data); [contradiction | discriminate].
  - apply List.Forall_forall. intros x Hx. apply List.in_map_iff in Hx.
    destruct Hx as (f & <- & Hf). unfold More.file_percentage.
    specialize (Hall f Hf). lra.
Qed.

Lemma mean_percentage_bounds_witness :
  0 <= More.mean_percentage is_service_file Sample.coverage_85 <= 100.
Proof.
  apply (mean_percentage_bounds is_service_file Sample.coverage_85).
  - vm_compute. discriminate.
  - intros f Hf. vm_compute in Hf. destruct Hf as [<-|[]].
    vm_compute. split; discriminate.
Defined.

(** ** Enforcer: the comprehensive run on real test runs *)

Lemma critical_failed_of_app (l1 l2 : list QualityResult) :
  critical_failed_of (l1 ++ l2) = critical_failed_of l1 ++ critical_failed_of l2.
Proof. unfold critical_failed_of. apply List.filter_app. Qed.

Lemma all_passed_no_critical_failure (rs : list QualityResult) :
  MoreEnforcer.all_passed rs -> critical_failed_of rs = [].
Proof.
  intros H. induction rs as [|r rs IH]; [reflexivity|].
  unfold critical_failed_of in *. simpl.
  rewrite (H r (or_introl eq_refl)). simpl. apply IH. intros x Hx. apply H. now right.
Qed.

(** For results whose failures are all CRITICAL, no critical failure means
    that all passed. *)
Lemma no_critical_failure_all_passed (rs : list QualityResult) :
  Forall (fun r => severity r = if passed r then "INFO" else "CRITICAL") rs ->
  critical_failed_of rs = [] -> MoreEnforcer.all_passed rs.
Proof.
  intros Hsev. induction Hsev as [|r rs Hr _ IH]; intros Hnone x Hx; [destruct Hx|].
  unfold critical_failed_of in Hnone. simpl in Hnone. unfold is_severity in Hnone.
  destruct (passed r) eqn:Hp; simpl in Hnone.
  - destruct Hx as [<-|Hx]; [exact Hp | now apply IH].
  - rewrite Hr in Hnone. simpl in Hnone. discriminate.
Qed.

Section EnforcerRunFacts.

Variable format_fixed : nat -> Q -> string.
Variable format_value : Q -> string.

Lemma strict_registry_values :
  exists th,
    apply_strict_mode _initialize_thresholds = Returned th
    /\ value <$> th !! "max_test_execution_time" = Some 30
    /\ value <$> th !! "max_individual_test_time" = Some 30
    /\ value <$> th !! "memory_leak_threshold" = Some 0
    /\ value <$> th !! "critical_vulnerabilities" = Some 0
    /\ value <$> th !! "high_vulnerabilities" = Some 0
    /\ value <$> th !! "medium_vulnerabilities" = Some 2
    /\ value <$> th !! "security_test_coverage" = Some 95.
Proof. eexists. split; [reflexivity|]. vm_compute. repeat split. Qed.

Lemma enforcer_registry_values (strict : bool) (th : gmap string QualityThreshold) :
  MoreEnforcer.enforcer_registry strict = Returned th ->
  same_gates th
  /\ value <$> th !! "max_test_execution_time"
     = Some (MoreEnforcer.execution_time_limit strict)
  /\ value <$> th !! "max_individual_test_time" = Some 30
  /\ value <$> th !! "memory_leak_threshold" = Some 0
  /\ value <$> th !! "critical_vulnerabilities" = Some 0
  /\ value <$> th !! "high_vulnerabilities" = Some 0
  /\ value <$> th !! "medium_vulnerabilities" = Some 2
  /\ value <$> th !! "security_test_coverage" = Some 95.
Proof.
  unfold MoreEnforcer.enforcer_registry, MoreEnforcer.execution_time_limit.
  intros H. destruct strict.
  - destruct (apply_strict_mode_same_gates _ same_gates_initial) as (th1 & E1 & Hs).
    destruct strict_registry_values as (th2 & E2 & Hv).
    rewrite E1 in H. injection H as <-.
    rewrite E1 in E2. injection E2 as <-.
    split; [exact Hs | exact Hv].
  - injection H as <-. split; [apply same_gates_initial|].
    vm_compute. repeat split.
Qed.

Lemma validate_test_coverage_critical (th : gmap string QualityThreshold)
    (coverage_data : CoverageData) :
  same_gates th ->
  exists rs,
    validate_test_coverage format_fixed format_value th coverage_data = Returned rs
    /\ Forall (fun r => severity r = if passed r then "INFO" else "CRITICAL") rs.
Proof.
  intros Hsame.
  use_gate th Hsame "overall_test_coverage" t1.
  use_gate th Hsame "critical_path_coverage" t2.
  use_gate th Hsame "service_layer_coverage" t3.
  unfold validate_test_coverage. rewrite Gt1. simpl exc_bind.
  destruct (accumulate_file_coverage is_critical_path_file coverage_data) as [cp cf].
  destruct (accumulate_file_coverage is_service_file coverage_data) as [sc sf].
  destruct (0 <? cf)%nat; [rewrite Gt2|]; simpl exc_bind;
    (destruct (0 <? sf)%nat; [rewrite Gt3|]; simpl exc_bind);
    eexists; (split; [reflexivity|]); cbn [app];
    repeat apply List.Forall_cons; try apply List.Forall_nil;
    cbn [severity passed]; rewrite ?Ct1, ?Ct2, ?Ct3;
    unfold PyNum.ltb, PyNum.geb;
    match goal with |- context [Qle_bool ?a ?b] => destruct (Qle_bool a b) end;
    reflexivity.
Qed.

(** The performance checks on a dictionary of [run_xcode_test_with_coverage]:
    only the execution time can fail. *)
Lemma validate_performance_metrics_of_run (strict : bool)
    (th : gmap string QualityThreshold) (data : XcodeTestData) :
  MoreEnforcer.enforcer_registry strict = Returned th ->
  exists r_time r_slow r_leak,
    validate_performance_metrics format_fixed format_value th (as_performance_data data)
    = Returned [r_time; r_slow; r_leak]
    /\ passed r_time
       = PyNum.leb (default 0 (td_execution_time_minutes data))
           (MoreEnforcer.execution_time_limit strict)
    /\ severity r_time = (if passed r_time then "INFO" else "CRITICAL")
    /\ passed r_slow = true /\ passed r_leak = true.
Proof.
  intros Hreg.
  destruct (enforcer_registry_values strict th Hreg)
    as (Hsame & Vt & Vs & Vl & _).
  use_gate th Hsame "max_test_execution_time" t1.
  use_gate th Hsame "max_individual_test_time" t2.
  use_gate th Hsame "memory_leak_threshold" t3.
  rewrite Lt1 in Vt. rewrite Lt3 in Vl. simpl in Vt, Vl.
  injection Vt as Vt. injection Vl as Vl.
  unfold validate_performance_metrics. rewrite Gt1, Gt2, Gt3. simpl exc_bind.
  do 3 eexists. split; [reflexivity|]. cbn [passed severity as_performance_data
    slow_tests memory_leaks execution_time_minutes default List.filter List.length].
  rewrite Vt, Vl, Ct1. repeat split.
  unfold PyNum.gtb, PyNum.leb.
  now destruct (Qle_bool _ _).
Qed.

(** The security checks on the scan of [run_security_scan] all pass. *)
Lemma validate_security_compliance_of_scan (strict : bool)
    (th : gmap string QualityThreshold) :
  MoreEnforcer.enforcer_registry strict = Returned th ->
  exists rs,
    validate_security_compliance format_fixed format_value th run_security_scan
    = Returned rs
    /\ List.length rs = 4%nat /\ MoreEnforcer.all_passed rs.
Proof.
  intros Hreg.
  destruct (enforcer_registry_values strict th Hreg)
    as (Hsame & _ & _ & _ & Vc & Vh & Vm & Vs).
  use_gate th Hsame "critical_vulnerabilities" t1.
  use_gate th Hsame "high_vulnerabilities" t2.
  use_gate th Hsame "medium_vulnerabilities" t3.
  use_gate th Hsame "security_test_coverage" t4.
  rewrite Lt1 in Vc. rewrite Lt2 in Vh. rewrite Lt3 in Vm. rewrite Lt4 in Vs.
  simpl in Vc, Vh, Vm, Vs.
  injection Vc as Vc. injection Vh as Vh. injection Vm as Vm. injection Vs as Vs.
  unfold validate_security_compliance. rewrite Gt1, Gt2, Gt3, Gt4. simpl exc_bind.
  eexists. split; [reflexivity|]. split; [reflexivity|].
  intros r [<-|[<-|[<-|[<-|[]]]]]; cbn [passed]; rewrite ?Vc, ?Vh, ?Vm, ?Vs; reflexivity.
Qed.

End EnforcerRunFacts.

Lemma run_xcode_success_data (env : XcodeRunEnv) :
  fst (run_xcode_test_with_coverage env) = true ->
  td_execution_time_minutes (snd (run_xcode_test_with_coverage env))
  = Some (xenv_execution_time env / 60)
  /\ td_coverage (snd (run_xcode_test_with_coverage env)) = xenv_coverage env
  /\ td_error (snd (run_xcode_test_with_coverage env)) = None.
Proof.
  unfold run_xcode_test_with_coverage.
  destruct (xenv_build env) as [rc ? ?| |e]; simpl; try discriminate.
  destruct (negb (rc =? 0)%Z); simpl; try discriminate.
  destruct (xenv_test env) as [rc' ? ?| |e]; simpl; try discriminate.
  auto.
Qed.

(** X8. The verdict of the enforcer's comprehensive run, on the registry of
    either mode and whatever the four test runs do: the run returns, and its
    verdict is true exactly when all four test runs succeeded, the unit run
    took no more minutes than the limit (45, or 30 in strict mode), and every
    coverage check on the unit run's coverage data, if there is any, passed.
    The checks on slow tests and memory leaks and the four security checks
    pass in every run. *)
Theorem enforcer_comprehensive_verdict
    (format_fixed : nat -> Q -> string) (format_value : Q -> string)
    (strict : bool) (th : gmap string QualityThreshold)
    (env : string -> XcodeRunEnv) :
  MoreEnforcer.enforcer_registry strict = Returned th ->
  exists verdict rs,
    run_comprehensive_validation format_fixed format_value th
      (xcode_run_of env "UnitTestPlan") (xcode_run_of env "IntegrationTestPlan")
      (xcode_run_of env "PerformanceTestPlan") (xcode_run_of env "SecurityTestPlan") []
    = Returned (verdict, rs)
    /\ (verdict = true <->
        (forall plan, In plan runner_test_plans ->
           fst (run_xcode_test_with_coverage (env plan)) = true)
        /\ xenv_execution_time (env "UnitTestPlan") / 60
           <= MoreEnforcer.execution_time_limit strict
        /\ (forall c cov_rs,
              xenv_coverage (env "UnitTestPlan") = Some c ->
              validate_test_coverage format_fixed format_value th c = Returned cov_rs ->
              MoreEnforcer.all_passed cov_rs)).
Proof.
  intros Hreg.
  destruct (enforcer_registry_values strict th Hreg) as (Hsame & _).
  unfold xcode_run_of, runner_test_plans.
  pose proof (run_xcode_success_data (env "UnitTestPlan")) as Hunit.
  destruct (run_xcode_test_with_coverage (env "UnitTestPlan")) as [ok_u data_u] eqn:Eu.
  destruct (run_xcode_test_with_coverage (env "IntegrationTestPlan"))
    as [ok_i data_i] eqn:Ei.
  destruct (run_xcode_test_with_coverage (env "PerformanceTestPlan"))
    as [ok_p data_p] eqn:Ep.
  destruct (run_xcode_test_with_coverage (env "SecurityTestPlan"))
    as [ok_s data_s] eqn:Es.
  cbn [fst snd] in Hunit.
  destruct (validate_performance_metrics_of_run format_fixed format_value strict th
              data_u Hreg) as (r_time & r_slow & r_leak & Eperf & Ptime & Stime & Pslow & Pleak).
  destruct (validate_security_compliance_of_scan format_fixed format_value strict th Hreg)
    as (sec & Esec & _ & Psec).
  assert (Hcov : exists cov_rs,
            match td_coverage data_u with
            | Some c =>
                validate_test_coverage format_fixed format_value th c = Returned cov_rs
            | None => cov_rs = []
            end
            /\ Forall (fun r => severity r = if passed r then "INFO" else "CRITICAL")
                 cov_rs).
  { destruct (td_coverage data_u) as [c|].
    - apply validate_test_coverage_critical, Hsame.
    - exists []. split; [reflexivity | apply List.Forall_nil]. }
  destruct Hcov as (cov_rs & Ecov & Scov).
  assert (Hrun :
    run_comprehensive_validation format_fixed format_value th
      (ok_u, as_performance_data data_u) (ok_i, as_performance_data data_i)
      (ok_p, as_performance_data data_p) (ok_s, as_performance_data data_s) []
    = Returned
        (ok_u && ok_i && ok_p && ok_s
         && Nat.eqb (List.length
                       (critical_failed_of (cov_rs ++ [r_time; r_slow; r_leak] ++ sec))) 0,
         cov_rs ++ [r_time; r_slow; r_leak] ++ sec)).
  { unfold run_comprehensive_validation. cbn [as_performance_data coverage].
    change (validate_performance_metrics format_fixed format_value th
              {| coverage := td_coverage data_u;
                 execution_time_minutes := td_execution_time_minutes data_u;
                 slow_tests := None; memory_leaks := None |})
      with (validate_performance_metrics format_fixed format_value th
              (as_performance_data data_u)).
    rewrite Eperf, Esec.
    destruct (td_coverage data_u) as [c|].
    - rewrite Ecov. simpl. rewrite <- app_assoc. reflexivity.
    - subst cov_rs. reflexivity. }
  rewrite Hrun. do 2 eexists. split; [reflexivity|].
  rewrite !critical_failed_of_app.
  rewrite (all_passed_no_critical_failure sec Psec), app_nil_r.
  assert (Hperf : critical_failed_of [r_time; r_slow; r_leak]
                  = if passed r_time then [] else [r_time]).
  { unfold critical_failed_of. simpl. rewrite Pslow, Pleak. simpl.
    unfold is_severity. rewrite Stime. now destruct (passed r_time). }
  rewrite Hperf, !andb_true_iff, Nat.eqb_eq, List.length_zero_iff_nil.
  split.
  - intros ((((Hu & Hi) & Hp) & Hs) & Hnone).
    apply app_eq_nil in Hnone. destruct Hnone as [Hc Ht].
    subst ok_u ok_i ok_p ok_s.
    destruct (Hunit eq_refl) as (Ht60 & Hcovdata & _).
    split; [|split].
    + intros plan [<-|[<-|[<-|[<-|[]]]]]; rewrite ?Eu, ?Ei, ?Ep, ?Es; reflexivity.
    + destruct (passed r_time) eqn:Pt; [|discriminate].
      rewrite Ht60 in Ptime. simpl in Ptime. now apply leb_true.
    + intros c rs' Hc' Hrs'. rewrite Hcovdata, Hc' in Ecov. rewrite Hrs' in Ecov.
      injection Ecov as <-. now apply no_critical_failure_all_passed.
  - intros (Hall & Hlimit & Hcovok).
    assert (Hu : ok_u = true)
      by (rewrite <- (Hall "UnitTestPlan"), Eu; simpl; auto).
    assert (Hi : ok_i = true)
      by (rewrite <- (Hall "IntegrationTestPlan"), Ei; simpl; auto).
    assert (Hp : ok_p = true)
      by (rewrite <- (Hall "PerformanceTestPlan"), Ep; simpl; auto).
    assert (Hs : ok_s = true)
      by (rewrite <- (Hall "SecurityTestPlan"), Es; simpl; auto).
    destruct (Hunit Hu) as (Ht60 & Hcovdata & _).
    repeat split; try assumption.
    assert (Pt : passed r_time = true).
    { rewrite Ptime, Ht60. simpl. now apply leb_true. }
    rewrite Pt, app_nil_r.
    apply all_passed_no_critical_failure.
    destruct (td_coverage data_u) as [c|] eqn:Ec.
    + apply (Hcovok c cov_rs); [now rewrite <- Hcovdata | exact Ecov].
    + subst cov_rs. intros r [].
Qed.

Lemma enforcer_comprehensive_verdict_witness :
  exists verdict rs,
    run_comprehensive_validation Sample.no_format_fixed Sample.no_format_value
      _initialize_thresholds
      (xcode_run_of (fun _ => SampleMore.clean_run) "UnitTestPlan")
      (xcode_run_of (fun _ => SampleMore.clean_run) "IntegrationTestPlan")
      (xcode_run_of (fun _ => SampleMore.clean_run) "PerformanceTestPlan")
      (xcode_run_of (fun _ => SampleMore.clean_run) "SecurityTestPlan") []
    = Returned (verdict, rs).
Proof.
  destruct (enforcer_comprehensive_verdict Sample.no_format_fixed Sample.no_format_value
              false _initialize_thresholds (fun _ => SampleMore.clean_run) eq_refl)
    as (verdict & rs & H & _).
  exists verdict, rs. exact H.
Defined.

(** X9. When the build of the unit test run fails, the comprehensive run
    reports seven checks (three on performance, four on security), all of
    them passed: the report of the enforcer then shows a score of 100 and
    [overall_passed], while the run itself returns a failure. *)
Theorem failed_unit_build_still_reports_full_score
    (format_fixed : nat -> Q -> string) (format_value : Q -> string)
    (strict : bool) (th : gmap string QualityThreshold)
    (env : string -> XcodeRunEnv) (rc : Z) (out err : string) :
  MoreEnforcer.enforcer_registry strict = Returned th ->
  xenv_build (env "UnitTestPlan") = Completed rc out err -> rc <> 0%Z ->
  exists rs,
    run_comprehensive_validation format_fixed format_value th
      (xcode_run_of env "UnitTestPlan") (xcode_run_of env "IntegrationTestPlan")
      (xcode_run_of env "PerformanceTestPlan") (xcode_run_of env "SecurityTestPlan") []
    = Returned (false, rs)
    /\ List.length rs = 7%nat
    /\ MoreEnforcer.all_passed rs
    /\ Scorer.calculate_overall_quality_score rs == 100
    /\ summary_overall_passed (generate_quality_report rs) = true.
Proof.
  intros Hreg Hbuild Hrc.
  assert (Hunit : xcode_run_of env "UnitTestPlan"
                  = (false, as_performance_data empty_test_data)).
  { unfold xcode_run_of, run_xcode_test_with_coverage. rewrite Hbuild.
    destruct (Z.eqb_spec rc 0); [contradiction | reflexivity]. }
  rewrite Hunit.
  destruct (validate_performance_metrics_of_run format_fixed format_value strict th
              empty_test_data Hreg)
    as (r_time & r_slow & r_leak & Eperf & Ptime & _ & Pslow & Pleak).
  destruct (validate_security_compliance_of_scan format_fixed format_value strict th Hreg)
    as (sec & Esec & Lsec & Psec).
  assert (Pt : passed r_time = true).
  { rewrite Ptime. simpl. now destruct strict. }
  assert (Hall : MoreEnforcer.all_passed ([r_time; r_slow; r_leak] ++ sec)).
  { intros r Hr. apply in_app_or in Hr. destruct Hr as [[<-|[<-|[<-|[]]]]|Hr]; auto. }
  unfold run_comprehensive_validation. cbn [coverage as_performance_data empty_test_data
    td_coverage]. simpl exc_bind.
  change (validate_performance_metrics format_fixed format_value th
            {| coverage := None; execution_time_minutes := None;
               slow_tests := None; memory_leaks := None |})
    with (validate_performance_metrics format_fixed format_value th
            (as_performance_data empty_test_data)).
  rewrite Eperf. simpl exc_bind. rewrite Esec. simpl exc_bind.
  eexists. split; [reflexivity|]. cbn [app] in *.
  split; [simpl; now rewrite Lsec|]. split; [exact Hall|]. split.
  - now apply all_passed_scores_100.
  - cbn [generate_quality_report summary_overall_passed].
    change ([r_time; r_slow; r_leak] ++ sec) with (r_time :: r_slow :: r_leak :: sec).
    now rewrite (all_passed_no_critical_failure _ Hall).
Qed.

Lemma failed_unit_build_still_reports_full_score_witness :
  exists rs,
    run_comprehensive_validation Sample.no_format_fixed Sample.no_format_value
      _initialize_thresholds
      (xcode_run_of (fun _ => SampleMore.build_broken) "UnitTestPlan")
      (xcode_run_of (fun _ => SampleMore.build_broken) "IntegrationTestPlan")
      (xcode_run_of (fun _ => SampleMore.build_broken) "PerformanceTestPlan")
      (xcode_run_of (fun _ => SampleMore.build_broken) "SecurityTestPlan") []
    = Returned (false, rs)
    /\ Scorer.calculate_overall_quality_score rs == 100
    /\ summary_overall_passed (generate_quality_report rs) = true.
Proof.
  destruct (failed_unit_build_still_reports_full_score
              Sample.no_format_fixed Sample.no_format_value false _initialize_thresholds
              (fun _ => SampleMore.build_broken) 65 "" "error: no such module"
              eq_refl eq_refl ltac:(discriminate))
    as (rs & H & _ & _ & Hscore & Hpass).
  exists rs. auto.
Defined.

(** ** Enforcer: texts of the report *)

Section EnforcerTextFacts.

Variable lower : string -> string.

Lemma fold_recommend_for_failure (failures : list QualityResult) (acc : list string) :
  exists more,
    fold_left (recommend_for_failure lower) failures acc = acc ++ more
    /\ (List.length more <= List.length failures)%nat.
Proof.
  revert acc. induction failures as [|f fs IH]; intros acc; simpl.
  - exists []. split; [now rewrite app_nil_r | simpl; lia].
  - unfold recommend_for_failure at 2.
    destruct (PyStr.contains "coverage" (lower (check_name f)));
      [|destruct (PyStr.contains "vulnerabilit" (lower (check_name f)));
        [|destruct (PyStr.contains "performance" (lower (check_name f)))]];
      match goal with
      | |- context [fold_left _ fs (acc ++ [?x])] =>
          destruct (IH (acc ++ [x])) as (more & -> & Hlen);
          exists (x :: more); rewrite <- app_assoc; simpl; split; [reflexivity | lia]
      | |- _ =>
          destruct (IH acc) as (more & -> & Hlen);
          exists more; split; [reflexivity | lia]
      end.
Qed.

End EnforcerTextFacts.

(** X10. The texts of the enforcer's report follow its verdict.  The list of
    recommendations is never empty; it opens with the all-gates-passed line
    and the next steps are the deployment steps exactly when the verdict is a
    pass, and it opens with the critical-failures line and the next steps are
    the repair steps otherwise.  Each critical failure adds at most one line,
    and the warnings add one line in total. *)
Theorem enforcer_texts_follow_verdict (lower : string -> string)
    (rs : list QualityResult) :
  let recommendations := _generate_recommendations lower rs in
  let verdict := summary_overall_passed (generate_quality_report rs) in
  head recommendations
  = Some (if verdict
          then "✅ All critical quality gates passed - ready for deployment"
          else "🚨 Address all critical quality gate failures before deployment")
  /\ head (_generate_next_steps rs)
     = Some (if verdict then "1. All quality gates passed ✅"
             else "1. Fix all critical quality gate failures")
  /\ List.length (_generate_next_steps rs) = 4%nat
  /\ (List.length recommendations
      <= 1 + List.length (critical_failed_of rs)
         + (if Nat.eqb (List.length (warnings_of rs)) 0 then 0 else 1))%nat.
Proof.
  cbn zeta. unfold _generate_recommendations, _generate_next_steps.
  cbn [generate_quality_report summary_overall_passed].
  destruct (critical_failed_of rs) as [|c cs] eqn:Hc.
  - cbn [List.length Nat.eqb].
    destruct (warnings_of rs) as [|w ws]; repeat split; simpl; lia.
  - destruct (fold_recommend_for_failure lower (c :: cs)
                ["🚨 Address all critical quality gate failures before deployment"])
      as (more & -> & Hlen).
    cbn [List.length Nat.eqb] in *.
    destruct (warnings_of rs) as [|w ws]; repeat split; cbn [app List.length Nat.eqb];
      rewrite ?List.length_app; simpl; lia.
Qed.

(** ** The gate step of the runner *)



(** ** Runner: what one executed plan can score *)

Lemma extract_test_counts_bounds (test_result : XcodeResult) :
  let c := extract_test_counts_from_result test_result in
  (1 <= tc_total c)%Z /\ (0 <= tc_passed c <= tc_total c)%Z
  /\ (0 <= tc_failed c)%Z /\ (0 <= tc_skipped c)%Z
  /\ (tc_total c = tc_passed c + tc_failed c + tc_skipped c
      \/ (tc_passed c + tc_failed c + tc_skipped c = 0 /\ tc_total c = 1))%Z.
Proof.
  unfold extract_test_counts_from_result. cbn [tc_total tc_passed tc_failed tc_skipped].
  set (p := (Z.of_nat (PyStr.count (xr_stdout test_result) "Test Case '-[")
             + Z.of_nat (PyStr.count (xr_stdout test_result) " passed"))%Z).
  set (f := Z.of_nat (PyStr.count (xr_stdout test_result) "failed")).
  set (s := Z.of_nat (PyStr.count (xr_stdout test_result) "skipped")).
  assert (0 <= p)%Z by (unfold p; lia).
  assert (0 <= f)%Z by (unfold f; lia).
  assert (0 <= s)%Z by (unfold s; lia).
  destruct (Z.ltb_spec 0 (p + f + s)); lia.
Qed.

Lemma runner_score_of_rate (c : TestCounts) :
  (1 <= tc_total c)%Z -> (0 <= tc_passed c <= tc_total c)%Z ->
  let score :=
    calculate_test_quality_score true (171 # 2) c
      {| memory_mb := 251 # 2; cpu_percent := 176 # 5 |} in
  16449 # 200 <= score /\ score <= 19449 # 200.
Proof.
  intros Ht Hp. unfold calculate_test_quality_score. cbn [negb memory_mb].
  destruct (Z.ltb_spec 0 (tc_total c)) as [Hpos|]; [|lia].
  assert (Hc : Qmin 30 ((171 # 2) / 90 * 30) == 57 # 2).
  { rewrite Q.min_r; [reflexivity | vm_compute; discriminate]. }
  assert (Hm : Qmin 5 (Qmax 0 (5 - (251 # 2) / 100)) == 749 # 200).
  { rewrite Q.max_r by (vm_compute; discriminate).
    rewrite Q.min_r; [reflexivity | vm_compute; discriminate]. }
  set (rate := inject_Z (tc_passed c) / inject_Z (tc_total c)).
  assert (Hrate : 0 <= rate <= 1).
  { assert (Hq : 0 < inject_Z (tc_total c))
      by (change 0 with (inject_Z 0); rewrite <- Zlt_Qlt; lia).
    assert (Hp0 : 0 <= inject_Z (tc_passed c))
      by (change 0 with (inject_Z 0); rewrite <- Zle_Qle; lia).
    assert (Hp1 : inject_Z (tc_passed c) <= inject_Z (tc_total c))
      by (rewrite <- Zle_Qle; lia).
    unfold rate. split.
    - apply Qle_shift_div_l; [exact Hq | lra].
    - apply Qle_shift_div_r; [exact Hq | lra]. }
  rewrite Hc, Hm.
  assert (Hle : 50 + (57 # 2) + rate * 15 + (749 # 200) <= 100) by lra.
  rewrite (Q.min_r _ _ Hle). lra.
Qed.

(** X12. What one executed plan can score.  A plan that succeeded is
    recorded with the coverage 85.5 and a quality score between 82.245 and
    97.245; every other plan is recorded with the coverage 0 and the score 0.
    A plan succeeds exactly when its build exits with 0, its test run exits
    with 0 and nothing raises in between. *)
Theorem execute_test_plan_scores (env : PlanEnv) (plan : string) :
  let r := execute_test_plan env plan in
  (success r = true ->
     coverage_percentage r = 171 # 2
     /\ 16449 # 200 <= quality_score r /\ quality_score r <= 19449 # 200)
  /\ (success r = false -> coverage_percentage r = 0 /\ quality_score r = 0)
  /\ (success r = true
      <-> build_for_testing (env_build env) = true /\ env_fault env = None
          /\ exists out err, env_test env = TestExited 0 out err).
Proof.
  cbn zeta. unfold execute_test_plan, execute_test_plan_try.
  destruct (build_for_testing (env_build env)); cbn [negb];
    [|simpl; repeat split; try discriminate; intros (H & _); discriminate].
  destruct (env_fault env) as [e|];
    [simpl; repeat split; try discriminate; intros (_ & H & _); discriminate|].
  simpl exc_bind. cbn [success coverage_percentage quality_score].
  pose proof (extract_test_counts_bounds (run_xcode_test_plan (env_test env))) as Hc.
  cbn zeta in Hc. destruct Hc as (Ht & Hp & _).
  destruct (env_test env) as [rc out err| |e]; cbn [run_xcode_test_plan xr_success] in *.
  - destruct (Z.eqb_spec rc 0) as [->|Hrc].
    + split; [|split].
      * intros _. split; [reflexivity|].
        apply (runner_score_of_rate _ Ht Hp).
      * discriminate.
      * split; [eauto 6 | reflexivity].
    + split; [discriminate|]. split; [intros _; split; reflexivity|].
      split; [discriminate|]. intros (_ & _ & o & e' & H). injection H as H _ _.
      contradiction.
  - split; [discriminate|]. split; [intros _; split; reflexivity|].
    split; [discriminate|]. intros (_ & _ & o & e' & H). discriminate.
  - split; [discriminate|]. split; [intros _; split; reflexivity|].
    split; [discriminate|]. intros (_ & _ & o & e' & H). discriminate.
Qed.

Lemma execute_test_plan_scores_witness :
  coverage_percentage (execute_test_plan SampleRuns.passing_env "UnitTestPlan") = 171 # 2
  /\ 16449 # 200 <= quality_score (execute_test_plan SampleRuns.passing_env "UnitTestPlan")
  /\ quality_score (execute_test_plan SampleRuns.passing_env "UnitTestPlan") <= 19449 # 200.
Proof.
  apply (proj1 (execute_test_plan_scores SampleRuns.passing_env "UnitTestPlan")).
  reflexivity.
Defined.

(** ** Orchestrator: pending tasks, and exceptions in sequential mode *)

Section GatherMore.

Context {A : Type}.
Implicit Types (outcomes : list (Exc A)) (slots : list (option (Exc A))).

Lemma unsettled_stays outcomes order slots j :
  ~ In j order -> fold_left (settle outcomes) order slots !! j = slots !! j.
Proof.
  revert slots. induction order as [|i order IH]; intros slots Hj; simpl; [reflexivity|].
  rewrite IH by (intros H; apply Hj; now right).
  unfold settle. destruct (outcomes !! i); [|reflexivity].
  apply list_lookup_insert_ne. intros ->. apply Hj. now left.
Qed.

Lemma gather_slots_all_settled outcomes order :
  (forall i, (i < List.length outcomes)%nat -> In i order) ->
  gather_slots outcomes order = Some <$> outcomes.
Proof.
  intros Hall. apply list_eq. intros j. rewrite list_lookup_fmap.
  destruct (outcomes !! j) as [o|] eqn:Ho; simpl.
  - apply settled_when_in_order; [apply length_replicate | exact Ho |].
    apply Hall. now apply lookup_lt_Some in Ho.
  - apply lookup_ge_None. unfold gather_slots.
    rewrite length_fold_settle, length_replicate. now apply lookup_ge_None.
Qed.

Lemma gather_pending outcomes order j :
  (j < List.length outcomes)%nat -> ~ In j order -> gather outcomes order = None.
Proof.
  intros Hj Hnot. unfold gather. apply mapM_None.
  apply Exists_exists. exists None. split; [|reflexivity].
  apply list_elem_of_lookup. exists j. unfold gather_slots.
  rewrite unsettled_stays by exact Hnot. now apply lookup_replicate_2.
Qed.

End GatherMore.

(** X13. [run_test_plans_parallel] is all or nothing.  If every task settles,
    in any order and even if some settle more than once in the record of the
    order, it returns with one result per plan; if one task never settles, it
    does not return, whatever the other tasks did: there is no partial
    list. *)
Theorem run_test_plans_parallel_all_or_nothing
    (run_single_test_plan : nat -> string -> Exc TestValidationResult)
    (test_plans : list string) (completion_order : list nat)
    (test_results : list TestValidationResult) :
  ((forall i, (i < List.length test_plans)%nat -> In i completion_order) ->
   exists results,
     run_test_plans_parallel run_single_test_plan test_plans completion_order test_results
     = Some (Returned (test_results ++ results))
     /\ List.length results = List.length test_plans)
  /\ (forall j, (j < List.length test_plans)%nat -> ~ In j completion_order ->
        run_test_plans_parallel run_single_test_plan test_plans completion_order
          test_results = None).
Proof.
  unfold run_test_plans_parallel. split.
  - intros Hall.
    assert (Hg : gather (imap run_single_test_plan test_plans) completion_order
                 = Some (imap run_single_test_plan test_plans)).
    { unfold gather. rewrite gather_slots_all_settled by now rewrite length_imap.
      now apply mapM_fmap_Some. }
    rewrite Hg. unfold enumerate.
    exists (imap (fun i plan => collected plan (run_single_test_plan i plan)) test_plans).
    split; [|apply length_imap]. f_equal.
    apply (process_results_from run_single_test_plan test_plans test_plans 0%nat
             test_results).
    intros i plan Hi. exact Hi.
  - intros j Hj Hnot.
    rewrite (gather_pending _ _ j); [reflexivity | now rewrite length_imap | exact Hnot].
Qed.

Lemma run_test_plans_parallel_all_or_nothing_witness :
  run_test_plans_parallel SampleRuns.third_raises runner_test_plans [2; 0; 3]%nat [] = None.
Proof.
  apply (proj2 (run_test_plans_parallel_all_or_nothing SampleRuns.third_raises
                  runner_test_plans [2; 0; 3]%nat []) 1%nat).
  - simpl. lia.
  - simpl. intros [H|[H|[H|[]]]]; discriminate.
Defined.

Section SequentialMore.

Variable run_single_test_plan : nat -> string -> Exc TestValidationResult.

Lemma sequential_raised_stays (entries : list (nat * string)) (e : PyExn) :
  fold_left
    (fun test_results entry =>
       test_results <-! test_results;
       result <-! run_single_test_plan entry.1 entry.2;
       Returned (test_results ++ [result]))
    entries (Raised e)
  = Raised e.
Proof. induction entries as [|x entries IH]; simpl; [reflexivity | exact IH]. Qed.

Lemma run_test_plans_sequential_raises :
  forall (test_plans : list string) (offset k : nat) (plan : string) (e : PyExn)
         (acc : list TestValidationResult),
    test_plans !! k = Some plan ->
    run_single_test_plan (offset + k)%nat plan = Raised e ->
    (forall i p, (i < k)%nat -> test_plans !! i = Some p ->
       exists r, run_single_test_plan (offset + i)%nat p = Returned r) ->
    fold_left
      (fun test_results entry =>
         test_results <-! test_results;
         result <-! run_single_test_plan entry.1 entry.2;
         Returned (test_results ++ [result]))
      (imap (fun i x => ((offset + i)%nat, x)) test_plans) (Returned acc)
    = Raised e.
Proof.
  induction test_plans as [|p ps IH]; intros offset k plan e acc Hk He Hbefore.
  - discriminate.
  - rewrite imap_cons. cbn [fold_left]. simpl exc_bind.
    destruct k as [|k].
    + injection Hk as ->. rewrite He. simpl exc_bind. apply sequential_raised_stays.
    + destruct (Hbefore 0%nat p ltac:(lia) eq_refl) as [r Hr]. rewrite Hr.
      simpl exc_bind.
      rewrite (imap_ext _ (fun i x => ((S offset + i)%nat, x)))
        by (intros i x _; simpl; f_equal; lia).
      apply (IH (S offset) k plan e).
      * exact Hk.
      * now replace (S offset + k)%nat with (offset + S k)%nat by lia.
      * intros i q Hi Hq. replace (S offset + i)%nat with (offset + S i)%nat by lia.
        apply Hbefore; [lia | exact Hq].
Qed.

End SequentialMore.

(** X14. Sequential mode does not isolate a plan: when the execution of a
    plan raises, [run_test_plans_sequential] raises that exception, the first
    in request order, and returns no result list; under the same outcomes the
    parallel mode returns one result per plan. *)
Theorem run_test_plans_sequential_propagates
    (run_single_test_plan : nat -> string -> Exc TestValidationResult)
    (test_plans : list string) (k : nat) (plan : string) (e : PyExn)
    (test_results : list TestValidationResult) (completion_order : list nat) :
  test_plans !! k = Some plan ->
  run_single_test_plan k plan = Raised e ->
  (forall i p, (i < k)%nat -> test_plans !! i = Some p ->
     exists r, run_single_test_plan i p = Returned r) ->
  run_test_plans_sequential run_single_test_plan test_plans test_results = Raised e
  /\ (Permutation completion_order (seq 0 (List.length test_plans)) ->
      exists results,
        run_test_plans_parallel run_single_test_plan test_plans completion_order
          test_results = Some (Returned (test_results ++ results))
        /\ List.length results = List.length test_plans
        /\ results !! k = Some (exception_result plan e)).
Proof.
  intros Hk He Hbefore. split.
  - unfold run_test_plans_sequential, enumerate.
    apply (run_test_plans_sequential_raises run_single_test_plan test_plans 0%nat k plan e);
      assumption.
  - intros Hperm. rewrite (run_test_plans_parallel_collects _ _ _ _ Hperm).
    eexists. split; [reflexivity|]. split; [apply length_imap|].
    rewrite list_lookup_imap, Hk. simpl. now rewrite He.
Qed.

Lemma run_test_plans_sequential_propagates_witness :
  run_test_plans_sequential SampleRuns.third_raises runner_test_plans []
  = Raised SampleRuns.boom.
Proof.
  apply (proj1 (run_test_plans_sequential_propagates SampleRuns.third_raises
                  runner_test_plans 2%nat "PerformanceTestPlan" SampleRuns.boom []
                  SampleRuns.completion_order eq_refl eq_refl
                  ltac:(intros [|[|i]] p Hi Hp; [eexists; reflexivity
                                                |eexists; reflexivity | lia]))).
Defined.

(** X15. With the executor of the runner, which turns every exception into a
    failed record, both modes hand over the same list: the records of the
    plans in request order. *)
Theorem runner_modes_agree (env : nat -> PlanEnv)
    (test_plans : list string) (completion_order : list nat) :
  Permutation completion_order (seq 0 (List.length test_plans)) ->
  run_test_plans_parallel (fun i plan => Returned (execute_test_plan (env i) plan))
    test_plans completion_order []
  = Some (run_test_plans_sequential
            (fun i plan => Returned (execute_test_plan (env i) plan)) test_plans [])
  /\ run_test_plans_sequential
       (fun i plan => Returned (execute_test_plan (env i) plan)) test_plans []
     = Returned (imap (fun i plan => execute_test_plan (env i) plan) test_plans)
  /\ map test_plan (imap (fun i plan => execute_test_plan (env i) plan) test_plans)
     = test_plans.
Proof.
  intros Hperm.
  assert (Hseq : run_test_plans_sequential
                   (fun i plan => Returned (execute_test_plan (env i) plan)) test_plans []
                 = Returned (imap (fun i plan => execute_test_plan (env i) plan) test_plans)).
  { rewrite run_test_plans_sequential_collects; [reflexivity|].
    intros i plan _. eauto. }
  split; [|split; [exact Hseq|]].
  - rewrite Hseq. now rewrite (run_test_plans_parallel_collects _ _ _ [] Hperm).
  - apply list_eq. intros i. rewrite list_lookup_fmap, list_lookup_imap.
    destruct (test_plans !! i) as [plan|]; simpl; [|reflexivity].
    now rewrite execute_test_plan_keeps_plan.
Qed.

Lemma runner_modes_agree_witness :
  run_test_plans_parallel
    (fun i plan => Returned (execute_test_plan SampleRuns.passing_env plan))
    runner_test_plans SampleRuns.completion_order []
  = Some (run_test_plans_sequential
            (fun i plan => Returned (execute_test_plan SampleRuns.passing_env plan))
            runner_test_plans []).
Proof.
  apply (proj1 (runner_modes_agree (fun _ => SampleRuns.passing_env) runner_test_plans
                  SampleRuns.completion_order
                  ltac:(apply (Permutation_cons_app [0; 1]%nat [3]%nat);
                        apply perm_skip; apply perm_swap))).
Defined.

(** ** Report builder: totals and ranges *)

Lemma sumZ_map_fold (f : TestValidationResult -> Z) (rs : list TestValidationResult) (a : Z) :
  fold_left Z.add (map f rs) a = (a + fold_right (fun r acc => f r + acc) 0 rs)%Z.
Proof.
  revert a. induction rs as [|r rs IH]; intros a; simpl; [lia|].
  rewrite IH. lia.
Qed.

Lemma weighted_total_bounds (lo hi : Q) (rs : list TestValidationResult) :
  (forall r, In r rs ->
     (0 <= test_count r)%Z /\ lo <= coverage_percentage r <= hi) ->
  lo * inject_Z (Spec.count_total rs) <= Spec.weighted_total rs
  /\ Spec.weighted_total rs <= hi * inject_Z (Spec.count_total rs).
Proof.
  induction rs as [|r rs IH]; intros H; simpl.
  - split; ring_simplify; apply Qle_refl.
  - destruct (H r (or_introl eq_refl)) as (Hn & Hlo & Hhi).
    destruct IH as [IHlo IHhi]; [intros x Hx; apply H; now right|].
    rewrite inject_Z_plus.
    assert (Hq : 0 <= inject_Z (test_count r))
      by (change 0 with (inject_Z 0); rewrite <- Zle_Qle; exact Hn).
    pose proof (Qmult_le_compat_r _ _ _ Hlo Hq) as H1.
    pose proof (Qmult_le_compat_r _ _ _ Hhi Hq) as H2.
    split; ring_simplify; ring_simplify in IHlo; ring_simplify in IHhi; lra.
Qed.

(** X16. The two averages of the report stay within the range of the plans'
    own values: the overall coverage, when the test counts are nonnegative
    and not all zero, lies between the least and the greatest coverage of a
    plan, and the overall quality score of a list with at least one plan lies
    between the least and the greatest score. *)
Theorem report_averages_within_range
    (rs : list TestValidationResult) (gates : GateResults) (lo hi : Q) :
  ((forall r, In r rs ->
      (0 <= test_count r)%Z /\ lo <= coverage_percentage r <= hi) ->
   (0 < Spec.count_total rs)%Z ->
   lo <= overall_coverage (generate_validation_report rs gates) <= hi)
  /\ ((forall r, In r rs -> lo <= quality_score r <= hi) ->
      rs <> [] ->
      lo <= overall_quality_score (generate_validation_report rs gates) <= hi).
Proof.
  split.
  - intros H Hpos. destruct rs as [|r0 rs0]; [simpl in Hpos; lia|].
    unfold generate_validation_report, PyNum.sumQ, PyNum.sumZ.
    cbn [overall_coverage]. rewrite sumQ_weighted, sumZ_counts, Z.add_0_l.
    rewrite Z.max_r by lia.
    destruct (weighted_total_bounds lo hi _ H) as [Hlo Hhi].
    assert (Hq : 0 < inject_Z (Spec.count_total (r0 :: rs0)))
      by (change 0 with (inject_Z 0); rewrite <- Zlt_Qlt; exact Hpos).
    split.
    + apply Qle_shift_div_l; [exact Hq | lra].
    + apply Qle_shift_div_r; [exact Hq | lra].
  - intros H Hne. destruct rs as [|r0 rs0]; [contradiction|].
    unfold generate_validation_report. cbn [overall_quality_score].
    rewrite <- (List.length_map quality_score).
    apply mean_bounds; [discriminate|].
    apply List.Forall_forall. intros x Hx. apply List.in_map_iff in Hx.
    destruct Hx as (r & <- & Hr). now apply H.
Qed.

Lemma report_averages_within_range_witness :
  70 <= overall_coverage
          (generate_validation_report
             [SamplePlans.unit_ok; SamplePlans.integration_ok; SamplePlans.performance_ok]
             GateEmpty) <= 90.
Proof.
  apply (proj1 (report_averages_within_range
                  [SamplePlans.unit_ok; SamplePlans.integration_ok;
                   SamplePlans.performance_ok] GateEmpty 70 90)).
  - intros r [<-|[<-|[<-|[]]]]; vm_compute; repeat split; discriminate.
  - vm_compute. reflexivity.
Defined.

Lemma all_builds_failed_totals (env : nat -> PlanEnv) (test_plans : list string) :
  (forall i, build_for_testing (env_build (env i)) = false) ->
  let rs := imap (fun i plan => execute_test_plan (env i) plan) test_plans in
  Spec.count_total rs = 0%Z
  /\ fold_right (fun r acc => passed_count r + acc)%Z 0%Z rs = 0%Z
  /\ fold_right (fun r acc => failed_count r + acc)%Z 0%Z rs
     = Z.of_nat (List.length test_plans)
  /\ Spec.weighted_total rs == 0 /\ Spec.score_total rs == 0
  /\ forallb success rs = match test_plans with [] => true | _ => false end.
Proof.
  revert env. induction test_plans as [|p ps IH]; intros env Hfail; cbn zeta.
  - simpl. repeat split; reflexivity.
  - rewrite imap_cons.
    specialize (IH (env ∘ S) (fun i => Hfail (S i))). cbn zeta in IH.
    destruct IH as (Ht & Hp & Hf & Hw & Hs & _).
    assert (Hr : execute_test_plan (env 0%nat) p
                 = create_failed_result p ["Build failed for " +:+ p]).
    { unfold execute_test_plan, execute_test_plan_try. now rewrite Hfail. }
    cbn [Spec.count_total Spec.weighted_total Spec.score_total fold_right forallb].
    rewrite Hr. cbn [create_failed_result test_count passed_count failed_count
      coverage_percentage quality_score success].
    change (imap ((fun i plan => execute_test_plan (env i) plan) ∘ S) ps)
      with (imap (fun i plan => execute_test_plan ((env ∘ S) i) plan) ps).
    rewrite Ht, Hp, Hf, Hw, Hs. cbn [List.length].
    repeat split; try reflexivity. lia.
Qed.

(** X17. When every build fails, the report counts no test and one failure
    per plan, so more failed tests than tests, shows coverage 0 and score 0,
    and is a failure unless no plan was requested. *)
Theorem all_builds_failed_report (env : nat -> PlanEnv) (test_plans : list string)
    (gates : GateResults) :
  (forall i, build_for_testing (env_build (env i)) = false) ->
  let report :=
    generate_validation_report
      (imap (fun i plan => execute_test_plan (env i) plan) test_plans) gates in
  total_tests report = 0%Z
  /\ total_passed report = 0%Z
  /\ total_failed report = Z.of_nat (List.length test_plans)
  /\ overall_coverage report == 0
  /\ overall_quality_score report == 0
  /\ overall_success report = match test_plans with [] => true | _ => false end.
Proof.
  intros Hfail. cbn zeta.
  destruct (all_builds_failed_totals env test_plans Hfail)
    as (Ht & Hp & Hf & Hw & Hs & Hok).
  cbn zeta in Ht, Hp, Hf, Hw, Hs, Hok.
  set (rs := imap (fun i plan => execute_test_plan (env i) plan) test_plans) in *.
  unfold generate_validation_report, PyNum.sumZ, PyNum.sumQ.
  cbn [total_tests total_passed total_failed overall_coverage overall_quality_score
       overall_success].
  rewrite sumZ_counts, !sumZ_map_fold, Ht, Hp, Hf, Hok.
  repeat split; try reflexivity.
  - destruct rs; [reflexivity|]. rewrite sumQ_weighted, Hw. reflexivity.
  - destruct rs; [reflexivity|]. rewrite sumQ_scores, Hs. reflexivity.
Qed.

Lemma all_builds_failed_report_witness :
  total_tests
    (generate_validation_report
       (imap (fun i plan => execute_test_plan SampleMore.failed_build_env plan)
          runner_test_plans) GateEmpty) = 0%Z
  /\ total_failed
       (generate_validation_report
          (imap (fun i plan => execute_test_plan SampleMore.failed_build_env plan)
             runner_test_plans) GateEmpty) = 4%Z.
Proof.
  destruct (all_builds_failed_report (fun _ => SampleMore.failed_build_env)
              runner_test_plans GateEmpty (fun _ => eq_refl))
    as (H1 & _ & H3 & _).
  split; [exact H1 | exact H3].
Defined.

(** ** Runner: recommendations *)

Lemma filter_nil_iff {A : Type} (f : A -> bool) (l : list A) :
  List.filter f l = [] <-> forall x, In x l -> f x = false.
Proof.
  induction l as [|a l IH]; simpl.
  - split; [intros _ x [] | reflexivity].
  - destruct (f a) eqn:Ha.
    + split; [discriminate|]. intros H. specialize (H a (or_introl eq_refl)). congruence.
    + rewrite IH. split.
      * intros H x [<-|Hx]; auto.
      * intros H x Hx. apply H. now right.
Qed.

(** X18. The recommendations of the runner depend on the plans only: the
    quality-gate results never add a line, because the key looked for is not
    a top-level key of what the gate step stores.  The list is never empty
    and has at most three lines, and it is the single all-checks-passed line
    exactly when every plan succeeded, has a coverage of at least 80 and took
    at most 300 seconds. *)
Theorem generate_recommendations_by_plans
    (rs : list TestValidationResult) (gates : GateResults) :
  generate_recommendations rs gates = generate_recommendations rs GateEmpty
  /\ generate_recommendations rs gates <> []
  /\ (List.length (generate_recommendations rs gates) <= 3)%nat
  /\ (generate_recommendations rs gates
      = ["✅ All validation checks passed - ready for deployment"]
      <-> forall r, In r rs -> MoreRunner.nothing_to_recommend r).
Proof.
  assert (Hgate : existsb (String.eqb "critical_failures") (gate_keys gates) = false)
    by (destruct gates; reflexivity).
  unfold generate_recommendations. rewrite Hgate. cbn [gate_keys existsb].
  set (failed := List.filter (fun r => negb (success r)) rs).
  set (low := List.filter (fun r => PyNum.ltb (coverage_percentage r) 80) rs).
  set (slow := List.filter (fun r => PyNum.gtb (execution_time_seconds r) 300) rs).
  assert (Hiff : (failed = [] /\ low = [] /\ slow = [])
                 <-> forall r, In r rs -> MoreRunner.nothing_to_recommend r).
  { unfold failed, low, slow, MoreRunner.nothing_to_recommend.
    rewrite !filter_nil_iff. split.
    - intros (Hf & Hl & Hs) r Hr.
      specialize (Hf r Hr). specialize (Hl r Hr). specialize (Hs r Hr).
      apply negb_false_iff in Hf. unfold PyNum.ltb in Hl. apply negb_false_iff in Hl.
      unfold PyNum.gtb in Hs. apply negb_false_iff in Hs.
      apply Qle_bool_iff in Hl. apply Qle_bool_iff in Hs. auto.
    - intros H. repeat split; intros r Hr; destruct (H r Hr) as (Hf & Hl & Hs).
      + now rewrite Hf.
      + unfold PyNum.ltb. apply negb_false_iff. now apply Qle_bool_iff.
      + unfold PyNum.gtb. apply negb_false_iff. now apply Qle_bool_iff. }
  split; [reflexivity|].
  rewrite <- Hiff. clear Hiff.
  destruct failed as [|f fs], low as [|l ls], slow as [|s ss]; cbn [app];
    (split; [discriminate|]); (split; [simpl; lia|]);
    (split; [intros H; try discriminate H; auto
            |intros (H1 & H2 & H3); try discriminate; reflexivity]).
Qed.

Lemma generate_recommendations_by_plans_witness :
  generate_recommendations [SamplePlans.unit_ok] SampleRuns.critical_gate_report
  = ["✅ All validation checks passed - ready for deployment"].
Proof.
  apply (proj2 (proj2 (proj2 (generate_recommendations_by_plans
                                [SamplePlans.unit_ok] SampleRuns.critical_gate_report)))).
  intros r [<-|[]]. split; [reflexivity|]. split; vm_compute; discriminate.
Defined.

Lemma execute_test_plan_coverage (env : PlanEnv) (plan : string) :
  coverage_percentage (execute_test_plan env plan)
  = if success (execute_test_plan env plan) then 171 # 2 else 0.
Proof.
  unfold execute_test_plan, execute_test_plan_try.
  destruct (build_for_testing (env_build env)); [|reflexivity].
  destruct (env_fault env); [reflexivity|].
  cbn [negb exc_bind success coverage_percentage]. reflexivity.
Qed.

(** X19. In the records the runner builds, the failed plans are the plans
    with a coverage below 80: a failed plan is recorded with the coverage 0
    and a successful one with 85.5.  So whenever a plan failed, the
    recommendations open with the line on failing plans followed by the line
    on low coverage, both naming the same plans. *)
Theorem runner_failed_plans_are_low_coverage_plans
    (env : nat -> PlanEnv) (test_plans : list string) (gates : GateResults) :
  let rs := imap (fun i plan => execute_test_plan (env i) plan) test_plans in
  List.filter (fun r => negb (success r)) rs
  = List.filter (fun r => PyNum.ltb (coverage_percentage r) 80) rs
  /\ (List.filter (fun r => negb (success r)) rs <> [] ->
      exists names more,
        names = PyStr.join ", "
                  (map test_plan (List.filter (fun r => negb (success r)) rs))
        /\ generate_recommendations rs gates
           = ("🚨 Fix failing test plans: " +:+ names)
             :: ("📊 Improve test coverage for: " +:+ names) :: more).
Proof.
  cbn zeta.
  set (rs := imap (fun i plan => execute_test_plan (env i) plan) test_plans).
  assert (Heq : List.filter (fun r => negb (success r)) rs
                = List.filter (fun r => PyNum.ltb (coverage_percentage r) 80) rs).
  { apply List.filter_ext_in. intros r Hr.
    apply list_elem_of_In, list_elem_of_lookup in Hr. destruct Hr as [i Hi].
    unfold rs in Hi. rewrite list_lookup_imap in Hi.
    destruct (test_plans !! i) as [plan|]; simpl in Hi; [|discriminate].
    injection Hi as <-. rewrite execute_test_plan_coverage.
    now destruct (success (execute_test_plan (env i) plan)). }
  split; [exact Heq|].
  intros Hne.
  assert (Hgate : existsb (String.eqb "critical_failures") (gate_keys gates) = false)
    by (destruct gates; reflexivity).
  unfold generate_recommendations. rewrite Hgate, <- Heq.
  destruct (List.filter (fun r => negb (success r)) rs) as [|f fs]; [contradiction|].
  cbn [app].
  destruct (List.filter (fun r => PyNum.gtb (execution_time_seconds r) 300) rs);
    do 2 eexists; (split; [reflexivity|]); reflexivity.
Qed.

Lemma runner_failed_plans_are_low_coverage_plans_witness :
  exists more,
    generate_recommendations
      (imap (fun i plan => execute_test_plan SampleMore.failed_build_env plan)
         ["UnitTestPlan"; "SecurityTestPlan"]) GateEmpty
    = "🚨 Fix failing test plans: UnitTestPlan, SecurityTestPlan"
      :: "📊 Improve test coverage for: UnitTestPlan, SecurityTestPlan" :: more.
Proof.
  destruct (proj2 (runner_failed_plans_are_low_coverage_plans
                     (fun _ => SampleMore.failed_build_env)
                     ["UnitTestPlan"; "SecurityTestPlan"] GateEmpty))
    as (names & more & Hnames & H).
  - vm_compute. discriminate.
  - exists more. rewrite H, Hnames. reflexivity.
Defined.

(** ** Runner: exit code *)

Lemma execute_test_plan_success_iff (env : PlanEnv) (plan : string) :
  success (execute_test_plan env plan) = true <-> MoreRunner.ran_clean env.
Proof.
  unfold MoreRunner.ran_clean, execute_test_plan, execute_test_plan_try.
  destruct (build_for_testing (env_build env)); cbn [negb];
    [|simpl; split; [discriminate | intros (H & _); discriminate]].
  destruct (env_fault env) as [e|];
    [simpl; split; [discriminate | intros (_ & H & _); discriminate]|].
  simpl exc_bind. cbn [success].
  destruct (env_test env) as [rc out err| |e]; cbn [run_xcode_test_plan xr_success].
  - destruct (Z.eqb_spec rc 0) as [->|Hrc].
    + split; [eauto 6 | reflexivity].
    + split; [discriminate|]. intros (_ & _ & o & e' & H). injection H as H _ _.
      contradiction.
  - split; [discriminate|]. intros (_ & _ & o & e' & H). discriminate.
  - split; [discriminate|]. intros (_ & _ & o & e' & H). discriminate.
Qed.

(** X20. The exit code of the runner.  When the four executions settle, the
    runner exits with 0 or 1, in either mode, and with 0 exactly when each of
    the four plans had its build and its test run exit with 0 and nothing
    raised; coverage, scores and the quality-gate results play no part. *)
Theorem runner_exit_code (sequential : bool) (env : nat -> PlanEnv)
    (completion_order : list nat) (gates : GateResults) :
  Permutation completion_order (seq 0 (List.length runner_test_plans)) ->
  exists code,
    runner_main sequential env completion_order gates = Some code
    /\ (code = 0 \/ code = 1)%Z
    /\ (code = 0%Z <-> forall i, (i < 4)%nat -> MoreRunner.ran_clean (env i)).
Proof.
  intros Hperm. unfold runner_main.
  rewrite (runner_comprehensive_validation_returns _ _ _ _ Hperm).
  cbn [generate_validation_report overall_success].
  eexists. split; [reflexivity|].
  unfold runner_test_plans. cbn [imap forallb]. unfold compose.
  pose proof (execute_test_plan_success_iff (env 0%nat) "UnitTestPlan") as H0.
  pose proof (execute_test_plan_success_iff (env 1%nat) "IntegrationTestPlan") as H1.
  pose proof (execute_test_plan_success_iff (env 2%nat) "PerformanceTestPlan") as H2.
  pose proof (execute_test_plan_success_iff (env 3%nat) "SecurityTestPlan") as H3.
  set (s0 := success (execute_test_plan (env 0%nat) "UnitTestPlan")) in *.
  set (s1 := success (execute_test_plan (env 1%nat) "IntegrationTestPlan")) in *.
  set (s2 := success (execute_test_plan (env 2%nat) "PerformanceTestPlan")) in *.
  set (s3 := success (execute_test_plan (env 3%nat) "SecurityTestPlan")) in *.
  assert (Hall : (forall i, (i < 4)%nat -> MoreRunner.ran_clean (env i))
                 <-> s0 = true /\ s1 = true /\ s2 = true /\ s3 = true).
  { split.
    - intros H. rewrite H0, H1, H2, H3. repeat split; apply H; lia.
    - intros (A0 & A1 & A2 & A3) [|[|[|[|i]]]] Hi; try lia;
        [apply H0 | apply H1 | apply H2 | apply H3]; assumption. }
  rewrite Hall.
  destruct s0, s1, s2, s3; cbn [andb]; split; auto;
    split; intros H; try discriminate H; try reflexivity; auto;
    destruct H as (A0 & A1 & A2 & A3); discriminate.
Qed.

Lemma runner_exit_code_witness :
  runner_main false (fun _ => SampleRuns.passing_env) SampleRuns.completion_order GateEmpty
  = Some 0%Z.
Proof.
  destruct (runner_exit_code false (fun _ => SampleRuns.passing_env)
              SampleRuns.completion_order GateEmpty
              ltac:(apply (Permutation_cons_app [0; 1]%nat [3]%nat);
                    apply perm_skip; apply perm_swap))
    as (code & Hcode & _ & Hzero).
  rewrite Hcode. f_equal. apply Hzero. intros i _.
  split; [reflexivity|]. split; [reflexivity|]. do 2 eexists. reflexivity.
Defined.

(** ** Enforcer: a timed-out run, and the single-plan mode *)

(** X21. A test run that times out, in its build or in its tests, is
    reported as a run of 45 minutes.  The execution-time check on it compares
    45 with the limit: in normal mode, where the limit is 45, the check
    passes with severity INFO; in strict mode, where it is 30, it fails with
    severity CRITICAL. *)
Theorem timed_out_run_and_the_time_limit
    (format_fixed : nat -> Q -> string) (format_value : Q -> string)
    (strict : bool) (th : gmap string QualityThreshold) (env : XcodeRunEnv) :
  MoreEnforcer.enforcer_registry strict = Returned th ->
  xenv_build env = TimeoutExpired
  \/ ((exists out err, xenv_build env = Completed 0 out err)
      /\ xenv_test env = TimeoutExpired) ->
  run_xcode_test_with_coverage env = (false, timeout_test_data)
  /\ exists r_time r_slow r_leak,
       validate_performance_metrics format_fixed format_value th
         (as_performance_data (snd (run_xcode_test_with_coverage env)))
       = Returned [r_time; r_slow; r_leak]
       /\ actual_value r_time = Some 45
       /\ passed r_time = negb strict
       /\ severity r_time = (if strict then "CRITICAL" else "INFO").
Proof.
  intros Hreg Htimeout.
  assert (Hrun : run_xcode_test_with_coverage env = (false, timeout_test_data)).
  { unfold run_xcode_test_with_coverage.
    destruct Htimeout as [->|((out & err & ->) & ->)]; reflexivity. }
  split; [exact Hrun|]. rewrite Hrun. cbn [snd].
  destruct (enforcer_registry_values strict th Hreg) as (Hsame & Vt & _).
  use_gate th Hsame "max_test_execution_time" t1.
  use_gate th Hsame "max_individual_test_time" t2.
  use_gate th Hsame "memory_leak_threshold" t3.
  rewrite Lt1 in Vt. simpl in Vt. injection Vt as Vt.
  unfold validate_performance_metrics. rewrite Gt1, Gt2, Gt3. simpl exc_bind.
  do 3 eexists. split; [reflexivity|].
  cbn [actual_value passed severity as_performance_data timeout_test_data
       td_execution_time_minutes execution_time_minutes default].
  rewrite Vt, Ct1. now destruct strict.
Qed.

Lemma timed_out_run_and_the_time_limit_witness :
  run_xcode_test_with_coverage
    {| xenv_build := TimeoutExpired; xenv_test := TimeoutExpired;
       xenv_execution_time := 0; xenv_coverage := None |}
  = (false, timeout_test_data).
Proof.
  apply (timed_out_run_and_the_time_limit Sample.no_format_fixed Sample.no_format_value
           false _initialize_thresholds
           {| xenv_build := TimeoutExpired; xenv_test := TimeoutExpired;
              xenv_execution_time := 0; xenv_coverage := None |} eq_refl).
  left. reflexivity.
Defined.

(** X22. With [--test-plan], the enforcer runs that one plan and only the
    coverage validator, whether or not [--skip-tests] is given: it returns,
    and its exit verdict is success exactly when the test run succeeded and
    every coverage check on the run's coverage data, if there is any,
    passed.  The time, memory and security checks are not made. *)
Theorem enforcer_single_plan_verdict
    (format_fixed : nat -> Q -> string) (format_value : Q -> string)
    (strict skip_tests : bool) (test_plan : string)
    (th : gmap string QualityThreshold)
    (xcode_run : string -> bool * PerformanceData) :
  MoreEnforcer.enforcer_registry strict = Returned th ->
  test_plan <> "" ->
  exists final_success,
    enforcer_main format_fixed format_value
      {| arg_strict := strict; arg_test_plan := Some test_plan;
         arg_skip_tests := skip_tests |} xcode_run
    = Returned final_success
    /\ (final_success = true <->
        fst (xcode_run test_plan) = true
        /\ (forall c rs,
              coverage (snd (xcode_run test_plan)) = Some c ->
              validate_test_coverage format_fixed format_value th c = Returned rs ->
              MoreEnforcer.all_passed rs)).
Proof.
  intros Hreg Hplan.
  destruct (enforcer_registry_values strict th Hreg) as (Hsame & _).
  unfold enforcer_main, given_test_plan. cbn [arg_strict arg_test_plan arg_skip_tests].
  unfold MoreEnforcer.enforcer_registry in Hreg. rewrite Hreg. simpl exc_bind.
  destruct test_plan as [|ch rest]; [contradiction|].
  destruct (xcode_run (String ch rest)) as [ok data]. cbn [fst snd].
  destruct (coverage data) as [c|].
  - destruct (validate_test_coverage_critical format_fixed format_value th c Hsame)
      as (rs & Hrs & Hsev).
    rewrite Hrs. simpl exc_bind. eexists. split; [reflexivity|].
    rewrite andb_true_iff, Nat.eqb_eq, List.length_zero_iff_nil. split.
    + intros (Hok & Hnone). split; [exact Hok|].
      intros c' rs' Hc Hrs'. injection Hc as <-. rewrite Hrs in Hrs'.
      injection Hrs' as <-. now apply no_critical_failure_all_passed.
    + intros (Hok & Hall). split; [exact Hok|].
      apply all_passed_no_critical_failure. now apply (Hall c rs).
  - simpl exc_bind. eexists. split; [reflexivity|].
    cbn [critical_failed_of List.filter List.length Nat.eqb]. rewrite andb_true_r.
    split; [intros Hok; split; [exact Hok | discriminate] | intros (Hok & _); exact Hok].
Qed.

Lemma enforcer_single_plan_verdict_witness :
  exists final_success,
    enforcer_main Sample.no_format_fixed Sample.no_format_value
      {| arg_strict := false; arg_test_plan := Some "UnitTestPlan";
         arg_skip_tests := true |}
      (xcode_run_of (fun _ => SampleMore.clean_run))
    = Returned final_success.
Proof.
  destruct (enforcer_single_plan_verdict Sample.no_format_fixed Sample.no_format_value
              false true "UnitTestPlan" _initialize_thresholds
              (xcode_run_of (fun _ => SampleMore.clean_run)) eq_refl
              ltac:(discriminate)) as (b & H & _).
  exists b. exact H.
Defined.
